(** * Catalogue matching: hose and fitting scorers, matchers and extractors

    A shallow embedding of the scoring, matching and field-extraction code
    of the repository, and the properties of its specification.

    Source files embedded here:
    - [Hose_Scraping/scripts/product_matcher.py]   (module [ProductMatcher])
    - [match_pressarmaturen_WITH_SERIES.py]        (module [WithSeries])
    - [scripts/match_fittings_improved.py]         (module [ImprovedFittings])
    - [Hose_Scraping/scripts/balflex_pdf_parser.py] (module [BalflexPDF])
    - [fix_balflex_hose_sizes.py]                  (module [FixHoseSizes])

    Modelling conventions.
    - A catalogue record is the dictionary loaded from JSON: a finite map
      from field names to values; a value is null, a number or a string.
    - Numbers are binary64 floats ([PrimFloat]).  A JSON integer below 2^52
      in magnitude is represented exactly, and on such values the integer
      and float arithmetic of the interpreter agree for the operations used
      here (subtraction, [abs], [max], true division).
    - Strings are byte strings (UTF-8).  Case mapping, whitespace and digit
      classes act on the ASCII range; other bytes are left unchanged and
      belong to no class.
    - An operation that can raise returns a [result]; a bare [except:]
      is [try_except]. *)

From Stdlib Require Import ZArith String Ascii List Bool Lia Floats DecimalString.
From stdpp Require Import base option gmap strings.
Import ListNotations.

Local Open Scope string_scope.
Local Open Scope Z_scope.

Set Warnings "-inexact-float".

(* ===================================================================== *)
(** * The interpreter's data and built-in operations *)
(* ===================================================================== *)

Module Py.

(** ** Exceptions and results *)

Inductive exn : Set :=
| TypeError | AttributeError | ValueError | ZeroDivisionError
| IndexError | KeyError.

Inductive result (A : Type) : Type :=
| Ok (a : A)
| Raise (e : exn).
Arguments Ok {A} a.
Arguments Raise {A} e.

Definition bind {A B} (m : result A) (k : A -> result B) : result B :=
  match m with
  | Ok a => k a
  | Raise e => Raise e
  end.

(** [try: body / except: handler] with a bare [except]. *)
Definition try_except {A} (body : result A) (handler : result A) : result A :=
  match body with
  | Ok a => Ok a
  | Raise _ => handler
  end.

Declare Scope py_scope.
Delimit Scope py_scope with py.
Notation "x <- m ;; k" := (bind m (fun x => k))
  (at level 100, m at next level, right associativity) : py_scope.

(** ** Values and records *)

Inductive value : Set :=
| VNone
| VNum (x : float)
| VStr (s : string).

Definition truthy (v : value) : bool :=
  match v with
  | VNone => false
  | VNum x => negb (PrimFloat.eqb x 0%float)
  | VStr s => negb (String.eqb s "")
  end.

(** [a or b] on values. *)
Definition py_or (a b : value) : value := if truthy a then a else b.

(** [a == b] on values. *)
Definition py_eq (a b : value) : bool :=
  match a, b with
  | VNone, VNone => true
  | VNum x, VNum y => PrimFloat.eqb x y
  | VStr s, VStr t => String.eqb s t
  | _, _ => false
  end.

(** [d.get(k)] and [d.get(k, default)]. *)
Definition get (d : gmap string value) (k : string) : value :=
  default VNone (d !! k).

Definition get_or (d : gmap string value) (k : string) (dflt : value) : value :=
  default dflt (d !! k).

(** [k in d]. *)
Definition has_key (d : gmap string value) (k : string) : bool :=
  match d !! k with Some _ => true | None => false end.

(** [bool(d)] for a dictionary: non-empty. *)
Definition dict_truthy (d : gmap string value) : bool :=
  negb (bool_decide (d = ∅)).

(** ** Characters *)

Definition code (c : ascii) : nat := nat_of_ascii c.

Definition is_digit (c : ascii) : bool :=
  (Nat.leb 48 (code c) && Nat.leb (code c) 57)%bool.

(** Whitespace of [str.strip], [str.split] and the pattern [\s].  *)
Definition is_space (c : ascii) : bool :=
  let n := code c in
  ((Nat.leb 9 n && Nat.leb n 13) || (Nat.leb 28 n && Nat.leb n 32))%bool.

Definition is_lower (c : ascii) : bool :=
  (Nat.leb 97 (code c) && Nat.leb (code c) 122)%bool.

Definition is_upper (c : ascii) : bool :=
  (Nat.leb 65 (code c) && Nat.leb (code c) 90)%bool.

Definition to_upper (c : ascii) : ascii :=
  if is_lower c then ascii_of_nat (code c - 32) else c.

Definition to_lower (c : ascii) : ascii :=
  if is_upper c then ascii_of_nat (code c + 32) else c.

(** ** String methods *)

Fixpoint map_chars (f : ascii -> ascii) (s : string) : string :=
  match s with
  | EmptyString => EmptyString
  | String c s' => String (f c) (map_chars f s')
  end.

Definition upper (s : string) : string := map_chars to_upper s.
Definition lower (s : string) : string := map_chars to_lower s.

Definition nonempty (s : string) : bool := negb (String.eqb s "").

Fixpoint drop (n : nat) (s : string) : string :=
  match n, s with
  | O, _ => s
  | S n', String _ s' => drop n' s'
  | S _, EmptyString => EmptyString
  end.

Fixpoint take (n : nat) (s : string) : string :=
  match n, s with
  | S n', String c s' => String c (take n' s')
  | _, _ => EmptyString
  end.

Fixpoint starts_with (p s : string) : bool :=
  match p, s with
  | EmptyString, _ => true
  | String a p', String b s' => (Ascii.eqb a b && starts_with p' s')%bool
  | String _ _, EmptyString => false
  end.

(** [p in s] for strings. *)
Fixpoint contains (p s : string) : bool :=
  (starts_with p s ||
   match s with
   | EmptyString => false
   | String _ s' => contains p s'
   end)%bool.

Fixpoint lstrip (s : string) : string :=
  match s with
  | String c s' => if is_space c then lstrip s' else s
  | EmptyString => EmptyString
  end.

Fixpoint all_space (s : string) : bool :=
  match s with
  | EmptyString => true
  | String c s' => (is_space c && all_space s')%bool
  end.

Fixpoint rstrip (s : string) : string :=
  match s with
  | EmptyString => EmptyString
  | String c s' => if all_space s then EmptyString else String c (rstrip s')
  end.

(** [s.strip()]. *)
Definition strip (s : string) : string := rstrip (lstrip s).

(** [s.replace(old, new)] for a non-empty [old]: the occurrences are
    replaced from the left, without overlap.  [fuel] bounds the length. *)
Fixpoint replace_aux (fuel : nat) (old new s : string) : string :=
  match fuel with
  | O => s
  | S fuel' =>
      match s with
      | EmptyString => EmptyString
      | String c s' =>
          if starts_with old s
          then new ++ replace_aux fuel' old new (drop (String.length old) s)
          else String c (replace_aux fuel' old new s')
      end
  end.

Definition replace (old new s : string) : string :=
  replace_aux (String.length s) old new s.

(** [s.isdigit()]. *)
Fixpoint all_digits (s : string) : bool :=
  match s with
  | EmptyString => true
  | String c s' => (is_digit c && all_digits s')%bool
  end.

Definition isdigit (s : string) : bool := (nonempty s && all_digits s)%bool.

(** The leading characters outside a class. *)
Fixpoint take_until (p : ascii -> bool) (s : string) : string :=
  match s with
  | EmptyString => EmptyString
  | String c s' => if p c then EmptyString else String c (take_until p s')
  end.

(** [s.split()[0]]: the first whitespace-delimited word; [IndexError] when
    the string holds none. *)
Definition split_first (s : string) : result string :=
  let w := take_until is_space (lstrip s) in
  if nonempty w then Ok w else Raise IndexError.

(** [s.split(sep)] for a one-character separator. *)
Fixpoint split_on (sep : ascii) (s : string) : list string :=
  match s with
  | EmptyString => [EmptyString]
  | String c s' =>
      if Ascii.eqb c sep then EmptyString :: split_on sep s'
      else match split_on sep s' with
           | w :: ws => String c w :: ws
           | [] => [String c EmptyString]
           end
  end.

(** Methods called on a value: only strings have them. *)
Definition v_lower (v : value) : result string :=
  match v with VStr s => Ok (lower s) | _ => Raise AttributeError end.

Definition v_upper (v : value) : result string :=
  match v with VStr s => Ok (upper s) | _ => Raise AttributeError end.

Definition v_replace (old new : string) (v : value) : result string :=
  match v with VStr s => Ok (replace old new s) | _ => Raise AttributeError end.

(** ** Regular expressions

    The patterns of the source are sequences of quantified character
    classes.  Matching is the backtracking, greedy, leftmost matching of
    [re.search]: each atom first takes as many characters as it can and
    gives them back one by one while the rest of the pattern fails. *)

Inductive cls : Set :=
| Lit (c : ascii)   (* a literal character *)
| Space             (* \s *)
| Digit.            (* \d *)

Record atom : Set := Atom { a_cls : cls; a_min : nat; a_max : option nat }.

Definition regex := list atom.

Definition one (k : cls) : atom := Atom k 1 (Some 1%nat).
Definition star (k : cls) : atom := Atom k 0 None.
Definition plus (k : cls) : atom := Atom k 1 None.
Definition opt (k : cls) : atom := Atom k 0 (Some 1%nat).
Definition rep (n : nat) (k : cls) : atom := Atom k n (Some n).

Fixpoint lits (s : string) : regex :=
  match s with
  | EmptyString => []
  | String c s' => one (Lit c) :: lits s'
  end.

(** [icase] is [re.IGNORECASE]. *)
Definition cls_match (icase : bool) (k : cls) (c : ascii) : bool :=
  match k with
  | Lit a => if icase then Ascii.eqb (to_lower a) (to_lower c) else Ascii.eqb a c
  | Space => is_space c
  | Digit => is_digit c
  end.

(** Length of the longest prefix in the class, at most [cap]. *)
Fixpoint span (p : ascii -> bool) (cap : option nat) (s : string) : nat :=
  match cap, s with
  | Some O, _ => O
  | _, EmptyString => O
  | _, String c s' =>
      if p c then S (span p (option_map Nat.pred cap) s') else O
  end.

(** The lengths taken by the atoms in the first successful match at the
    head of [s]. *)
Fixpoint match_here (icase : bool) (r : regex) (s : string) : option (list nat) :=
  match r with
  | [] => Some []
  | a :: r' =>
      (fix back (k : nat) : option (list nat) :=
         if Nat.ltb k (a_min a) then None
         else match match_here icase r' (drop k s) with
              | Some ls => Some (k :: ls)
              | None => match k with O => None | S k' => back k' end
              end)
        (span (cls_match icase (a_cls a)) (a_max a) s)
  end.

(** A match object: the subject, the start offset and the atoms' lengths. *)
Record rmatch : Set := RMatch { m_subject : string; m_start : nat; m_lens : list nat }.

Fixpoint search_from (icase : bool) (r : regex) (subject s : string) (pos : nat)
  : option rmatch :=
  match match_here icase r s with
  | Some ls => Some (RMatch subject pos ls)
  | None =>
      match s with
      | EmptyString => None
      | String _ s' => search_from icase r subject s' (S pos)
      end
  end.

(** [re.search(r, s)] and [re.search(r, s, re.IGNORECASE)]. *)
Definition search (r : regex) (s : string) : option rmatch :=
  search_from false r s s 0.

Definition isearch (r : regex) (s : string) : option rmatch :=
  search_from true r s s 0.

Definition sum_nat (l : list nat) : nat := fold_right Nat.add O l.

(** The text matched by the atoms [i], ..., [j-1]. *)
Definition group_span (i j : nat) (m : rmatch) : string :=
  let ls := m_lens m in
  take (sum_nat (firstn (j - i) (skipn i ls)))
       (drop (m_start m + sum_nat (firstn i ls)) (m_subject m)).

(** [m.group(0)] / [m.group()]. *)
Definition group0 (m : rmatch) : string :=
  group_span 0 (List.length (m_lens m)) m.

(** ** Numbers *)

Definition f_abs (x : float) : float := PrimFloat.abs x.

(** [max(a, b)]: the first argument unless the second is greater. *)
Definition f_max (a b : float) : float := if PrimFloat.ltb a b then b else a.

(** [a / b] on floats: division by zero raises. *)
Definition f_div (a b : float) : result float :=
  if PrimFloat.eqb b 0%float then Raise ZeroDivisionError else Ok (PrimFloat.div a b).

(** The binary operators on values: numbers only. *)
Definition v_num (v : value) : result float :=
  match v with VNum x => Ok x | _ => Raise TypeError end.

Definition v_sub (a b : value) : result float :=
  match a, b with
  | VNum x, VNum y => Ok (PrimFloat.sub x y)
  | _, _ => Raise TypeError
  end.

Definition v_div (a : value) (b : float) : result float :=
  match a with
  | VNum x => f_div x b
  | _ => Raise TypeError
  end.

(** [max(a, b)] on values: numbers compare with numbers and strings with
    strings; here only numbers reach it. *)
Definition v_max (a b : value) : result float :=
  match a, b with
  | VNum x, VNum y => Ok (f_max x y)
  | _, _ => Raise TypeError
  end.

Definition Z_to_float (z : Z) : float :=
  SF2Prim (binary_normalize prec emax z 0 false).

Definition digit_val (c : ascii) : Z := Z.of_nat (code c - 48).

(** The value of a string of decimal digits. *)
Fixpoint digits_val (acc : Z) (s : string) : Z :=
  match s with
  | EmptyString => acc
  | String c s' => digits_val (10 * acc + digit_val c) s'
  end.

(** [str(n)] for an integer. *)
Definition int_str (n : Z) : string := NilZero.string_of_int (Z.to_int n).

(** Underscores of a numeric literal: allowed between two digits only.
    Returns the text without them. *)
Fixpoint strip_underscores (prev : ascii) (s : string) : option string :=
  match s with
  | EmptyString => if Ascii.eqb prev "_" then None else Some EmptyString
  | String c s' =>
      if Ascii.eqb c "_" then
        if is_digit prev then strip_underscores c s' else None
      else if (Ascii.eqb prev "_" && negb (is_digit c))%bool then None
      else option_map (String c) (strip_underscores c s')
  end.

Definition split_sign (s : string) : bool * string :=
  match s with
  | String "-" s' => (true, s')
  | String "+" s' => (false, s')
  | _ => (false, s)
  end.

(** Largest number of digits [int] converts (the interpreter's default). *)
Definition int_max_str_digits : nat := 4300.

(** [int(s)] for a string, base 10. *)
Definition py_int (s : string) : result Z :=
  let '(neg, body) := split_sign (strip s) in
  match strip_underscores "000" body with
  | None => Raise ValueError
  | Some ds =>
      if (isdigit ds && Nat.leb (String.length ds) int_max_str_digits)%bool
      then Ok (if neg then - digits_val 0 ds else digits_val 0 ds)
      else Raise ValueError
  end.

(** The binary64 nearest to [(-1)^neg * m * 10^e10]. *)
Definition decimal_to_float (neg : bool) (m : Z) (ndigits : nat) (e10 : Z) : float :=
  match m with
  | Zpos p =>
      if 400 <? e10 then (if neg then neg_infinity else infinity)
      else if Z.of_nat ndigits + e10 <? -400 then (if neg then neg_zero else zero)
      else if 0 <=? e10 then
        SF2Prim (binary_normalize prec emax (if neg then - (m * 10 ^ e10) else m * 10 ^ e10) 0 false)
      else
        match 10 ^ (- e10) with
        | Zpos q => SF2Prim (SFdiv prec emax (S754_finite neg p 0) (S754_finite false q 0))
        | _ => nan
        end
  | _ => if neg then neg_zero else zero
  end.

Fixpoint take_digits (s : string) : string :=
  match s with
  | String c s' => if is_digit c then String c (take_digits s') else EmptyString
  | EmptyString => EmptyString
  end.

Fixpoint drop_digits (s : string) : string :=
  match s with
  | String c s' => if is_digit c then drop_digits s' else s
  | EmptyString => EmptyString
  end.

(** The exponent part of a float literal: [[eE][+-]?\d+] up to the end of
    the text, or nothing. *)
Definition parse_exponent (s : string) : option Z :=
  match s with
  | EmptyString => Some 0
  | String c s' =>
      if Ascii.eqb (to_lower c) "e" then
        let '(neg, ds) := split_sign s' in
        if isdigit ds then Some (if neg then - digits_val 0 ds else digits_val 0 ds)
        else None
      else None
  end.

(** [float(s)] for a string. *)
Definition py_float (s : string) : result float :=
  match strip_underscores "000" (strip s) with
  | None => Raise ValueError
  | Some t =>
      let '(neg, body) := split_sign t in
      let low := lower body in
      if (String.eqb low "inf" || String.eqb low "infinity")%bool
      then Ok (if neg then neg_infinity else infinity)
      else if String.eqb low "nan" then Ok nan
      else
        let ip := take_digits body in
        let r1 := drop_digits body in
        let '(fp, r2) :=
          match r1 with
          | String "." r => (take_digits r, drop_digits r)
          | _ => (EmptyString, r1)
          end in
        if (nonempty ip || nonempty fp)%bool then
          match parse_exponent r2 with
          | Some e =>
              Ok (decimal_to_float neg (digits_val 0 (ip ++ fp))
                    (String.length (ip ++ fp)) (e - Z.of_nat (String.length fp)))
          | None => Raise ValueError
          end
        else Raise ValueError
  end.

(** [float(v)]. *)
Definition v_float (v : value) : result float :=
  match v with
  | VNum x => Ok x
  | VStr s => py_float s
  | VNone => Raise TypeError
  end.

(** [round(x, 1)]: the decimal with one digit after the point nearest to
    the exact value of [x] (ties to even), converted back to binary64.
    Infinities and NaN round to themselves. *)
Definition py_round1 (x : float) : float :=
  match Prim2SF x with
  | S754_finite s m e =>
      if 0 <=? e then x
      else
        let num := Zpos m * 10 in
        let den := 2 ^ (- e) in
        let q := num / den in
        let r := num mod den in
        let n := if (den <? 2 * r) then q + 1
                 else if (2 * r =? den) then (if Z.even q then q else q + 1)
                 else q in
        decimal_to_float s n 0 (-1)
  | _ => x
  end.

(** [sep.join(ws)]. *)
Fixpoint join (sep : string) (ws : list string) : string :=
  match ws with
  | [] => EmptyString
  | w :: ws' =>
      match ws' with
      | [] => w
      | _ :: _ => w ++ sep ++ join sep ws'
      end
  end.

End Py.

(* ===================================================================== *)
(** * The hose matcher: [Hose_Scraping/scripts/product_matcher.py] *)
(* ===================================================================== *)

Module ProductMatcher.
Import Py.
Local Open Scope py_scope.

(** The entries of the reasons list.  [Text] is a fixed message; the
    other constructors stand for the formatted messages and keep the
    values formatted into them:
    - [DNMatch d]               "DN match: {d}"
    - [DNClose b h]             "DN close: {b} ≈ {h}"
    - [PressureMatch b h]       "Pressure match: {b:.1f} MPa ≈ {h:.1f} MPa"
    - [PressureSimilar b h]     "Pressure similar: {b:.1f} MPa ≈ {h:.1f} MPa"
    - [StandardMatchEN n]       "Standard match: EN {n}"
    - [StandardCompatible b h]  "Standard compatible: EN {b} / EN {h}"
    - [StandardMatchSAE n]      "Standard match: SAE 100R{n}"
    - [StandardMatch c]         "Standard match: {c}"
    - [StandardSimilar b h]     "Standard similar: {b} / {h}"
    - [ConstructionMatch c]     "Construction match: {c}"  *)
Inductive reason : Set :=
| Text (s : string)
| DNMatch (d : value)
| DNClose (b h : value)
| PressureMatch (b h : float)
| PressureSimilar (b h : float)
| StandardMatchEN (n : string)
| StandardCompatible (b h : string)
| StandardMatchSAE (n : string)
| StandardMatch (c : string)
| StandardSimilar (b h : string)
| ConstructionMatch (c : string).

(** The local variables [score], [max_score] and [reasons]. *)
Record acc : Set := Acc { score : Z; max_score : Z; reasons : list reason }.

Definition acc0 : acc := Acc 0 0 [].

(** [max_score += w]. *)
Definition add_max (w : Z) (a : acc) : acc :=
  Acc (score a) (max_score a + w) (reasons a).

(** [score += p]. *)
Definition add_score (p : Z) (a : acc) : acc :=
  Acc (score a + p) (max_score a) (reasons a).

(** [score += p; reasons.append(r)]. *)
Definition award (p : Z) (r : reason) (a : acc) : acc :=
  Acc (score a + p) (max_score a) (reasons a ++ [r])%list.

(** Lines 63-79: the construction pre-check.  [Some rs] is the early
    [return 0, rs]. *)
Definition pre_check (balflex heizmann : gmap string value)
  : result (option (list reason)) :=
  balflex_const <- v_lower (get_or balflex "construction" (VStr ""));;
  heizmann_const <- v_lower (get_or heizmann "construction" (VStr ""));;
  if (nonempty balflex_const && nonempty heizmann_const)%bool then
    if (contains "textile" balflex_const && contains "wire" heizmann_const)%bool
    then Ok (Some [Text "Construction mismatch: textile vs wire - INCOMPATIBLE"])
    else if (contains "wire" balflex_const && contains "textile" heizmann_const)%bool
    then Ok (Some [Text "Construction mismatch: wire vs textile - INCOMPATIBLE"])
    else if negb (Bool.eqb (contains "spiral" balflex_const)
                           (contains "spiral" heizmann_const))
    then Ok (Some [Text "Construction mismatch: spiral vs non-spiral - INCOMPATIBLE"])
    else Ok None
  else Ok None.

(** Lines 81-93: 1. DN. *)
Definition criterion_dn (balflex heizmann : gmap string value) (a : acc) : result acc :=
  let a := add_max 30 a in
  if (truthy (get balflex "dn") && truthy (get heizmann "dn"))%bool then
    if py_eq (get balflex "dn") (get heizmann "dn") then
      Ok (award 30 (DNMatch (get balflex "dn")) a)
    else
      balflex_dn <- bind (v_replace "DN" "" (get balflex "dn")) py_int;;
      heizmann_dn <- bind (v_replace "DN" "" (get heizmann "dn")) py_int;;
      if Z.abs (balflex_dn - heizmann_dn) <=? 2 then
        Ok (award 15 (DNClose (get balflex "dn") (get heizmann "dn")) a)
      else Ok a
  else Ok a.

(** [abs(x - y) / max(x, y) * 100]. *)
Definition diff_percent (x y : value) : result float :=
  d <- v_sub x y;;
  m <- v_max x y;;
  q <- f_div (f_abs d) m;;
  Ok (q * 100)%float.

(** Lines 104-112: a pressure read from a record with a bar field is
    divided by ten; otherwise it is taken as it is. *)
Definition to_mpa (r : gmap string value) (pressure : value) : result value :=
  if has_key r "working_pressure_bar"
  then x <- v_div pressure 10%float;; Ok (VNum x)
  else Ok pressure.

(** Lines 95-123: 2. Working pressure. *)
Definition criterion_pressure (balflex heizmann : gmap string value) (a : acc)
  : result acc :=
  let a := add_max 25 a in
  let balflex_pressure :=
    py_or (get balflex "working_pressure_mpa") (get balflex "working_pressure_bar") in
  let heizmann_pressure :=
    py_or (get heizmann "working_pressure_mpa") (get heizmann "working_pressure_bar") in
  if (truthy balflex_pressure && truthy heizmann_pressure)%bool then
    balflex_pressure_mpa <- to_mpa balflex balflex_pressure;;
    heizmann_pressure_mpa <- to_mpa heizmann heizmann_pressure;;
    pressure_diff_percent <- diff_percent balflex_pressure_mpa heizmann_pressure_mpa;;
    b <- v_num balflex_pressure_mpa;;
    h <- v_num heizmann_pressure_mpa;;
    if (pressure_diff_percent <=? 5)%float then Ok (award 25 (PressureMatch b h) a)
    else if (pressure_diff_percent <=? 15)%float then Ok (award 15 (PressureSimilar b h) a)
    else if (pressure_diff_percent <=? 30)%float then Ok (add_score 8 a)
    else Ok a
  else Ok a.

(** The patterns of lines 136-141 and 222-227. *)
Definition re_en : regex :=          (* EN\s*(\d{3}) *)
  (lits "EN" ++ [star Space; rep 3 Digit])%list.
Definition re_sae : regex :=         (* SAE\s*\d+R(\d+) *)
  (lits "SAE" ++ [star Space; plus Digit; one (Lit "R"); plus Digit])%list.
Definition re_din_en : regex :=      (* DIN\s*EN\s*\d+ *)
  (lits "DIN" ++ [star Space] ++ lits "EN" ++ [star Space; plus Digit])%list.
Definition re_sae_code : regex :=    (* SAE\s*\d+R\d+ *)
  (lits "SAE" ++ [star Space; plus Digit; one (Lit "R"); plus Digit])%list.
Definition re_en_code : regex :=     (* EN\s*\d+ *)
  (lits "EN" ++ [star Space; plus Digit])%list.
Definition re_iso : regex :=         (* ISO\s*\d+ *)
  (lits "ISO" ++ [star Space; plus Digit])%list.

(** The first pattern of the list that matches decides. *)
Fixpoint first_match (patterns : list regex) (standard : string) : option rmatch :=
  match patterns with
  | [] => None
  | p :: ps =>
      match isearch p standard with
      | Some m => Some m
      | None => first_match ps standard
      end
  end.

Definition _extract_standard_code (standard : string) : string :=
  match first_match [re_din_en; re_sae_code; re_en_code; re_iso] standard with
  | Some m => replace " " "" (group0 m)
  | None => standard
  end.

(** [x in ['853', '857']]. *)
Definition in_853_857 (x : string) : bool :=
  (String.eqb x "853" || String.eqb x "857")%bool.

(** Lines 143-168: the precise comparison of EN and SAE numbers; the
    boolean is [matched]. *)
Definition compare_numbers (balflex_std heizmann_std : string) (a : acc) : bool * acc :=
  match search re_en balflex_std, search re_en heizmann_std with
  | Some balflex_en_num, Some heizmann_en_num =>
      let balflex_num := group_span 3 4 balflex_en_num in
      let heizmann_num := group_span 3 4 heizmann_en_num in
      if String.eqb balflex_num heizmann_num then
        (true, award 20 (StandardMatchEN balflex_num) a)
      else if (in_853_857 balflex_num && in_853_857 heizmann_num)%bool then
        (true, award 10 (StandardCompatible balflex_num heizmann_num) a)
      else (false, a)
  | _, _ =>
      match search re_sae balflex_std, search re_sae heizmann_std with
      | Some balflex_sae, Some heizmann_sae =>
          let balflex_sae_num := group_span 6 7 balflex_sae in
          let heizmann_sae_num := group_span 6 7 heizmann_sae in
          if String.eqb balflex_sae_num heizmann_sae_num then
            (true, award 20 (StandardMatchSAE balflex_sae_num) a)
          else (false, a)
      | _, _ => (false, a)
      end
  end.

(** Lines 125-180: 3. Standard. *)
Definition criterion_standard (balflex heizmann : gmap string value) (a : acc)
  : result acc :=
  let a := add_max 20 a in
  balflex_std <- v_upper (get_or balflex "standard" (VStr ""));;
  heizmann_std <- v_upper (get_or heizmann "standard" (VStr ""));;
  if (nonempty balflex_std && nonempty heizmann_std)%bool then
    let '(matched, a) := compare_numbers balflex_std heizmann_std a in
    if matched then Ok a
    else
      let balflex_std_clean := _extract_standard_code balflex_std in
      let heizmann_std_clean := _extract_standard_code heizmann_std in
      if String.eqb balflex_std_clean heizmann_std_clean then
        Ok (award 20 (StandardMatch balflex_std_clean) a)
      else if (contains balflex_std_clean heizmann_std_clean
               || contains heizmann_std_clean balflex_std_clean)%bool then
        Ok (award 10 (StandardSimilar balflex_std_clean heizmann_std_clean) a)
      else Ok a
  else Ok a.

(** Lines 182-196: 4. Construction type. *)
Definition criterion_construction (balflex heizmann : gmap string value) (a : acc)
  : result acc :=
  let a := add_max 15 a in
  balflex_const <- v_lower (get_or balflex "construction" (VStr ""));;
  heizmann_const <- v_lower (get_or heizmann "construction" (VStr ""));;
  if (nonempty balflex_const && nonempty heizmann_const)%bool then
    if String.eqb balflex_const heizmann_const then
      Ok (award 15 (ConstructionMatch balflex_const) a)
    else if ((contains "1 wire" balflex_const && contains "1 wire" heizmann_const)
             || (contains "2 wire" balflex_const && contains "2 wire" heizmann_const)
             || (contains "spiral" balflex_const && contains "spiral" heizmann_const))%bool
    then Ok (award 12 (Text "Construction similar") a)
    else Ok a
  else Ok a.

(** Lines 198-208: 5. Inner diameter. *)
Definition criterion_inner_diameter (balflex heizmann : gmap string value) (a : acc)
  : result acc :=
  let a := add_max 10 a in
  if (truthy (get balflex "inner_diameter_mm")
      && truthy (get heizmann "inner_diameter_mm"))%bool then
    dia_diff_percent <-
      diff_percent (get balflex "inner_diameter_mm") (get heizmann "inner_diameter_mm");;
    if (dia_diff_percent <=? 5)%float then Ok (award 10 (Text "Inner diameter match") a)
    else if (dia_diff_percent <=? 15)%float then Ok (add_score 5 a)
    else Ok a
  else Ok a.

(** [a / b] on integers: the correctly rounded quotient. *)
Definition int_truediv (a b : Z) : result float :=
  if b =? 0 then Raise ZeroDivisionError
  else
    Ok (SF2Prim (SFdiv prec emax
                   (binary_normalize prec emax a 0 false)
                   (binary_normalize prec emax b 0 false))).

(** Lines 210-214: the normalisation to 0-100. *)
Definition normalize (a : acc) : result float :=
  if 0 <? max_score a then
    q <- int_truediv (score a) (max_score a);;
    Ok (q * 100)%float
  else Ok 0%float.

(** The five criteria in sequence, from the initial values of the locals. *)
Definition run_criteria (balflex heizmann : gmap string value) : result acc :=
  a <- criterion_dn balflex heizmann acc0;;
  a <- criterion_pressure balflex heizmann a;;
  a <- criterion_standard balflex heizmann a;;
  a <- criterion_construction balflex heizmann a;;
  criterion_inner_diameter balflex heizmann a.

Definition _calculate_match_score (balflex heizmann : gmap string value)
  : result (float * list reason) :=
  rejected <- pre_check balflex heizmann;;
  match rejected with
  | Some rs => Ok (0%float, rs)
  | None =>
      a <- run_criteria balflex heizmann;;
      normalized_score <- normalize a;;
      Ok (normalized_score, reasons a)
  end.

Definition _score_to_quality (score : float) : string :=
  if (80 <=? score)%float then "Excellent Match"
  else if (60 <=? score)%float then "Good Match"
  else if (40 <=? score)%float then "Fair Match"
  else "Possible Match".

(** A match entry.  The source flattens the identifying fields of the two
    products into it; here the two products are kept whole. *)
Record match_entry : Type := MatchEntry {
  match_score : float;
  match_quality : string;
  match_reasons : list reason;
  entry_balflex : gmap string value;
  entry_heizmann : gmap string value
}.

Definition _create_match_entry (balflex heizmann : gmap string value)
  (score : float) (reasons : list reason) : match_entry :=
  MatchEntry (py_round1 score) (_score_to_quality score) reasons balflex heizmann.

(** The locals of the inner loop: [best_match], [best_score], [best_reasons]. *)
Record best : Type := Best {
  best_match : option (gmap string value);
  best_score : float;
  best_reasons : list reason
}.

(** Lines 38-44: the scan of the Heizmann products. *)
Fixpoint scan (balflex : gmap string value) (heizmann_products : list (gmap string value))
  (st : best) : result best :=
  match heizmann_products with
  | [] => Ok st
  | heizmann :: rest =>
      r <- _calculate_match_score balflex heizmann;;
      let '(score, reasons) := r in
      scan balflex rest
        (if (best_score st <? score)%float then Best (Some heizmann) score reasons else st)
  end.

(** Lines 35-49: the body of the outer loop, for one Balflex product. *)
Definition match_one (balflex : gmap string value)
  (heizmann_products : list (gmap string value)) : result (list match_entry) :=
  st <- scan balflex heizmann_products (Best None 0%float []);;
  match best_match st with
  | Some heizmann =>
      if (dict_truthy heizmann && (30 <=? best_score st)%float)%bool
      then Ok [_create_match_entry balflex heizmann (best_score st) (best_reasons st)]
      else Ok []
  | None => Ok []
  end.

Fixpoint match_products (balflex_products heizmann_products : list (gmap string value))
  : result (list match_entry) :=
  match balflex_products with
  | [] => Ok []
  | balflex :: rest =>
      ms <- match_one balflex heizmann_products;;
      ms' <- match_products rest heizmann_products;;
      Ok (ms ++ ms')%list
  end.

End ProductMatcher.

(* ===================================================================== *)
(** * The series-validated fittings matcher:
      [match_pressarmaturen_WITH_SERIES.py] *)
(* ===================================================================== *)

Module WithSeries.
Import Py.
Local Open Scope py_scope.

(** [for base in [...]: if base in std_upper: return base]. *)
Fixpoint first_contained (bases : list string) (std_upper : string) : option string :=
  match bases with
  | [] => None
  | base :: rest =>
      if contains base std_upper then Some base else first_contained rest std_upper
  end.

Definition normalize_standard (std : value) : result (option string) :=
  if negb (truthy std) then Ok None
  else
    std_upper <- v_upper std;;
    Ok (first_contained ["ISO"; "JIS"; "BSP"; "NPT"; "JIC"; "ORFS"; "SAE"; "DIN"] std_upper).

(** The pattern [(\d+)°]; the degree sign is two bytes in UTF-8. *)
Definition re_degree : regex := (plus Digit :: lits "°")%list.

(** [re.search(pattern, v)]: a subject that is not a string is a [TypeError]. *)
Definition v_search (r : regex) (v : value) : result (option rmatch) :=
  match v with
  | VStr s => Ok (search r s)
  | _ => Raise TypeError
  end.

Definition normalize_seat_type (seat : value) : result (option string) :=
  if negb (truthy seat) then Ok None
  else
    m <- v_search re_degree seat;;
    match m with
    | Some m => Ok (Some (group_span 0 1 m ++ "° Cone"))
    | None =>
        low <- v_lower seat;;
        if contains "flat" low then Ok (Some "Flat Face")
        else if (contains "o-ring" low || contains "oring" low)%bool then Ok (Some "O-Ring")
        else Ok None
    end.

(** [for keyword in keywords: if keyword in combined: ...]. *)
Definition any_contained (keywords : list string) (combined : string) : bool :=
  existsb (fun keyword => contains keyword combined) keywords.

Section Scorer.

(** The text of a number in a formatted string ([repr] of a float) is the
    interpreter's; it is a parameter here. *)
Variable float_repr : float -> string.

(** [f"{v}"]. *)
Definition format_value (v : value) : string :=
  match v with
  | VNone => "None"
  | VNum x => float_repr x
  | VStr s => s
  end.

Definition determine_gender_heizmann (heizmann_item : gmap string value) : result string :=
  let connection := get_or heizmann_item "connection_type" (VStr "") in
  let ident := get_or heizmann_item "identification" (VStr "") in
  let model := get_or heizmann_item "model" (VStr "") in
  by_connection <-
    (if truthy connection then
       low <- v_lower connection;;
       if (contains "innengewinde" low || contains "innenkegel" low)%bool
       then Ok (Some "Female")
       else if (contains "aussengewinde" low || contains "aussenkegel" low)%bool
       then Ok (Some "Male")
       else Ok None
     else Ok None);;
  match by_connection with
  | Some g => Ok g
  | None =>
      let combined := lower (format_value model ++ " " ++ format_value ident) in
      if any_contained ["muffe"; "mutter"; "female"; "socket"; "coupler"] combined
      then Ok "Female"
      else if any_contained ["nippel"; "stecker"; "male"; "plug"; "stem"] combined
      then Ok "Male"
      else Ok "Unknown"
  end.

(** The entries of the warnings list:
    - [AngleMismatch h b]    "ANGLE MISMATCH: {h} ≠ {b}"
    - [SeriesMismatch h b]   "SERIES MISMATCH: {h} (pressure) ≠ {b} (pressure)"
    - [StandardMismatch h b] "STANDARD MISMATCH: {h} ≠ {b}"
    - [AngleMissing h b]     "Angle missing in one product (H:{h}, B:{b})"
    - [SeriesMissing h b]    "Series (L/S) missing in one product (H:{h}, B:{b})"
    - [DNMismatch h b]       "DN mismatch: {h:.1f} vs {b:.1f}mm"
    - [SeatMismatch h b]     "Seat mismatch: {h} ≠ {b}"
    - [GenderMismatch h b]   "⚠️ Gender mismatch: {h} ≠ {b}"
    - [Warn s]               the fixed message [s] *)
Inductive warning : Set :=
| AngleMismatch (h b : value)
| SeriesMismatch (h b : value)
| StandardMismatch (h b : string)
| AngleMissing (h b : value)
| SeriesMissing (h b : value)
| DNMismatch (h b : float)
| SeatMismatch (h b : string)
| GenderMismatch (h : string) (b : value)
| Warn (s : string).

(** The entries of the reasons list:
    - [Angle a]      "Angle: {a}"
    - [Series s]     "Series: {s}"
    - [Standard s]   "Standard: {s}"
    - [DN x]         "DN: {x:.1f}mm"
    - [DNClose h b]  "DN close: {h:.1f}≈{b:.1f}mm"
    - [Seat s]       "Seat: {s}"
    - [Gender g]     "Gender: {g}"
    - [Warnings ws]  "[Warnings: {'; '.join(ws)}]" *)
Inductive reason : Set :=
| Angle (a : value)
| Series (s : value)
| Standard (s : string)
| DN (x : float)
| DNClose (h b : float)
| Seat (s : string)
| Gender (g : string)
| Warnings (ws : list warning).

(** The locals [score], [reasons] and [warnings]. *)
Record acc : Set := Acc { score : Z; reasons : list reason; warnings : list warning }.

Definition award (p : Z) (r : reason) (a : acc) : acc :=
  Acc (score a + p) (reasons a ++ [r])%list (warnings a).

Definition warn (w : warning) (a : acc) : acc :=
  Acc (score a) (reasons a) (warnings a ++ [w])%list.

(** A mandatory criterion either lets the evaluation continue or makes the
    function [return 0, [], [w]]. *)
Inductive outcome : Set :=
| Continue (a : acc)
| Reject (w : warning).

(** Lines 125-136: criterion 1, angle. *)
Definition criterion_angle (heizmann_angle balflex_angle : value) (a : acc) : outcome :=
  if (truthy heizmann_angle && truthy balflex_angle)%bool then
    if py_eq heizmann_angle balflex_angle
    then Continue (award 20 (Angle heizmann_angle) a)
    else Reject (AngleMismatch heizmann_angle balflex_angle)
  else if (truthy heizmann_angle || truthy balflex_angle)%bool
  then Continue (warn (AngleMissing heizmann_angle balflex_angle) a)
  else Continue a.

(** Lines 138-149: criterion 2, series. *)
Definition criterion_series (heizmann_series balflex_series : value) (a : acc) : outcome :=
  if (truthy heizmann_series && truthy balflex_series)%bool then
    if py_eq heizmann_series balflex_series
    then Continue (award 20 (Series heizmann_series) a)
    else Reject (SeriesMismatch heizmann_series balflex_series)
  else if (truthy heizmann_series || truthy balflex_series)%bool
  then Continue (warn (SeriesMissing heizmann_series balflex_series) a)
  else Continue a.

(** Lines 151-161: criterion 3, standard.  The normalised standards are
    [None] or a non-empty family name. *)
Definition criterion_standard (heizmann_std balflex_std : option string) (a : acc)
  : outcome :=
  match heizmann_std, balflex_std with
  | Some h, Some b =>
      if String.eqb h b then Continue (award 30 (Standard h) a)
      else Reject (StandardMismatch h b)
  | None, None => Continue a
  | _, _ => Continue (warn (Warn "Standard missing in one product") a)
  end.

(** Lines 163-183: criterion 4, DN.  The conversions are the only
    operations of the [try] block that can raise, and they come before
    any update of the locals. *)
Definition criterion_dn (heizmann_dn balflex_dn : value) (a : acc) : result acc :=
  if (truthy heizmann_dn && truthy balflex_dn)%bool then
    try_except
      (heizmann_dn_val <- v_float heizmann_dn;;
       balflex_dn_val <- v_float balflex_dn;;
       if (f_abs (heizmann_dn_val - balflex_dn_val) <=? 0.5)%float
       then Ok (award 25 (DN heizmann_dn_val) a)
       else if (f_abs (heizmann_dn_val - balflex_dn_val) <=? 2)%float
       then Ok (award 12 (DNClose heizmann_dn_val balflex_dn_val) a)
       else Ok (warn (DNMismatch heizmann_dn_val balflex_dn_val) a))
      (Ok (warn (Warn "DN values not comparable") a))
  else if (truthy heizmann_dn || truthy balflex_dn)%bool
  then Ok (warn (Warn "DN missing in one product") a)
  else Ok a.

(** Lines 185-193: criterion 5, seat type. *)
Definition criterion_seat (heizmann_seat balflex_seat : option string) (a : acc) : acc :=
  match heizmann_seat, balflex_seat with
  | Some h, Some b =>
      if String.eqb h b then award 5 (Seat h) a
      else warn (SeatMismatch h b) a
  | None, None => a
  | _, _ => warn (Warn "Seat type missing in one product") a
  end.

(** Lines 195-200: the gender check, which gives no points. *)
Definition check_gender (heizmann_gender : string) (balflex_gender : value) (a : acc) : acc :=
  if (nonempty heizmann_gender && truthy balflex_gender
      && negb (String.eqb heizmann_gender "Unknown")
      && negb (py_eq balflex_gender (VStr "Unknown")))%bool
  then
    if py_eq (VStr heizmann_gender) balflex_gender
    then Acc (score a) (reasons a ++ [Gender heizmann_gender])%list (warnings a)
    else warn (GenderMismatch heizmann_gender balflex_gender) a
  else a.

(** Lines 202-204. *)
Definition add_warnings (a : acc) : acc :=
  match warnings a with
  | [] => a
  | ws => Acc (score a) (reasons a ++ [Warnings ws])%list (warnings a)
  end.

Definition calculate_match_score (heizmann_item balflex_item : gmap string value)
  : result (Z * list reason * list warning) :=
  let heizmann_angle := get heizmann_item "angle" in
  let balflex_angle := get balflex_item "angle" in
  let heizmann_series := get heizmann_item "series" in
  let balflex_series := get balflex_item "series" in
  let heizmann_dn := get heizmann_item "dn" in
  let balflex_dn := get balflex_item "hose_size_mm" in
  heizmann_std <- normalize_standard (get heizmann_item "standard");;
  balflex_std <- normalize_standard (get balflex_item "standard");;
  heizmann_seat <- normalize_seat_type (get heizmann_item "seat_type");;
  balflex_seat <- normalize_seat_type (get balflex_item "seat_type");;
  heizmann_gender <- determine_gender_heizmann heizmann_item;;
  let balflex_gender := get balflex_item "gender" in
  match criterion_angle heizmann_angle balflex_angle (Acc 0 [] []) with
  | Reject w => Ok (0, [], [w])
  | Continue a =>
      match criterion_series heizmann_series balflex_series a with
      | Reject w => Ok (0, [], [w])
      | Continue a =>
          match criterion_standard heizmann_std balflex_std a with
          | Reject w => Ok (0, [], [w])
          | Continue a =>
              a <- criterion_dn heizmann_dn balflex_dn a;;
              let a := criterion_seat heizmann_seat balflex_seat a in
              let a := check_gender heizmann_gender balflex_gender a in
              let a := add_warnings a in
              Ok (score a, reasons a, warnings a)
          end
      end
  end.

(** [d[k]]: a missing key is a [KeyError]. *)
Definition item (d : gmap string value) (k : string) : result value :=
  match d !! k with
  | Some v => Ok v
  | None => Raise KeyError
  end.

(** An entry of the matches list.  The source copies some thirty fields of
    the two products into it; the two products are kept whole here, with
    the six fields that are read by subscript. *)
Record match_entry : Type := MatchEntry {
  Heizmann_Model : value;
  Heizmann_Article : value;
  Heizmann_Reference : value;
  Heizmann_URL : value;
  Balflex_Reference : value;
  Balflex_Article : value;
  Match_Score : Z;
  Match_Quality : string;
  Match_Reasons : list reason;
  entry_heizmann : gmap string value;
  entry_balflex : gmap string value
}.

Definition quality_of (best_score : Z) : string :=
  if 90 <=? best_score then "Excellent"
  else if 75 <=? best_score then "Very Good"
  else if 60 <=? best_score then "Good"
  else "Fair".

(** The locals of the inner loop. *)
Record best : Type := Best {
  best_match : option (gmap string value);
  best_score : Z;
  best_reasons : list reason
}.

(** Lines 225-240: the scan of the Balflex products.  The rejection
    counters, which are only printed, are left out. *)
Fixpoint scan (heizmann_item : gmap string value) (balflex_data : list (gmap string value))
  (min_threshold : Z) (st : best) : result best :=
  match balflex_data with
  | [] => Ok st
  | balflex_item :: rest =>
      r <- calculate_match_score heizmann_item balflex_item;;
      let '(score, reasons, _) := r in
      scan heizmann_item rest min_threshold
        (if ((best_score st <? score) && (min_threshold <=? score))%bool
         then Best (Some balflex_item) score reasons
         else st)
  end.

(** Lines 221-289: the body of the outer loop, for one Heizmann product. *)
Definition match_one (heizmann_item : gmap string value)
  (balflex_data : list (gmap string value)) (min_threshold : Z)
  : result (list match_entry) :=
  st <- scan heizmann_item balflex_data min_threshold (Best None 0 []);;
  match best_match st with
  | Some balflex_item =>
      if dict_truthy balflex_item then
        h_model <- item heizmann_item "model";;
        h_article <- item heizmann_item "article_number";;
        h_reference <- item heizmann_item "reference";;
        h_url <- item heizmann_item "url";;
        b_reference <- item balflex_item "reference";;
        b_article <- item balflex_item "article_number";;
        Ok [MatchEntry h_model h_article h_reference h_url b_reference b_article
              (best_score st) (quality_of (best_score st)) (best_reasons st)
              heizmann_item balflex_item]
      else Ok []
  | None => Ok []
  end.

Fixpoint match_products (heizmann_data balflex_data : list (gmap string value))
  (min_threshold : Z) : result (list match_entry) :=
  match heizmann_data with
  | [] => Ok []
  | heizmann_item :: rest =>
      ms <- match_one heizmann_item balflex_data min_threshold;;
      ms' <- match_products rest balflex_data min_threshold;;
      Ok (ms ++ ms')%list
  end.

End Scorer.

End WithSeries.

(* ===================================================================== *)
(** * The improved fittings matcher: [scripts/match_fittings_improved.py] *)
(* ===================================================================== *)

Module ImprovedFittings.
Import Py.
Local Open Scope py_scope.

(** [x in v] for a string [x]: the container must be a string. *)
Definition v_contains (x : string) (v : value) : result bool :=
  match v with
  | VStr s => Ok (contains x s)
  | _ => Raise TypeError
  end.

Definition _size_compatible (dash : string) (size : value) : result bool :=
  try_except
    (dash_num <- py_int dash;;
     found <- v_contains (int_str dash_num) size;;
     Ok found)
    (Ok false).

(** Lines 84-100: thread type. *)
Definition thread_points (bal_thread heiz_thread : string) : Z :=
  if (nonempty bal_thread && nonempty heiz_thread)%bool then
    if String.eqb bal_thread heiz_thread then 40
    else if (contains "BSP" bal_thread && contains "BSP" heiz_thread)%bool then 40
    else if (contains "ORFS" bal_thread && contains "ORFS" heiz_thread)%bool then 40
    else if (contains "JIC" bal_thread && contains "JIC" heiz_thread)%bool then 40
    else if (contains "METRIC" bal_thread && contains "METRIC" heiz_thread)%bool then 40
    else if (contains "NPT" bal_thread && contains "NPT" heiz_thread)%bool then 40
    else 0
  else 0.

(** Lines 102-110: dash size. *)
Definition dash_points (bal_dash : string) (heiz_size : value) : result Z :=
  if (nonempty bal_dash && truthy heiz_size)%bool then
    inside <- v_contains bal_dash heiz_size;;
    if inside then Ok 30
    else
      compatible <- _size_compatible bal_dash heiz_size;;
      if compatible then Ok 20 else Ok 0
  else Ok 0.

(** Lines 112-119: category. *)
Definition category_points (bal_cat heiz_cat : string) : Z :=
  if String.eqb bal_cat heiz_cat then 15
  else if existsb (fun word => contains word heiz_cat)
            (List.filter (fun word => contains word bal_cat) ["PRESS"; "ADAPTER"; "FLANGE"])
  then 10
  else 0.

(** The pattern [\d+]. *)
Definition re_digits : regex := [plus Digit].

Definition v_search (r : regex) (v : value) : result (option rmatch) :=
  match v with
  | VStr s => Ok (search r s)
  | _ => Raise TypeError
  end.

(** Lines 121-136: hose size. *)
Definition hose_points (bal_hose heiz_dn : value) : result Z :=
  if (truthy bal_hose && truthy heiz_dn)%bool then
    try_except
      (bal_mm <- v_float bal_hose;;
       dn_match <- v_search re_digits heiz_dn;;
       match dn_match with
       | Some m =>
           heiz_mm <- py_float (group0 m);;
           if (f_abs (bal_mm - heiz_mm) <=? 3)%float then Ok 15
           else if (f_abs (bal_mm - heiz_mm) <=? 6)%float then Ok 10
           else Ok 0
       | None => Ok 0
       end)
      (Ok 0)
  else Ok 0.

Definition _calculate_score (bal heiz : gmap string value) : result Z :=
  let score := 0 in
  bal_thread <- v_upper (get_or bal "thread_type" (VStr ""));;
  heiz_thread <- v_upper (get_or heiz "thread_type" (VStr ""));;
  let score := score + thread_points bal_thread heiz_thread in
  bal_dash <- v_replace "-" "" (get_or bal "dash_size" (VStr ""));;
  let heiz_size := get_or heiz "size" (VStr "") in
  p <- dash_points bal_dash heiz_size;;
  let score := score + p in
  bal_cat <- v_upper (get_or bal "category" (VStr ""));;
  heiz_cat <- v_upper (get_or heiz "category" (VStr ""));;
  let score := score + category_points bal_cat heiz_cat in
  let bal_hose := get_or bal "hose_size_mm" (VStr "") in
  let heiz_dn := get_or heiz "DN" (VStr "") in
  p <- hose_points bal_hose heiz_dn;;
  let score := score + p in
  Ok score.

Definition _threads_compatible (bal heiz : gmap string value) : result bool :=
  bal_thread <- v_upper (get_or bal "thread_type" (VStr ""));;
  heiz_thread <- v_upper (get_or heiz "thread_type" (VStr ""));;
  if (negb (nonempty bal_thread) || negb (nonempty heiz_thread))%bool then Ok false
  else if String.eqb bal_thread heiz_thread then Ok true
  else if (contains "BSP" bal_thread && contains "BSP" heiz_thread)%bool then Ok true
  else if (contains "ORFS" bal_thread
           && (contains "ORFS" heiz_thread || contains "UNF" heiz_thread))%bool then Ok true
  else if (contains "JIC" bal_thread && contains "JIC" heiz_thread)%bool then Ok true
  else if (contains "METRIC" bal_thread && contains "METRIC" heiz_thread)%bool then Ok true
  else if (contains "SCHNEIDRING" bal_thread && contains "SCHNEIDRING" heiz_thread)%bool
  then Ok true
  else if (contains "NPT" bal_thread && contains "NPT" heiz_thread)%bool then Ok true
  else Ok false.

(** The categories that are not fittings. *)
Definition excluded : list string :=
  ["Staub- & Gewindeschutz"; "Hydraulik-Dichtungen"; "Sortimente";
   "Rohrtechnik"; "Messtechnik"; "Leitungszubehör"].

(** [f.get('category') not in excluded]. *)
Definition is_valid (f : gmap string value) : bool :=
  negb (existsb (fun c => py_eq (get f "category") (VStr c)) excluded).

(** An entry of the matches list: the two fittings, whose fields the
    source copies with [get], and the score. *)
Record match_entry : Type := MatchEntry {
  entry_balflex : gmap string value;
  entry_heizmann : gmap string value;
  match_score : Z
}.

(** The locals of the inner loop. *)
Record best : Type := Best {
  best_match : option (gmap string value);
  best_score : Z
}.

(** Lines 48-56. *)
Fixpoint scan (bal : gmap string value) (valid_heizmann : list (gmap string value))
  (st : best) : result best :=
  match valid_heizmann with
  | [] => Ok st
  | heiz :: rest =>
      score <- _calculate_score bal heiz;;
      st' <- (if ((best_score st <? score) && (55 <=? score))%bool then
                compatible <- _threads_compatible bal heiz;;
                if compatible then Ok (Best (Some heiz) score) else Ok st
              else Ok st);;
      scan bal rest st'
  end.

(** Lines 45-75: the body of the outer loop, for one Balflex fitting. *)
Definition match_one (bal : gmap string value) (valid_heizmann : list (gmap string value))
  : result (list match_entry) :=
  st <- scan bal valid_heizmann (Best None 0);;
  match best_match st with
  | Some heiz =>
      if dict_truthy heiz then Ok [MatchEntry bal heiz (best_score st)] else Ok []
  | None => Ok []
  end.

Fixpoint match_all (balflex_fittings valid_heizmann : list (gmap string value))
  : result (list match_entry) :=
  match balflex_fittings with
  | [] => Ok []
  | bal :: rest =>
      ms <- match_one bal valid_heizmann;;
      ms' <- match_all rest valid_heizmann;;
      Ok (ms ++ ms')%list
  end.

(** [ImprovedFittingsMatcher.match]. *)
Definition match_ (balflex_fittings heizmann_fittings : list (gmap string value))
  : result (list match_entry) :=
  match_all balflex_fittings (List.filter is_valid heizmann_fittings).

(** [sum(1 for m in matches if p(m['match_score']))]. *)
Definition count_scores (p : Z -> bool) (matches : list match_entry) : Z :=
  Z.of_nat (List.length (List.filter (fun m => p (match_score m)) matches)).

(** Lines 246-257, the report of the script: the average score and the
    numbers of excellent, good and fair matches.  The three percentages,
    which are printed, are kept for the division. *)
Definition report (matches : list match_entry) : result (float * Z * Z * Z) :=
  let n := Z.of_nat (List.length matches) in
  avg_score <-
    (match matches with
     | [] => Ok 0%float
     | _ :: _ =>
         ProductMatcher.int_truediv
           (fold_right Z.add 0 (map match_score matches)) n
     end);;
  let excellent := count_scores (fun s => 80 <=? s) matches in
  let good := count_scores (fun s => (60 <=? s) && (s <? 80))%bool matches in
  let fair := count_scores (fun s => (45 <=? s) && (s <? 60))%bool matches in
  _ <- ProductMatcher.int_truediv excellent n;;
  _ <- ProductMatcher.int_truediv good n;;
  _ <- ProductMatcher.int_truediv fair n;;
  Ok (avg_score, excellent, good, fair).

End ImprovedFittings.

(* ===================================================================== *)
(** * The catalogue extractor: [Hose_Scraping/scripts/balflex_pdf_parser.py] *)
(* ===================================================================== *)

Module BalflexPDF.
Import Py.
Local Open Scope py_scope.

(** A table cell is a string or [None]; a row is a list of cells. *)
Definition cell := option string.

(** [str(cell)]. *)
Definition cell_str (c : cell) : string :=
  match c with
  | Some s => s
  | None => "None"
  end.

Definition _clean_cell (c : cell) : string :=
  match c with
  | None => ""
  | Some s => replace (String "010" "") " " (strip s)
  end.

(** The pattern [\d+] [\.?] [\d*], in one group. *)
Definition re_number : regex := [plus Digit; opt (Lit "."); star Digit].
(** The pattern [DN] [\s*] [(\d+)]. *)
Definition re_dn : regex := (lits "DN" ++ [star Space; plus Digit])%list.

Definition _extract_float (c : cell) : result (option float) :=
  match c with
  | None => Ok None
  | Some s =>
      let text := strip s in
      let text := replace "," "." text in
      match search re_number text with
      | Some m =>
          try_except (x <- py_float (group_span 0 3 m);; Ok (Some x)) (Ok None)
      | None => Ok None
      end
  end.

Definition _determine_construction (model_name standard : string) : string :=
  let combined := upper (model_name ++ " " ++ standard) in
  if (contains "4SP" combined || contains "4SH" combined || contains "SPIRAL" combined)%bool
  then "spiral wire"
  else if (contains "R12" combined || contains "R13" combined || contains "R15" combined)%bool
  then "spiral wire"
  else if (contains "2SC" combined || contains "2SN" combined)%bool then "2 wire braid"
  else if (contains "1SC" combined || contains "1SN" combined)%bool then "1 wire braid"
  else if (contains "TEXTILE" combined || contains "TEXMASTER" combined)%bool
  then "textile braid"
  else "wire braid".

(** The fixed column positions; the argument is not used. *)
Definition _find_column_indices (headers : list cell) : gmap string nat :=
  <["bend_radius" := 10%nat]>
  (<["burst_pressure" := 8%nat]>
  (<["working_pressure" := 7%nat]>
  (<["outer_dia" := 6%nat]>
  (<["inner_dia" := 5%nat]>
  (<["sae_dash" := 4%nat]>
  (<["inch" := 3%nat]>
  (<["dn" := 2%nat]>
  (<["article" := 1%nat]>
  (<["reference" := 0%nat]> ∅))))))))).

(** [if name in col_indices and col_indices[name] < len(row)]: the cell
    to read, when the guard holds. *)
Definition column (col_indices : gmap string nat) (name : string) (row : list cell)
  : option cell :=
  match col_indices !! name with
  | Some i => if Nat.ltb i (List.length row) then row !! i else None
  | None => None
  end.

(** [if s: product[k] = s]. *)
Definition set_text (k s : string) (product : gmap string value) : gmap string value :=
  if nonempty s then <[k := VStr s]> product else product.

(** [if x: product[k] = x] for an extracted number. *)
Definition set_number (k : string) (x : option float) (product : gmap string value)
  : gmap string value :=
  match x with
  | Some x => if truthy (VNum x) then <[k := VNum x]> product else product
  | None => product
  end.

(** Lines 240-247: the DN text of a cleaned cell, if any. *)
Definition dn_of (dn : string) : option string :=
  if nonempty dn then
    match search re_dn (upper dn) with
    | Some dn_match => Some ("DN" ++ group_span 3 4 dn_match)
    | None => if isdigit dn then Some ("DN" ++ dn) else None
    end
  else None.

(** Lines 269-271: the text given to [_extract_float] for the working
    pressure: the first word of a cell that holds a space. *)
Definition first_number_text (wp_cell : string) : result string :=
  if contains " " wp_cell then split_first wp_cell else Ok wp_cell.

Definition _extract_product_from_row (row : list cell) (col_indices : gmap string nat)
  (model_name standard : string) : result (option (gmap string value)) :=
  if Nat.ltb (List.length row) 8 then Ok None
  else
    let product : gmap string value :=
      <["model" := VStr model_name]> (<["supplier" := VStr "Balflex"]> ∅) in
    let product :=
      match column col_indices "reference" row with
      | Some c => set_text "reference" (_clean_cell c) product
      | None => product
      end in
    let product :=
      match column col_indices "article" row with
      | Some c => set_text "article_number" (_clean_cell c) product
      | None => product
      end in
    let product :=
      match column col_indices "dn" row with
      | Some c =>
          match dn_of (_clean_cell c) with
          | Some dn => <["dn" := VStr dn]> product
          | None => product
          end
      | None => product
      end in
    let product :=
      match column col_indices "inch" row with
      | Some c => set_text "inch_size" (_clean_cell c) product
      | None => product
      end in
    product <-
      match column col_indices "inner_dia" row with
      | Some c => inner <- _extract_float c;; Ok (set_number "inner_diameter_mm" inner product)
      | None => Ok product
      end;;
    product <-
      match column col_indices "outer_dia" row with
      | Some c => outer <- _extract_float c;; Ok (set_number "outer_diameter_mm" outer product)
      | None => Ok product
      end;;
    product <-
      match column col_indices "working_pressure" row with
      | Some c =>
          text <- first_number_text (cell_str c);;
          wp <- _extract_float (Some text);;
          Ok (set_number "working_pressure_mpa" wp product)
      | None => Ok product
      end;;
    product <-
      match column col_indices "burst_pressure" row with
      | Some c => bp <- _extract_float c;; Ok (set_number "burst_pressure_mpa" bp product)
      | None => Ok product
      end;;
    let product := set_text "standard" standard product in
    let product :=
      <["construction" := VStr (_determine_construction model_name standard)]> product in
    if (truthy (get product "dn") && truthy (get product "article_number"))%bool
    then Ok (Some product)
    else Ok None.

(** ** The model name and the standard of a page (lines 69-133) *)

(** The known model names, in the order they are looked for. *)
Definition models : list string :=
  ["POWERSPIR BESTFLEX"; "BALMASTER BESTFLEX"; "BALPAC IMPACTUS"; "TEXMASTER";
   "BALFLON"; "FORZA"; "MULTIFLEX"; "MULTIPURPOSE"].

(** Lines 84-91, for the models that are left to try. *)
Fixpoint model_name_among (models : list string) (text : string) : string :=
  match models with
  | [] => EmptyString
  | model :: rest =>
      if contains model (upper text) then
        match List.find (fun line => contains model (upper line)) (split_on "010" text) with
        | Some line => List.hd EmptyString (split_on "010" (strip line))
        | None => model_name_among rest text
        end
      else model_name_among rest text
  end.

Definition _extract_model_name (text : string) : string :=
  model_name_among models text.

(** The patterns of [_extract_standard] have two more classes and a group
    that may be absent. *)
Inductive cset : Set :=
| Basic (k : cls)
| UpperDigit        (* [A-Z0-9] *)
| Upper.            (* [A-Z] *)

Definition cset_match (icase : bool) (k : cset) (c : ascii) : bool :=
  match k with
  | Basic k => cls_match icase k c
  | UpperDigit => (is_upper c || is_digit c || (icase && is_lower c))%bool
  | Upper => (is_upper c || (icase && is_lower c))%bool
  end.

Record qatom : Set := QAtom { q_set : cset; q_min : nat; q_max : option nat }.

Inductive item : Set :=
| One (a : qatom)
| Optional (body : list qatom).   (* (?: body )? *)

Definition lit (c : ascii) : item := One (QAtom (Basic (Lit c)) 1 (Some 1%nat)).
Definition q_star (k : cset) : qatom := QAtom k 0 None.
Definition q_plus (k : cset) : qatom := QAtom k 1 None.

Fixpoint q_lits (s : string) : list qatom :=
  match s with
  | EmptyString => []
  | String c s' => QAtom (Basic (Lit c)) 1 (Some 1%nat) :: q_lits s'
  end.

(** Backtracking, greedy matching at the head of [s]: [k] is given the
    text that is left after the atoms, and its failure makes the last
    atom give a character back. *)
Fixpoint match_atoms {A} (icase : bool) (r : list qatom) (s : string)
  (k : string -> option A) : option A :=
  match r with
  | [] => k s
  | a :: r' =>
      (fix back (n : nat) : option A :=
         if Nat.ltb n (q_min a) then None
         else match match_atoms icase r' (drop n s) k with
              | Some x => Some x
              | None => match n with O => None | S n' => back n' end
              end)
        (span (cset_match icase (q_set a)) (q_max a) s)
  end.

(** A group that may be absent is tried first, and left out when the
    rest of the pattern fails after it. *)
Fixpoint match_items {A} (icase : bool) (r : list item) (s : string)
  (k : string -> option A) : option A :=
  match r with
  | [] => k s
  | One a :: r' => match_atoms icase [a] s (fun s' => match_items icase r' s' k)
  | Optional body :: r' =>
      match match_atoms icase body s (fun s' => match_items icase r' s' k) with
      | Some x => Some x
      | None => match_items icase r' s k
      end
  end.

(** [re.search(r, s, re.IGNORECASE).group(0)]: the text of the leftmost
    match. *)
Fixpoint isearch_text (r : list item) (s : string) : option string :=
  match match_items true r s Some with
  | Some rest => Some (take (String.length s - String.length rest) s)
  | None =>
      match s with
      | EmptyString => None
      | String _ s' => isearch_text r s'
      end
  end.

(** The pattern DIN, [\s*], EN, [\s*], [\d+], [\s*] and [[A-Z0-9]+]. *)
Definition re_din_en_type : list item :=
  (map One (q_lits "DIN") ++ [One (q_star (Basic Space))] ++ map One (q_lits "EN")
   ++ [One (q_star (Basic Space)); One (q_plus (Basic Digit));
       One (q_star (Basic Space)); One (q_plus UpperDigit)])%list.

(** The pattern SAE, [\s*], optionally J517 and [\s*], then 100R, [\d+]
    and [[A-Z]*]. *)
Definition re_sae_type : list item :=
  (map One (q_lits "SAE")
   ++ [One (q_star (Basic Space));
       Optional (q_lits "J517" ++ [q_star (Basic Space)])]
   ++ map One (q_lits "100R")
   ++ [One (q_plus (Basic Digit)); One (q_star Upper)])%list.

(** The pattern ISO, [\s*] and [\d+]. *)
Definition re_iso_number : list item :=
  (map One (q_lits "ISO") ++ [One (q_star (Basic Space)); One (q_plus (Basic Digit))])%list.

(** [re.sub(r'\s+', ' ', s)]: every run of whitespace becomes one space. *)
Fixpoint collapse_spaces (in_run : bool) (s : string) : string :=
  match s with
  | EmptyString => EmptyString
  | String c s' =>
      if is_space c then
        if in_run then collapse_spaces true s' else String " " (collapse_spaces true s')
      else String c (collapse_spaces false s')
  end.

Definition sub_spaces (s : string) : string := collapse_spaces false s.

(** [re.sub] of J517 and the whitespace after it by nothing.  [fuel]
    bounds the length. *)
Fixpoint remove_j517_aux (fuel : nat) (s : string) : string :=
  match fuel with
  | O => s
  | S fuel' =>
      match s with
      | EmptyString => EmptyString
      | String c s' =>
          if starts_with "J517" s then remove_j517_aux fuel' (lstrip (drop 4 s))
          else String c (remove_j517_aux fuel' s')
      end
  end.

Definition remove_j517 (s : string) : string := remove_j517_aux (String.length s) s.

(** Lines 104-116: the standard of the first of the lines that has one. *)
Fixpoint standard_in_lines (next_lines : list string) : option string :=
  match next_lines with
  | [] => None
  | next_line :: rest =>
      match isearch_text re_din_en_type next_line with
      | Some matched => Some (strip (sub_spaces matched))
      | None =>
          match isearch_text re_sae_type next_line with
          | Some matched => Some (remove_j517 (strip (sub_spaces matched)))
          | None => standard_in_lines rest
          end
      end
  end.

(** Lines 101-117: the first line that holds the model line decides; the
    standard is looked for in it and in the two lines after it. *)
Fixpoint standard_near (needle : string) (lines : list string) : option string :=
  match lines with
  | [] => None
  | line :: rest =>
      if contains needle line then standard_in_lines (firstn 3 lines)
      else standard_near needle rest
  end.

(** Lines 119-133: the first of the three patterns that the text matches. *)
Fixpoint standard_anywhere (patterns : list (list item)) (text : string) : string :=
  match patterns with
  | [] => EmptyString
  | pattern :: rest =>
      match isearch_text pattern text with
      | Some matched => remove_j517 (strip (sub_spaces matched))
      | None => standard_anywhere rest text
      end
  end.

Definition _extract_standard (text model_line : string) : string :=
  match (if nonempty model_line
         then standard_near (strip model_line) (split_on "010" text)
         else None) with
  | Some std => std
  | None => standard_anywhere [re_din_en_type; re_sae_type; re_iso_number] text
  end.

(** ** Tables and pages (lines 20-67 and 135-179) *)

(** A table is a list of rows. *)
Definition table := list (list cell).

(** [' '.join([str(cell) for cell in row if cell])]. *)
Definition row_text (row : list cell) : string :=
  join " " (omap (fun c : cell =>
                    match c with
                    | Some s => if nonempty s then Some s else None
                    | None => None
                    end) row).

(** Lines 166-177: the data rows. *)
Fixpoint parse_rows (rows : list (list cell)) (col_indices : gmap string nat)
  (model_name standard : string) : result (list (gmap string value)) :=
  match rows with
  | [] => Ok []
  | row :: rest =>
      let first_cell :=
        match row with
        | Some s :: _ => if nonempty s then upper s else EmptyString
        | _ => EmptyString
        end in
      if Nat.ltb (List.length row) 3 then parse_rows rest col_indices model_name standard
      else if (contains "REFERENCE" first_cell || negb (nonempty first_cell))%bool
      then parse_rows rest col_indices model_name standard
      else
        product <- _extract_product_from_row row col_indices model_name standard;;
        products <- parse_rows rest col_indices model_name standard;;
        match product with
        | Some product =>
            if dict_truthy product then Ok (product :: products) else Ok products
        | None => Ok products
        end
  end.

Definition _parse_product_table (table : table) (model_name standard : string)
  : result (list (gmap string value)) :=
  if Nat.ltb (List.length table) 2 then Ok []
  else
    let all_text := join " " (map row_text (firstn 5 table)) in
    let has_reference := contains "REFERENCE" (upper all_text) in
    let has_dn := contains "DN" (upper all_text) in
    if negb (has_reference && has_dn) then Ok []
    else parse_rows (skipn 2 table) (_find_column_indices []) model_name standard.

(** A page, as the two methods that are called on it answer. *)
Record page : Type := Page {
  extract_tables : result (list table);
  extract_text : result (option string)
}.

(** Lines 65-67: the tables of a page, one after the other; the products
    of a table are added to [self.products] before the next table is
    parsed.  The result is the list and the exception that ended the
    loop, if any. *)
Fixpoint parse_tables (tables : list table) (model_name standard : string)
  (products : list (gmap string value)) : list (gmap string value) * result unit :=
  match tables with
  | [] => (products, Ok tt)
  | table :: rest =>
      match _parse_product_table table model_name standard with
      | Ok found => parse_tables rest model_name standard (products ++ found)%list
      | Raise e => (products, Raise e)
      end
  end.

Definition _parse_page (page : page) (products : list (gmap string value))
  : list (gmap string value) * result unit :=
  match extract_tables page with
  | Raise e => (products, Raise e)
  | Ok tables =>
      match tables with
      | [] => (products, Ok tt)
      | _ :: _ =>
          match extract_text page with
          | Raise _ => (products, Ok tt)
          | Ok None => (products, Ok tt)
          | Ok (Some text) =>
              if negb (nonempty text) then (products, Ok tt)
              else
                let model_name := _extract_model_name text in
                let standard := _extract_standard text model_name in
                if negb (nonempty model_name) then (products, Ok tt)
                else parse_tables tables model_name standard products
          end
      end
  end.

(** Lines 28-38: a page that raises is skipped, with what it had added. *)
Fixpoint parse_pages (pages : list page) (products : list (gmap string value))
  : list (gmap string value) :=
  match pages with
  | [] => products
  | page :: rest => parse_pages rest (fst (_parse_page page products))
  end.

Definition parse (pages : list page) : list (gmap string value) :=
  parse_pages pages [].

End BalflexPDF.

(* ===================================================================== *)
(** * The hose-size fixer: [fix_balflex_hose_sizes.py] *)
(* ===================================================================== *)

Module FixHoseSizes.
Import Py.
Local Open Scope py_scope.

Definition INCH_TO_MM : list (string * float) :=
  [("3/16", 4.8); ("1/4", 6.4); ("5/16", 7.9); ("3/8", 9.5); ("1/2", 12.7);
   ("5/8", 15.9); ("3/4", 19.0); ("7/8", 22.2); ("1", 25.4); ("1-1/4", 31.8);
   ("1-1/2", 38.1); ("2", 50.8); ("2-1/2", 63.5); ("3", 76.2)]%float.

(** [table[k]] when [k in table]. *)
Fixpoint lookup (k : string) (table : list (string * float)) : option float :=
  match table with
  | [] => None
  | (k', x) :: rest => if String.eqb k k' then Some x else lookup k rest
  end.

(** The pattern [-?] [\s*] [(\d+)]. *)
Definition re_dash : regex := [opt (Lit "-"); star Space; plus Digit].

(** The argument is a string or [None]. *)
Definition normalize_dash_code (dash_str : option string) : result (option string) :=
  match dash_str with
  | None => Ok None
  | Some s =>
      if negb (nonempty s) then Ok None
      else
        let dash_clean := replace " " "" (strip s) in
        match search re_dash dash_clean with
        | Some m => Ok (Some ("-" ++ group_span 2 3 m))
        | None => Ok None
        end
  end.

(** Lines 109-118: the fraction parsing inside [try]; [None] when the
    text is not a fraction with two parts. *)
Definition parse_fraction (inch_clean : string) : result (option float) :=
  if contains "/" inch_clean then
    match split_on "/" inch_clean with
    | [p0; p1] =>
        numerator <- py_float p0;;
        denominator <- py_float p1;;
        inches <- f_div numerator denominator;;
        Ok (Some (py_round1 (inches * 25.4)%float))
    | _ => Ok None
    end
  else Ok None.

Definition parse_inch_to_mm (inch_str : option string) : result (option float) :=
  match inch_str with
  | None => Ok None
  | Some s =>
      if negb (nonempty s) then Ok None
      else
        let inch_clean := replace " " "" (replace (String "034" "") "" (strip s)) in
        match lookup inch_clean INCH_TO_MM with
        | Some mm => Ok (Some mm)
        | None => try_except (parse_fraction inch_clean) (Ok None)
        end
  end.

(** The table of lines 28-59, in the order of the source. *)
Definition DASH_TO_MM : list (string * float) :=
  [("-2", 3.2); ("-3", 4.8); ("-4", 6.4); ("-5", 7.9); ("-6", 9.5); ("-8", 12.7);
   ("-10", 15.9); ("-12", 19.0); ("-16", 25.4); ("-20", 31.8); ("-24", 38.1);
   ("-32", 50.8); ("-40", 63.5); ("-48", 76.2);
   ("2", 3.2); ("3", 4.8); ("4", 6.4); ("5", 7.9); ("6", 9.5); ("8", 12.7);
   ("10", 15.9); ("12", 19.0); ("16", 25.4); ("20", 31.8); ("24", 38.1);
   ("32", 50.8); ("40", 63.5); ("48", 76.2)]%float.

Section Fixer.

(** The text of a number ([str] of a float) is the interpreter's; it is a
    parameter here. *)
Variable float_repr : float -> string.

(** The argument of a normaliser that starts with [if not v: return None]
    and goes on with [str(v)]: nothing for [None] and for a zero, the text
    otherwise. *)
Definition text_of (v : value) : option string :=
  match v with
  | VNone => None
  | VNum x => if truthy v then Some (float_repr x) else None
  | VStr s => Some s
  end.

(** The result of [fix_hose_size_from_dash]: the size, the name of the
    source and the data it was read from. *)
Definition fix_result : Type := option float * string * value.

(** Lines 133-136: strategy 1, the dash code. *)
Definition from_dash_code (dash : value) : result (option fix_result) :=
  dash_norm <- normalize_dash_code (text_of dash);;
  match dash_norm with
  | Some d =>
      if nonempty d then
        match lookup d DASH_TO_MM with
        | Some correct_mm => Ok (Some (Some correct_mm, "dash_code", VStr d))
        | None => Ok None
        end
      else Ok None
  | None => Ok None
  end.

(** Lines 138-142: strategy 2, the inch size. *)
Definition from_inch_size (hose_inch : value) : result (option fix_result) :=
  if truthy hose_inch then
    mm_from_inch <- parse_inch_to_mm (text_of hose_inch);;
    match mm_from_inch with
    | Some mm =>
        if truthy (VNum mm) then Ok (Some (Some mm, "inch_conversion", hose_inch))
        else Ok None
    | None => Ok None
    end
  else Ok None.

(** Lines 144-153: strategy 3, the current value when it lies within 2 mm
    of a standard size. *)
Definition from_current (current_hose_mm : value) : result (option fix_result) :=
  if truthy current_hose_mm then
    try_except
      (mm_val <- v_float current_hose_mm;;
       if existsb (fun standard_mm => (f_abs (mm_val - standard_mm) <=? 2)%float)
            (map snd DASH_TO_MM)
       then Ok (Some (Some mm_val, "validated_current", current_hose_mm))
       else Ok None)
      (Ok None)
  else Ok None.

Definition fix_hose_size_from_dash (product : gmap string value) : result fix_result :=
  let dash := get_or product "dash_size" (VStr "") in
  let current_hose_mm := get_or product "hose_size_mm" (VStr "") in
  let hose_inch := get_or product "hose_size_inch" (VStr "") in
  r1 <- from_dash_code dash;;
  match r1 with
  | Some r => Ok r
  | None =>
      r2 <- from_inch_size hose_inch;;
      match r2 with
      | Some r => Ok r
      | None =>
          r3 <- from_current current_hose_mm;;
          match r3 with
          | Some r => Ok r
          | None => Ok (None, "no_source", VNone)
          end
      end
  end.

(** The counters of [main] (lines 171-178). *)
Record stats : Set := Stats {
  total : Z;
  fixed_from_dash : Z;
  fixed_from_inch : Z;
  validated_current : Z;
  no_fix_possible : Z;
  changed_values : Z
}.

(** An entry of [changes_log]. *)
Record change : Set := Change {
  change_reference : value;
  change_dash : value;
  change_old : value;
  change_new : float;
  change_source : string
}.

(** Lines 194-200: the counter of the source. *)
Definition count_source (source : string) (st : stats) : stats :=
  if String.eqb source "dash_code" then
    Stats (total st) (fixed_from_dash st + 1) (fixed_from_inch st) (validated_current st)
          (no_fix_possible st) (changed_values st)
  else if String.eqb source "inch_conversion" then
    Stats (total st) (fixed_from_dash st) (fixed_from_inch st + 1) (validated_current st)
          (no_fix_possible st) (changed_values st)
  else if String.eqb source "validated_current" then
    Stats (total st) (fixed_from_dash st) (fixed_from_inch st) (validated_current st + 1)
          (no_fix_possible st) (changed_values st)
  else st.

Definition count_changed (st : stats) : stats :=
  Stats (total st) (fixed_from_dash st) (fixed_from_inch st) (validated_current st)
        (no_fix_possible st) (changed_values st + 1).

Definition count_no_fix (st : stats) : stats :=
  Stats (total st) (fixed_from_dash st) (fixed_from_inch st) (validated_current st)
        (no_fix_possible st + 1) (changed_values st).

(** [product[k]]: a missing key is a [KeyError]. *)
Definition item (d : gmap string value) (k : string) : result value :=
  match d !! k with
  | Some v => Ok v
  | None => Raise KeyError
  end.

(** Lines 205-212 and 215-222: the counter and the log entry of a changed
    value.  The counter is incremented before the entry is built, and
    building the entry reads [product['reference']]. *)
Definition log_change (product : gmap string value) (old_value : value)
  (new_value : float) (source : string) (st : stats) (changes_log : list change)
  : stats * result (list change) :=
  let st := count_changed st in
  (st,
   reference <- item product "reference";;
   Ok (changes_log ++ [Change reference (get product "dash_size") old_value new_value
                         source])%list).

(** Lines 202-222: the check of the change.  An exception of the [try]
    block, the [KeyError] of the log entry included, is handled by the
    [except] branch, with the counters as the block left them; an
    exception of the [except] branch ends [main]. *)
Definition check_changed (product : gmap string value) (old_value : value)
  (new_value : float) (source : string) (st : stats) (changes_log : list change)
  : result (stats * list change) :=
  let handler (st : stats) :=
    if (py_eq old_value (VStr "N/A") || py_eq old_value (VStr ""))%bool then
      let '(st, logged) := log_change product old_value new_value source st changes_log in
      changes_log <- logged;;
      Ok (st, changes_log)
    else Ok (st, changes_log) in
  match v_float old_value with
  | Ok old =>
      if (0.5 <? f_abs (old - new_value))%float then
        let '(st, logged) := log_change product old_value new_value source st changes_log in
        match logged with
        | Ok changes_log => Ok (st, changes_log)
        | Raise _ => handler st
        end
      else Ok (st, changes_log)
  | Raise _ => handler st
  end.

(** Lines 184-225: the body of the loop, for one product. *)
Definition fix_product (product : gmap string value) (st : stats)
  (changes_log : list change)
  : result (gmap string value * stats * list change) :=
  let old_value := get_or product "hose_size_mm" (VStr "N/A") in
  r <- fix_hose_size_from_dash product;;
  let '(new_value, source, _) := r in
  match new_value with
  | Some x =>
      if truthy (VNum x) then
        let product := <["hose_size_mm" := VStr (float_repr (py_round1 x))]> product in
        let product := <["hose_size_source" := VStr source]> product in
        let st := count_source source st in
        r <- check_changed product old_value x source st changes_log;;
        let '(st, changes_log) := r in
        Ok (product, st, changes_log)
      else
        Ok (<["hose_size_source" := VStr "unknown"]> product, count_no_fix st, changes_log)
  | None =>
      Ok (<["hose_size_source" := VStr "unknown"]> product, count_no_fix st, changes_log)
  end.

(** The loop of [main] over the products, which are updated in place. *)
Fixpoint fix_products (balflex_data : list (gmap string value)) (st : stats)
  (changes_log : list change)
  : result (list (gmap string value) * stats * list change) :=
  match balflex_data with
  | [] => Ok ([], st, changes_log)
  | product :: rest =>
      r <- fix_product product st changes_log;;
      let '(product, st, changes_log) := r in
      r <- fix_products rest st changes_log;;
      let '(rest, st, changes_log) := r in
      Ok (product :: rest, st, changes_log)
  end.

(** Line 250: [next((p for p in balflex_data if p['reference'] == ref), None)]. *)
Fixpoint find_reference (ref : string) (balflex_data : list (gmap string value))
  : result (option (gmap string value)) :=
  match balflex_data with
  | [] => Ok None
  | p :: rest =>
      reference <- item p "reference";;
      if py_eq reference (VStr ref) then Ok (Some p) else find_reference ref rest
  end.

(** [main] without its input and output.  Of the report, which is
    printed, the operations that can raise are kept: the four percentages
    of lines 234-237 and the lookup of line 250. *)
Definition main (balflex_data : list (gmap string value))
  : result (list (gmap string value) * stats) :=
  r <- fix_products balflex_data
         (Stats (Z.of_nat (List.length balflex_data)) 0 0 0 0 0) [];;
  let '(balflex_data, st, _) := r in
  _ <- ProductMatcher.int_truediv (fixed_from_dash st) (total st);;
  _ <- ProductMatcher.int_truediv (fixed_from_inch st) (total st);;
  _ <- ProductMatcher.int_truediv (validated_current st) (total st);;
  _ <- ProductMatcher.int_truediv (no_fix_possible st) (total st);;
  _ <- find_reference "23.5013.1030" balflex_data;;
  Ok (balflex_data, st).

End Fixer.

End FixHoseSizes.

(* ===================================================================== *)
(** * Properties *)
(* ===================================================================== *)

(** ** Results *)

Lemma bind_Ok {A B} (m : Py.result A) (k : A -> Py.result B) (b : B) :
  Py.bind m k = Py.Ok b -> exists a, m = Py.Ok a /\ k a = Py.Ok b.
Proof.
  destruct m as [a|e]; simpl; intros H; [exists a; auto | discriminate].
Qed.

Lemma try_except_Ok {A} (body : Py.result A) (x : A) :
  exists y, Py.try_except body (Py.Ok x) = Py.Ok y.
Proof. destruct body; simpl; eauto. Qed.

(** Inversion of an equation [... = Ok _] through binds, conditionals and
    matches. *)
Ltac inv_ok :=
  repeat (cbv beta zeta in *;
          match goal with
          | H : Py.bind _ _ = Py.Ok _ |- _ =>
              apply bind_Ok in H; destruct H as (? & ? & H)
          | H : Py.Raise _ = Py.Ok _ |- _ => discriminate H
          | H : Py.Ok _ = Py.Ok _ |- _ => injection H as H; try subst
          | H : match ?x with _ => _ end = Py.Ok _ |- _ => destruct x eqn:?
          end).

(** ** The built-in operations on examples *)

Section BuiltinExamples.
Import Py.

Example strip_replace_examples :
  strip "  4SP 04  " = "4SP 04" /\
  replace "DN" "" "DN12" = "12" /\
  replace "," "." "17,4" = "17.4" /\
  replace " " "" " - 1 0 " = "-10" /\
  upper "din en 857 2sc" = "DIN EN 857 2SC" /\
  lower "2 Wire Braid" = "2 wire braid" /\
  contains "wire" "2 wire braid" = true /\
  contains "spiral" "2 wire braid" = false /\
  split_on "/" "1/2" = ["1"; "2"] /\
  split_first "45,0 6600" = Ok "45,0" /\
  split_first "   " = Raise IndexError /\
  isdigit "12" = true /\ isdigit "" = false /\ isdigit "DN12" = false.
Proof. repeat split; vm_compute; reflexivity. Qed.

Example py_int_examples :
  py_int "12" = Ok 12 /\ py_int " -7 " = Ok (-7) /\ py_int "1_000" = Ok 1000 /\
  py_int "" = Raise ValueError /\ py_int "1/2" = Raise ValueError /\
  py_int "12.0" = Raise ValueError /\ py_int "1__0" = Raise ValueError /\
  int_str 8 = "8" /\ int_str (-12) = "-12" /\ int_str 0 = "0".
Proof. repeat split; vm_compute; reflexivity. Qed.

Example py_float_examples :
  py_float "12.7" = Ok 12.7%float /\ py_float " 6 " = Ok 6%float /\
  py_float "1e3" = Ok 1000%float /\ py_float ".5" = Ok 0.5%float /\
  py_float "5." = Ok 5%float /\ py_float "-0" = Ok neg_zero /\
  py_float "0.1" = Ok 0.1%float /\ py_float "1e400" = Ok infinity /\
  py_float "Infinity" = Ok infinity /\ py_float "nan" = Ok nan /\
  py_float "" = Raise ValueError /\ py_float "." = Raise ValueError /\
  py_float "1e" = Raise ValueError /\ py_float "12,7" = Raise ValueError /\
  py_float "DN12" = Raise ValueError.
Proof. repeat split; vm_compute; reflexivity. Qed.

Example py_round1_examples :
  py_round1 15.875 = 15.9%float /\ py_round1 0.25 = 0.2%float /\
  py_round1 2.675 = 2.7%float /\ py_round1 6.35 = 6.3%float /\
  py_round1 (0.4375 * 25.4) = 11.1%float /\ py_round1 90 = 90%float /\
  py_round1 infinity = infinity.
Proof. repeat split; vm_compute; reflexivity. Qed.

Example search_examples :
  option_map (group_span 3 4) (search ProductMatcher.re_en "DIN EN 857 2SC") = Some "857" /\
  option_map (group_span 3 4) (search ProductMatcher.re_en "EN853") = Some "853" /\
  search ProductMatcher.re_en "DIN EN 85" = None /\
  option_map (group_span 6 7) (search ProductMatcher.re_sae "SAE 100R2AT") = Some "2" /\
  option_map group0 (search BalflexPDF.re_number "45.0 6600") = Some "45.0" /\
  option_map group0 (search BalflexPDF.re_number "abc") = None /\
  option_map (group_span 2 3) (search FixHoseSizes.re_dash "-10") = Some "10" /\
  option_map (group_span 0 1) (search WithSeries.re_degree "JIC 37° cone") = Some "37" /\
  ProductMatcher._extract_standard_code "DIN EN 857 2SC" = "DINEN857" /\
  ProductMatcher._extract_standard_code "ISO 8434-1" = "ISO8434".
Proof. repeat split; vm_compute; reflexivity. Qed.

End BuiltinExamples.

(** ** The hose scorer: points and bounds *)

Section HoseScorer.
Import Py ProductMatcher.

(** A criterion of weight [w] adds [w] to [max_score] and between 0 and [w]
    points to [score], and it only appends to [reasons]. *)
Definition bumps (w : Z) (a a' : acc) : Prop :=
  max_score a' = max_score a + w /\ score a <= score a' <= score a + w /\
  exists rs, reasons a' = (reasons a ++ rs)%list.

Lemma appended_nil {A} (l : list A) : exists rs, l = (l ++ rs)%list.
Proof. exists []. symmetry. apply app_nil_r. Qed.

Lemma appended_one {A} (l : list A) (x : A) : exists rs, (l ++ [x])%list = (l ++ rs)%list.
Proof. exists [x]. reflexivity. Qed.

Ltac bump_goal :=
  unfold bumps, award, add_score, add_max; cbn [score max_score reasons];
  repeat split; try lia; first [apply appended_nil | apply appended_one].

Lemma criterion_dn_bumps b h a a' :
  criterion_dn b h a = Ok a' -> bumps 30 a a'.
Proof. unfold criterion_dn; intros H; inv_ok; bump_goal. Qed.

Lemma criterion_pressure_bumps b h a a' :
  criterion_pressure b h a = Ok a' -> bumps 25 a a'.
Proof. unfold criterion_pressure; intros H; inv_ok; bump_goal. Qed.

Lemma compare_numbers_bumps bs hs a m a' :
  compare_numbers bs hs a = (m, a') ->
  max_score a' = max_score a /\ score a <= score a' <= score a + 20 /\
  (exists rs, reasons a' = (reasons a ++ rs)%list) /\
  (m = false -> a' = a).
Proof.
  unfold compare_numbers; intros H.
  repeat match type of H with
         | match ?x with _ => _ end = _ => destruct x eqn:?
         end;
    injection H as <- <-; unfold award; cbn [score max_score reasons];
    repeat split; try lia; try discriminate;
    first [apply appended_nil | apply appended_one].
Qed.

Lemma criterion_standard_bumps b h a a' :
  criterion_standard b h a = Ok a' -> bumps 20 a a'.
Proof.
  unfold criterion_standard; intros H; inv_ok; try bump_goal.
  all: match goal with
       | E : compare_numbers _ _ _ = _ |- _ =>
           apply compare_numbers_bumps in E; destruct E as (E1 & E2 & E3 & E4)
       end.
  all: try (specialize (E4 eq_refl); subst; bump_goal).
  revert E1 E2 E3; unfold bumps, add_max; cbn [score max_score reasons].
  intros E1 E2 E3. repeat split; try lia; assumption.
Qed.

Lemma criterion_construction_bumps b h a a' :
  criterion_construction b h a = Ok a' -> bumps 15 a a'.
Proof. unfold criterion_construction; intros H; inv_ok; bump_goal. Qed.

Lemma criterion_inner_diameter_bumps b h a a' :
  criterion_inner_diameter b h a = Ok a' -> bumps 10 a a'.
Proof. unfold criterion_inner_diameter; intros H; inv_ok; bump_goal. Qed.

(** After the five criteria [max_score] is 100 whatever the records hold,
    and the raw score lies between 0 and 100. *)
Lemma run_criteria_bounds b h a :
  run_criteria b h = Ok a -> max_score a = 100 /\ 0 <= score a <= 100.
Proof.
  unfold run_criteria; intros H; inv_ok.
  repeat match goal with
         | E : criterion_dn _ _ _ = Ok _ |- _ => apply criterion_dn_bumps in E
         | E : criterion_pressure _ _ _ = Ok _ |- _ => apply criterion_pressure_bumps in E
         | E : criterion_standard _ _ _ = Ok _ |- _ => apply criterion_standard_bumps in E
         | E : criterion_construction _ _ _ = Ok _ |- _ =>
             apply criterion_construction_bumps in E
         end.
  apply criterion_inner_diameter_bumps in H.
  unfold bumps, acc0 in *; cbn [score max_score] in *.
  repeat match goal with E : _ /\ _ |- _ => destruct E end. lia.
Qed.

End HoseScorer.

(** ** The hose scorer: the normalisation in binary64 *)

Section HoseNormalisation.
Import Py ProductMatcher.

(** The value returned for a raw score [s] when [max_score] is 100:
    [(s / 100) * 100] in binary64. *)
Definition norm100 (s : Z) : float :=
  (SF2Prim (SFdiv prec emax (binary_normalize prec emax s 0 false)
                            (binary_normalize prec emax 100 0 false)) * 100)%float.

Lemma normalize_100 a : max_score a = 100 -> normalize a = Ok (norm100 (score a)).
Proof.
  intros E. unfold normalize, int_truediv. rewrite E. reflexivity.
Qed.

(** The raw scores 0, 1, ..., 100. *)
Definition raw_range : list Z := map Z.of_nat (seq 0 101).

Lemma raw_range_In s : 0 <= s <= 100 -> In s raw_range.
Proof.
  intros Hs. unfold raw_range. apply in_map_iff.
  exists (Z.to_nat s). split; [lia | apply in_seq; lia].
Qed.

Lemma raw_range_forall (P : Z -> bool) :
  forallb P raw_range = true -> forall s, 0 <= s <= 100 -> P s = true.
Proof.
  intros H s Hs. rewrite forallb_forall in H. apply H, raw_range_In, Hs.
Qed.

Definition in_bounds (s : Z) : bool :=
  ((0 <=? norm100 s)%float && (norm100 s <=? 100)%float)%bool.

Lemma in_bounds_table : forallb in_bounds raw_range = true.
Proof. vm_compute. reflexivity. Qed.

Lemma norm100_bounds s :
  0 <= s <= 100 ->
  (0 <=? norm100 s)%float = true /\ (norm100 s <=? 100)%float = true.
Proof.
  intros Hs. apply andb_true_iff.
  exact (raw_range_forall in_bounds in_bounds_table s Hs).
Qed.

(** The raw scores with the values returned for them. *)
Definition norm_table : list (Z * float) := map (fun s => (s, norm100 s)) raw_range.

Definition same_order (p q : Z * float) : bool :=
  (Bool.eqb (snd p <? snd q)%float (fst p <? fst q)
   && Bool.eqb (snd p <=? snd q)%float (fst p <=? fst q)
   && Bool.eqb (snd p =? snd q)%float (fst p =? fst q))%bool.

Lemma same_order_table :
  (let t := norm_table in forallb (fun p => forallb (same_order p) t) t) = true.
Proof. vm_compute. reflexivity. Qed.

Lemma norm_table_In s : 0 <= s <= 100 -> In (s, norm100 s) norm_table.
Proof.
  intros Hs. unfold norm_table.
  apply (in_map (fun s => (s, norm100 s))), raw_range_In, Hs.
Qed.

(** On the raw scores the normalisation is strictly increasing: the float
    comparisons of two returned scores are those of the raw scores. *)
Lemma norm100_compare s t :
  0 <= s <= 100 -> 0 <= t <= 100 ->
  (norm100 s <? norm100 t)%float = (s <? t) /\
  (norm100 s <=? norm100 t)%float = (s <=? t) /\
  (norm100 s =? norm100 t)%float = (s =? t).
Proof.
  intros Hs Ht.
  pose proof same_order_table as T. cbv zeta in T.
  rewrite forallb_forall in T.
  specialize (T _ (norm_table_In s Hs)). rewrite forallb_forall in T.
  specialize (T _ (norm_table_In t Ht)).
  unfold same_order in T; cbn [fst snd] in T.
  apply andb_true_iff in T as [T H3]. apply andb_true_iff in T as [H1 H2].
  apply eqb_prop in H1, H2, H3. auto.
Qed.

Lemma norm100_0 : norm100 0 = 0%float.
Proof. vm_compute. reflexivity. Qed.

Lemma norm100_30 : norm100 30 = 30%float.
Proof. vm_compute. reflexivity. Qed.

(** Rounding the returned score to one decimal, as the match entry does,
    gives back the raw score. *)
Lemma round_norm100 s : 0 <= s <= 100 -> py_round1 (norm100 s) = Z_to_float s.
Proof.
  intros Hs.
  assert (E : s = Z.of_nat (Z.to_nat s)) by lia.
  assert (B : (Z.to_nat s <= 100)%nat) by lia.
  rewrite E. generalize dependent (Z.to_nat s). clear. intros n _ B.
  do 101 (destruct n as [|n]; [vm_compute; reflexivity|]).
  lia.
Qed.

End HoseNormalisation.

(** ** The hose scorer: what it returns *)

Section HoseResults.
Import Py ProductMatcher.

(** Every result of the scorer is either the result of the pre-check's
    early return, or the normalised raw score of the five criteria, whose
    [max_score] is 100. *)
Lemma calculate_match_score_cases b h s rs :
  _calculate_match_score b h = Ok (s, rs) ->
  (pre_check b h = Ok (Some rs) /\ s = 0%float) \/
  (pre_check b h = Ok None /\
   exists a, run_criteria b h = Ok a /\ max_score a = 100 /\ 0 <= score a <= 100 /\
             s = norm100 (score a) /\ rs = reasons a).
Proof.
  unfold _calculate_match_score. intros H. inv_ok.
  - left. auto.
  - right. split; [assumption|].
    match goal with E : run_criteria _ _ = Ok ?a |- _ =>
      exists a; destruct (run_criteria_bounds _ _ _ E) as [M B] end.
    rewrite (normalize_100 _ M) in *. inv_ok. auto.
Qed.

(** The returned score is the normalisation of a raw score between 0 and
    100 (0 on a rejection). *)
Lemma calculate_match_score_raw b h s rs :
  _calculate_match_score b h = Ok (s, rs) ->
  exists r, 0 <= r <= 100 /\ s = norm100 r.
Proof.
  intros H. apply calculate_match_score_cases in H.
  destruct H as [[_ ->] | [_ (a & _ & _ & B & -> & _)]].
  - exists 0. split; [lia | symmetry; apply norm100_0].
  - exists (score a). auto.
Qed.

Lemma hose_score_bounded b h s rs :
  _calculate_match_score b h = Ok (s, rs) ->
  (0 <=? s)%float = true /\ (s <=? 100)%float = true.
Proof.
  intros H. apply calculate_match_score_raw in H. destruct H as (r & B & ->).
  apply norm100_bounds, B.
Qed.

End HoseResults.

(** ** The end-to-end hose scenario *)

Section HoseScenario.
Import Py ProductMatcher.

(** The source and target records of the scenario: the same DN, standard
    and construction; 25.0 MPa on one side and 250 bar on the other. *)
Definition scenario_source : gmap string value :=
  <["dn" := VStr "DN12"]>
  (<["standard" := VStr "DIN EN 857 2SC"]>
  (<["construction" := VStr "2 wire braid"]>
  (<["working_pressure_mpa" := VNum 25]> ∅))).

Definition scenario_target : gmap string value :=
  <["dn" := VStr "DN12"]>
  (<["standard" := VStr "DIN EN 857 2SC"]>
  (<["construction" := VStr "2 wire braid"]>
  (<["working_pressure_bar" := VNum 250]> ∅))).

(** C1, refuted as stated: the quality derived from the score 90 is the
    text "Excellent Match", not "Excellent". *)
Lemma hose_quality_of_90_is_not_the_bare_tier :
  _score_to_quality 90 = "Excellent Match" /\
  (_score_to_quality 90 = "Excellent" -> False).
Proof.
  split; [vm_compute; reflexivity|].
  vm_compute. discriminate.
Qed.

(** C1, as amended: on the scenario's records the pre-check lets the pair
    through; the DN criterion gives 30 points, the pressure criterion 25
    (250 bar is 25.0 MPa), the standard criterion 20 and the construction
    criterion 15, the inner diameter none; the scorer returns exactly 90
    with the four reasons, the quality of the score 90 is
    "Excellent Match", and the matcher emits the match with that score
    and quality. *)
Theorem hose_end_to_end_scenario :
  pre_check scenario_source scenario_target = Ok None /\
  criterion_dn scenario_source scenario_target acc0
    = Ok (Acc 30 30 [DNMatch (VStr "DN12")]) /\
  criterion_pressure scenario_source scenario_target (Acc 30 30 [DNMatch (VStr "DN12")])
    = Ok (Acc 55 55 [DNMatch (VStr "DN12"); PressureMatch 25 25]) /\
  criterion_standard scenario_source scenario_target
      (Acc 55 55 [DNMatch (VStr "DN12"); PressureMatch 25 25])
    = Ok (Acc 75 75 [DNMatch (VStr "DN12"); PressureMatch 25 25; StandardMatchEN "857"]) /\
  criterion_construction scenario_source scenario_target
      (Acc 75 75 [DNMatch (VStr "DN12"); PressureMatch 25 25; StandardMatchEN "857"])
    = Ok (Acc 90 90 [DNMatch (VStr "DN12"); PressureMatch 25 25; StandardMatchEN "857";
                     ConstructionMatch "2 wire braid"]) /\
  criterion_inner_diameter scenario_source scenario_target
      (Acc 90 90 [DNMatch (VStr "DN12"); PressureMatch 25 25; StandardMatchEN "857";
                  ConstructionMatch "2 wire braid"])
    = Ok (Acc 90 100 [DNMatch (VStr "DN12"); PressureMatch 25 25; StandardMatchEN "857";
                      ConstructionMatch "2 wire braid"]) /\
  _calculate_match_score scenario_source scenario_target
    = Ok (90%float, [DNMatch (VStr "DN12"); PressureMatch 25 25; StandardMatchEN "857";
                     ConstructionMatch "2 wire braid"]) /\
  _score_to_quality 90 = "Excellent Match" /\
  match_products [scenario_source] [scenario_target]
    = Ok [MatchEntry 90 "Excellent Match"
            [DNMatch (VStr "DN12"); PressureMatch 25 25; StandardMatchEN "857";
             ConstructionMatch "2 wire braid"]
            scenario_source scenario_target].
Proof.
  repeat split; vm_compute; reflexivity.
Qed.

End HoseScenario.

(** ** The hose scorer: [max_score] and the normalisation *)

Section HoseMaxScore.
Import Py ProductMatcher.

(** Two records that agree on the DN and on the pressure and hold nothing
    else: the raw score is 30 + 25. *)
Definition dn_and_pressure : gmap string value :=
  <["dn" := VStr "DN12"]> (<["working_pressure_mpa" := VNum 25]> ∅).

(** C10, refuted as stated: for a raw score of 55 the normalisation
    [(55 / 100) * 100] is not 55 in binary64, so the returned score is not
    the raw sum. *)
Lemma hose_normalisation_is_not_the_identity :
  run_criteria dn_and_pressure dn_and_pressure
    = Ok (Acc 55 100 [DNMatch (VStr "DN12"); PressureMatch 25 25]) /\
  _calculate_match_score dn_and_pressure dn_and_pressure
    = Ok (55.000000000000007%float, [DNMatch (VStr "DN12"); PressureMatch 25 25]) /\
  (55.000000000000007 =? 55)%float = false.
Proof.
  repeat split; vm_compute; reflexivity.
Qed.

(** The raw scores whose normalisation is not the raw score itself. *)
Definition inexact_raw_scores : list Z := [7; 14; 28; 29; 55; 56; 57; 58].

Lemma norm100_exact_nat n :
  (n <= 100)%nat -> ~ In (Z.of_nat n) inexact_raw_scores ->
  norm100 (Z.of_nat n) = Z_to_float (Z.of_nat n).
Proof.
  intros B Hn.
  do 101 (destruct n as [|n];
          [first [vm_compute; reflexivity
                 | exfalso; apply Hn; vm_compute; auto 12]|]).
  lia.
Qed.

Lemma norm100_exact s :
  0 <= s <= 100 -> ~ In s inexact_raw_scores -> norm100 s = Z_to_float s.
Proof.
  intros Hs Hn.
  replace s with (Z.of_nat (Z.to_nat s)) in * by lia.
  apply norm100_exact_nat; [lia | exact Hn].
Qed.

(** C10, as amended: whenever the scorer returns, either the pre-check
    rejected the pair (score 0), or the five criteria ran and [max_score]
    is exactly 100 whatever fields the records hold; the returned score is
    [(raw / 100) * 100] computed in binary64, which is the raw sum of the
    awarded points except for the raw sums 7, 14, 28, 29, 55, 56, 57 and
    58, where it differs in the last place; rounded to one decimal it is
    the raw sum in every case. *)
Theorem hose_max_score_is_100 b h s rs :
  _calculate_match_score b h = Ok (s, rs) ->
  (pre_check b h = Ok (Some rs) /\ s = 0%float) \/
  (exists a,
      run_criteria b h = Ok a /\ max_score a = 100 /\ 0 <= score a <= 100 /\
      normalize a = Ok s /\ s = norm100 (score a) /\
      py_round1 s = Z_to_float (score a) /\
      (~ In (score a) inexact_raw_scores -> s = Z_to_float (score a))).
Proof.
  intros H. apply calculate_match_score_cases in H.
  destruct H as [H | [_ (a & R & M & B & -> & _)]]; [left; exact H | right].
  exists a. repeat split; try assumption; try apply B.
  - apply normalize_100, M.
  - apply round_norm100, B.
  - intros Hn. apply norm100_exact; assumption.
Qed.

Lemma hose_max_score_is_100_witness :
  exists a,
    run_criteria scenario_source scenario_target = Ok a /\ max_score a = 100 /\
    py_round1 90 = Z_to_float (score a).
Proof.
  destruct (hose_max_score_is_100 scenario_source scenario_target 90%float
              [DNMatch (VStr "DN12"); PressureMatch 25 25; StandardMatchEN "857";
               ConstructionMatch "2 wire braid"])
    as [[H _] | (a & R & M & _ & _ & _ & E & _)].
  - vm_compute; reflexivity.
  - exfalso. vm_compute in H. discriminate H.
  - exists a. auto.
Defined.

End HoseMaxScore.

(** ** The hose scorer: which fields a criterion reads *)

Section HoseFrames.
Import Py ProductMatcher.

Lemma pre_check_reads b h b' h' :
  b' !! "construction" = b !! "construction" ->
  h' !! "construction" = h !! "construction" ->
  pre_check b' h' = pre_check b h.
Proof. unfold pre_check, get_or. intros -> ->. reflexivity. Qed.

Lemma criterion_dn_reads b h b' h' a :
  b' !! "dn" = b !! "dn" -> h' !! "dn" = h !! "dn" ->
  criterion_dn b' h' a = criterion_dn b h a.
Proof. unfold criterion_dn, get. intros -> ->. reflexivity. Qed.

Lemma criterion_standard_reads b h b' h' a :
  b' !! "standard" = b !! "standard" -> h' !! "standard" = h !! "standard" ->
  criterion_standard b' h' a = criterion_standard b h a.
Proof. unfold criterion_standard, get_or. intros -> ->. reflexivity. Qed.

Lemma criterion_construction_reads b h b' h' a :
  b' !! "construction" = b !! "construction" ->
  h' !! "construction" = h !! "construction" ->
  criterion_construction b' h' a = criterion_construction b h a.
Proof. unfold criterion_construction, get_or. intros -> ->. reflexivity. Qed.

Lemma criterion_inner_diameter_reads b h b' h' a :
  b' !! "inner_diameter_mm" = b !! "inner_diameter_mm" ->
  h' !! "inner_diameter_mm" = h !! "inner_diameter_mm" ->
  criterion_inner_diameter b' h' a = criterion_inner_diameter b h a.
Proof. unfold criterion_inner_diameter, get. intros -> ->. reflexivity. Qed.

Lemma criterion_pressure_reads b h b' h' a :
  b' !! "working_pressure_mpa" = b !! "working_pressure_mpa" ->
  b' !! "working_pressure_bar" = b !! "working_pressure_bar" ->
  h' !! "working_pressure_mpa" = h !! "working_pressure_mpa" ->
  h' !! "working_pressure_bar" = h !! "working_pressure_bar" ->
  criterion_pressure b' h' a = criterion_pressure b h a.
Proof.
  unfold criterion_pressure, to_mpa, get, has_key. intros -> -> -> ->. reflexivity.
Qed.

Lemma bind_ext {A B} (m : result A) (f g : A -> result B) :
  (forall a, f a = g a) -> bind m f = bind m g.
Proof. intros E. destruct m; simpl; auto. Qed.

(** Two pairs of records on which every criterion gives the same result
    get the same result from the scorer. *)
Lemma calculate_match_score_ext b h b' h' :
  pre_check b' h' = pre_check b h ->
  (forall a, criterion_dn b' h' a = criterion_dn b h a) ->
  (forall a, criterion_pressure b' h' a = criterion_pressure b h a) ->
  (forall a, criterion_standard b' h' a = criterion_standard b h a) ->
  (forall a, criterion_construction b' h' a = criterion_construction b h a) ->
  (forall a, criterion_inner_diameter b' h' a = criterion_inner_diameter b h a) ->
  _calculate_match_score b' h' = _calculate_match_score b h.
Proof.
  intros E0 E1 E2 E3 E4 E5.
  unfold _calculate_match_score. rewrite E0.
  apply bind_ext. intros [rs|]; [reflexivity|].
  f_equal. unfold run_criteria. rewrite E1.
  apply bind_ext; intros a1. rewrite E2.
  apply bind_ext; intros a2. rewrite E3.
  apply bind_ext; intros a3. rewrite E4.
  apply bind_ext; intros a4. apply E5.
Qed.

End HoseFrames.

(** ** Pressures in bar and in MPa *)

Section PressureUnits.
Import Py ProductMatcher.

(** A record that states its working pressure in bar only, and one that
    states it in MPa only; the other fields are those of [r]. *)
Definition with_bar (x : float) (r : gmap string value) : gmap string value :=
  <["working_pressure_bar" := VNum x]> (delete "working_pressure_mpa" r).

Definition with_mpa (x : float) (r : gmap string value) : gmap string value :=
  <["working_pressure_mpa" := VNum x]> (delete "working_pressure_bar" r).

Lemma with_bar_other x r k :
  k <> "working_pressure_bar" -> k <> "working_pressure_mpa" ->
  with_bar x r !! k = r !! k.
Proof.
  intros N1 N2. unfold with_bar.
  rewrite lookup_insert_ne by congruence. apply lookup_delete_ne. congruence.
Qed.

Lemma with_mpa_other x r k :
  k <> "working_pressure_bar" -> k <> "working_pressure_mpa" ->
  with_mpa x r !! k = r !! k.
Proof.
  intros N1 N2. unfold with_mpa.
  rewrite lookup_insert_ne by congruence. apply lookup_delete_ne. congruence.
Qed.

Lemma with_bar_bar x r : with_bar x r !! "working_pressure_bar" = Some (VNum x).
Proof. apply lookup_insert_eq. Qed.

Lemma with_bar_mpa x r : with_bar x r !! "working_pressure_mpa" = None.
Proof.
  unfold with_bar. rewrite lookup_insert_ne by discriminate. apply lookup_delete_eq.
Qed.

Lemma with_mpa_mpa x r : with_mpa x r !! "working_pressure_mpa" = Some (VNum x).
Proof. apply lookup_insert_eq. Qed.

Lemma with_mpa_bar x r : with_mpa x r !! "working_pressure_bar" = None.
Proof.
  unfold with_mpa. rewrite lookup_insert_ne by discriminate. apply lookup_delete_eq.
Qed.

(** The pressure criterion on 350 bar against 35 MPa, on 35 MPa against
    350 bar and on 35 MPa against 35 MPa: the full 25 points each time. *)
Lemma pressure_350_bar_35_mpa b h a :
  criterion_pressure (with_bar 350 b) (with_mpa 35 h) a
  = Ok (award 25 (PressureMatch 35 35) (add_max 25 a)).
Proof.
  unfold criterion_pressure, to_mpa, get, has_key.
  rewrite !with_bar_bar, !with_bar_mpa, !with_mpa_mpa, !with_mpa_bar.
  reflexivity.
Qed.

Lemma pressure_35_mpa_350_bar b h a :
  criterion_pressure (with_mpa 35 b) (with_bar 350 h) a
  = Ok (award 25 (PressureMatch 35 35) (add_max 25 a)).
Proof.
  unfold criterion_pressure, to_mpa, get, has_key.
  rewrite !with_bar_bar, !with_bar_mpa, !with_mpa_mpa, !with_mpa_bar.
  reflexivity.
Qed.

Lemma pressure_35_mpa_35_mpa b h a :
  criterion_pressure (with_mpa 35 b) (with_mpa 35 h) a
  = Ok (award 25 (PressureMatch 35 35) (add_max 25 a)).
Proof.
  unfold criterion_pressure, to_mpa, get, has_key.
  rewrite !with_mpa_mpa, !with_mpa_bar.
  reflexivity.
Qed.

Ltac other_fields :=
  first [ rewrite with_bar_other by discriminate
        | rewrite with_mpa_other by discriminate ];
  try reflexivity.

Lemma score_bar_against_mpa b h :
  _calculate_match_score (with_bar 350 b) (with_mpa 35 h)
  = _calculate_match_score (with_mpa 35 b) (with_mpa 35 h).
Proof.
  apply calculate_match_score_ext.
  - apply pre_check_reads; other_fields; other_fields.
  - intros a. apply criterion_dn_reads; other_fields; other_fields.
  - intros a. rewrite pressure_350_bar_35_mpa, pressure_35_mpa_35_mpa. reflexivity.
  - intros a. apply criterion_standard_reads; other_fields; other_fields.
  - intros a. apply criterion_construction_reads; other_fields; other_fields.
  - intros a. apply criterion_inner_diameter_reads; other_fields; other_fields.
Qed.

Lemma score_mpa_against_bar b h :
  _calculate_match_score (with_mpa 35 b) (with_bar 350 h)
  = _calculate_match_score (with_mpa 35 b) (with_mpa 35 h).
Proof.
  apply calculate_match_score_ext.
  - apply pre_check_reads; other_fields; other_fields.
  - intros a. apply criterion_dn_reads; other_fields; other_fields.
  - intros a. rewrite pressure_35_mpa_350_bar, pressure_35_mpa_35_mpa. reflexivity.
  - intros a. apply criterion_standard_reads; other_fields; other_fields.
  - intros a. apply criterion_construction_reads; other_fields; other_fields.
  - intros a. apply criterion_inner_diameter_reads; other_fields; other_fields.
Qed.

(** C3: for every pair of hose records, with the working pressure of each
    stated in exactly one unit and the other fields whatever they are, 350
    bar against 35 MPa (either way round) earns the same pressure points
    as 35 MPa against 35 MPa, namely the full 25, and the scorer returns
    the same result (score and reasons) in the three cases. *)
Theorem hose_350_bar_scores_as_35_mpa b h :
  (forall a,
      criterion_pressure (with_bar 350 b) (with_mpa 35 h) a
      = criterion_pressure (with_mpa 35 b) (with_mpa 35 h) a /\
      criterion_pressure (with_mpa 35 b) (with_bar 350 h) a
      = criterion_pressure (with_mpa 35 b) (with_mpa 35 h) a /\
      criterion_pressure (with_mpa 35 b) (with_mpa 35 h) a
      = Ok (award 25 (PressureMatch 35 35) (add_max 25 a))) /\
  _calculate_match_score (with_bar 350 b) (with_mpa 35 h)
  = _calculate_match_score (with_mpa 35 b) (with_mpa 35 h) /\
  _calculate_match_score (with_mpa 35 b) (with_bar 350 h)
  = _calculate_match_score (with_mpa 35 b) (with_mpa 35 h).
Proof.
  split; [|split].
  - intros a.
    rewrite pressure_350_bar_35_mpa, pressure_35_mpa_350_bar, pressure_35_mpa_35_mpa.
    auto.
  - apply score_bar_against_mpa.
  - apply score_mpa_against_bar.
Qed.

End PressureUnits.

(** ** Standards of different families *)

Section StandardFamilies.
Import Py ProductMatcher.

(** A record whose standard is [s]; the other fields are those of [r]. *)
Definition with_standard (s : string) (r : gmap string value) : gmap string value :=
  <["standard" := VStr s]> r.

Lemma with_standard_lookup s r : with_standard s r !! "standard" = Some (VStr s).
Proof. apply lookup_insert_eq. Qed.

Lemma with_standard_other s r k : k <> "standard" -> with_standard s r !! k = r !! k.
Proof. intros N. apply lookup_insert_ne. congruence. Qed.

Lemma standard_853_against_857 b h a :
  criterion_standard (with_standard "DIN EN 853 1SN" b) (with_standard "DIN EN 857 2SC" h) a
  = Ok (award 10 (StandardCompatible "853" "857") (add_max 20 a)).
Proof.
  unfold criterion_standard, get_or. rewrite !with_standard_lookup.
  vm_compute. reflexivity.
Qed.

Lemma standard_857_against_853 b h a :
  criterion_standard (with_standard "DIN EN 857 2SC" b) (with_standard "DIN EN 853 1SN" h) a
  = Ok (award 10 (StandardCompatible "857" "853") (add_max 20 a)).
Proof.
  unfold criterion_standard, get_or. rewrite !with_standard_lookup.
  vm_compute. reflexivity.
Qed.

(** With 10 points from the standard criterion the raw score is at most
    90, and the reasons keep the entry of the compatible standards. *)
Lemma run_criteria_half_standard b h a r :
  (forall a0, criterion_standard b h a0 = Ok (award 10 r (add_max 20 a0))) ->
  run_criteria b h = Ok a ->
  score a <= 90 /\ In r (reasons a).
Proof.
  intros S H. unfold run_criteria in H. inv_ok.
  repeat match goal with
         | E : criterion_dn _ _ _ = Ok _ |- _ => apply criterion_dn_bumps in E
         | E : criterion_pressure _ _ _ = Ok _ |- _ => apply criterion_pressure_bumps in E
         | E : criterion_construction _ _ _ = Ok _ |- _ =>
             apply criterion_construction_bumps in E
         end.
  apply criterion_inner_diameter_bumps in H.
  match goal with E : criterion_standard _ _ _ = Ok _ |- _ =>
    rewrite S in E; injection E as <- end.
  unfold bumps, acc0, award, add_max in *; cbn [score max_score reasons] in *.
  repeat match goal with
         | E : _ /\ _ |- _ => destruct E
         | E : exists _, _ |- _ => destruct E
         end.
  split; [lia|].
  repeat match goal with E : reasons _ = _ |- _ => rewrite E; clear E end.
  rewrite !in_app_iff. simpl. tauto.
Qed.

(** C4: for every pair of records of which one has the standard
    "DIN EN 853 1SN" and the other "DIN EN 857 2SC", either way round, the
    standard criterion compares the numbers 853 and 857 as whole tokens and
    awards the 10 points of the EN-853/EN-857 compatibility, never the full
    20; so the raw score of the pair is at most 90 and its reasons record
    the standards as compatible. *)
Theorem hose_853_and_857_are_not_a_standard_match b h :
  (forall a,
      criterion_standard (with_standard "DIN EN 853 1SN" b)
                         (with_standard "DIN EN 857 2SC" h) a
      = Ok (award 10 (StandardCompatible "853" "857") (add_max 20 a)) /\
      criterion_standard (with_standard "DIN EN 857 2SC" b)
                         (with_standard "DIN EN 853 1SN" h) a
      = Ok (award 10 (StandardCompatible "857" "853") (add_max 20 a))) /\
  (forall a,
      run_criteria (with_standard "DIN EN 853 1SN" b) (with_standard "DIN EN 857 2SC" h)
      = Ok a ->
      score a <= 90 /\ In (StandardCompatible "853" "857") (reasons a)) /\
  (forall a,
      run_criteria (with_standard "DIN EN 857 2SC" b) (with_standard "DIN EN 853 1SN" h)
      = Ok a ->
      score a <= 90 /\ In (StandardCompatible "857" "853") (reasons a)).
Proof.
  split; [|split].
  - intros a. split; [apply standard_853_against_857 | apply standard_857_against_853].
  - intros a. apply run_criteria_half_standard. intros a0. apply standard_853_against_857.
  - intros a. apply run_criteria_half_standard. intros a0. apply standard_857_against_853.
Qed.

End StandardFamilies.

(** ** The series-validated fittings scorer: points and bounds *)

Section SeriesScorer.
Import Py WithSeries.

Variable float_repr : float -> string.

Ltac unfold_acc :=
  unfold award, warn in *; cbn [score reasons warnings] in *.

Lemma criterion_angle_points ha ba a a' :
  criterion_angle ha ba a = Continue a' -> score a <= score a' <= score a + 20.
Proof.
  unfold criterion_angle. intros H.
  repeat match type of H with
         | (if ?c then _ else _) = _ => destruct c
         end; try discriminate; injection H as <-; unfold_acc; lia.
Qed.

Lemma criterion_series_points hs bs a a' :
  criterion_series hs bs a = Continue a' -> score a <= score a' <= score a + 20.
Proof.
  unfold criterion_series. intros H.
  repeat match type of H with
         | (if ?c then _ else _) = _ => destruct c
         end; try discriminate; injection H as <-; unfold_acc; lia.
Qed.

Lemma criterion_standard_points hs bs a a' :
  criterion_standard hs bs a = Continue a' -> score a <= score a' <= score a + 30.
Proof.
  unfold criterion_standard. intros H.
  destruct hs, bs;
    repeat match type of H with
           | (if ?c then _ else _) = _ => destruct c
           end; try discriminate; injection H as <-; unfold_acc; lia.
Qed.

Lemma criterion_dn_points hd bd a a' :
  criterion_dn hd bd a = Ok a' -> score a <= score a' <= score a + 25.
Proof.
  unfold criterion_dn, try_except. intros H.
  repeat match type of H with
         | match ?c with _ => _ end = _ => destruct c eqn:?
         end; inv_ok; unfold_acc; try lia.
Qed.

Lemma criterion_dn_returns hd bd a : exists a', criterion_dn hd bd a = Ok a'.
Proof.
  unfold criterion_dn.
  repeat match goal with
         | |- context [if ?c then _ else _] => destruct c
         end; eauto using try_except_Ok.
Qed.

Lemma criterion_seat_points hs bs a :
  score a <= score (criterion_seat hs bs a) <= score a + 5.
Proof.
  unfold criterion_seat. destruct hs, bs; try destruct (String.eqb _ _); unfold_acc; lia.
Qed.

Lemma check_gender_points g bg a : score (check_gender g bg a) = score a.
Proof.
  unfold check_gender.
  repeat match goal with
         | |- context [if ?c then _ else _] => destruct c
         end; reflexivity.
Qed.

Lemma add_warnings_points a : score (add_warnings a) = score a.
Proof. unfold add_warnings. destruct (warnings a); reflexivity. Qed.

Lemma series_score_bounded h b s rs ws :
  calculate_match_score float_repr h b = Ok (s, rs, ws) -> 0 <= s <= 100.
Proof.
  unfold calculate_match_score. intros H. inv_ok; try lia.
  repeat match goal with
         | E : criterion_angle _ _ _ = Continue _ |- _ => apply criterion_angle_points in E
         | E : criterion_series _ _ _ = Continue _ |- _ => apply criterion_series_points in E
         | E : criterion_standard _ _ _ = Continue _ |- _ =>
             apply criterion_standard_points in E
         | E : criterion_dn _ _ _ = Ok _ |- _ => apply criterion_dn_points in E
         end.
  rewrite add_warnings_points, check_gender_points.
  match goal with |- context [criterion_seat ?x ?y ?a] =>
    pose proof (criterion_seat_points x y a) end.
  cbn [score] in *. lia.
Qed.

End SeriesScorer.

(** ** The improved fittings scorer: points and bounds *)

Section ImprovedScorer.
Import Py ImprovedFittings.

Lemma thread_points_range bt ht : 0 <= thread_points bt ht <= 40.
Proof.
  unfold thread_points.
  repeat match goal with
         | |- context [if ?c then _ else _] => destruct c
         end; lia.
Qed.

Lemma dash_points_range d sz p : dash_points d sz = Ok p -> 0 <= p <= 30.
Proof. unfold dash_points. intros H. inv_ok; lia. Qed.

Lemma category_points_range bc hc : 0 <= category_points bc hc <= 15.
Proof.
  unfold category_points.
  repeat match goal with
         | |- context [if ?c then _ else _] => destruct c
         end; lia.
Qed.

Lemma hose_points_range bh hd p : hose_points bh hd = Ok p -> 0 <= p <= 15.
Proof.
  unfold hose_points, try_except. intros H.
  repeat match type of H with
         | match ?c with _ => _ end = _ => destruct c eqn:?
         end; inv_ok; lia.
Qed.

Lemma improved_score_bounded bal heiz s :
  _calculate_score bal heiz = Ok s -> 0 <= s <= 100.
Proof.
  unfold _calculate_score. intros H. inv_ok.
  repeat match goal with
         | E : dash_points _ _ = Ok _ |- _ => apply dash_points_range in E
         | E : hose_points _ _ = Ok _ |- _ => apply hose_points_range in E
         end.
  match goal with |- context [thread_points ?x ?y] =>
    pose proof (thread_points_range x y) end.
  match goal with |- context [category_points ?x ?y] =>
    pose proof (category_points_range x y) end.
  lia.
Qed.

End ImprovedScorer.

(** ** The Gate *)

Section Gate.
Import Py.

(** A field that holds text or nothing: null or a string, not a number. *)
Definition textual (v : value) : Prop :=
  match v with
  | VNum _ => False
  | _ => True
  end.

(** The fields of a pair of fittings that the series-validated scorer
    passes to its normalisers. *)
Definition fields_textual (heizmann_item balflex_item : gmap string value) : Prop :=
  textual (get heizmann_item "standard") /\ textual (get balflex_item "standard") /\
  textual (get heizmann_item "seat_type") /\ textual (get balflex_item "seat_type") /\
  textual (get_or heizmann_item "connection_type" (VStr "")).

Lemma normalize_standard_returns v :
  textual v -> exists r, WithSeries.normalize_standard v = Ok r.
Proof.
  unfold WithSeries.normalize_standard. destruct v as [|x|s]; simpl; try tauto; intros _.
  - eauto.
  - destruct (negb (negb (String.eqb s ""))); eauto.
Qed.

Lemma normalize_seat_type_returns v :
  textual v -> exists r, WithSeries.normalize_seat_type v = Ok r.
Proof.
  unfold WithSeries.normalize_seat_type. destruct v as [|x|s]; simpl; try tauto; intros _.
  - eauto.
  - destruct (negb (negb (String.eqb s ""))); [eauto|].
    destruct (search WithSeries.re_degree s); [eauto|].
    repeat match goal with
           | |- context [if ?c then _ else _] => destruct c
           end; eauto.
Qed.

Lemma determine_gender_returns float_repr h :
  textual (get_or h "connection_type" (VStr "")) ->
  exists g, WithSeries.determine_gender_heizmann float_repr h = Ok g.
Proof.
  unfold WithSeries.determine_gender_heizmann.
  destruct (get_or h "connection_type" (VStr "")) as [|x|s]; simpl; try tauto; intros _.
  all: repeat match goal with
              | |- context [if ?c then _ else _] => destruct c; simpl
              end; eauto.
Qed.

(** On a pair of fittings whose text fields hold no number the scorer
    returns. *)
Lemma series_scorer_returns float_repr h b :
  fields_textual h b -> exists r, WithSeries.calculate_match_score float_repr h b = Ok r.
Proof.
  intros (T1 & T2 & T3 & T4 & T5).
  destruct (normalize_standard_returns _ T1) as [hs Hs].
  destruct (normalize_standard_returns _ T2) as [bs Hb].
  destruct (normalize_seat_type_returns _ T3) as [hseat Hseat].
  destruct (normalize_seat_type_returns _ T4) as [bseat Hbseat].
  destruct (determine_gender_returns float_repr _ T5) as [g Hg].
  unfold WithSeries.calculate_match_score.
  rewrite Hs, Hb, Hseat, Hbseat, Hg. cbn [bind].
  destruct (WithSeries.criterion_angle _ _ _) as [a1|]; [|eauto].
  destruct (WithSeries.criterion_series _ _ _) as [a2|]; [|eauto].
  destruct (WithSeries.criterion_standard _ _ _) as [a3|]; [|eauto].
  destruct (criterion_dn_returns (get h "dn") (get b "hose_size_mm") a3) as [a4 E].
  rewrite E. cbn [bind]. eauto.
Qed.

(** Both values are present and they differ. *)
Definition known_and_different (x y : value) : bool :=
  (truthy x && truthy y && negb (py_eq x y))%bool.

(** The standards of the two fittings normalise to two different
    families. *)
Definition standards_differ (h b : gmap string value) : Prop :=
  exists x y,
    WithSeries.normalize_standard (get h "standard") = Ok (Some x) /\
    WithSeries.normalize_standard (get b "standard") = Ok (Some y) /\
    x <> y.

(** The Gate of the fittings scorer rejects the pair. *)
Definition fittings_gate_rejects (h b : gmap string value) : Prop :=
  known_and_different (get h "angle") (get b "angle") = true \/
  known_and_different (get h "series") (get b "series") = true \/
  standards_differ h b.

Lemma criterion_angle_continue ha ba a a' :
  WithSeries.criterion_angle ha ba a = WithSeries.Continue a' ->
  known_and_different ha ba = false.
Proof.
  unfold WithSeries.criterion_angle, known_and_different.
  destruct (truthy ha), (truthy ba), (py_eq ha ba); simpl; congruence.
Qed.

Lemma criterion_series_continue hs bs a a' :
  WithSeries.criterion_series hs bs a = WithSeries.Continue a' ->
  known_and_different hs bs = false.
Proof.
  unfold WithSeries.criterion_series, known_and_different.
  destruct (truthy hs), (truthy bs), (py_eq hs bs); simpl; congruence.
Qed.

Lemma criterion_standard_continue x y a a' :
  WithSeries.criterion_standard (Some x) (Some y) a = WithSeries.Continue a' -> x = y.
Proof.
  unfold WithSeries.criterion_standard.
  destruct (String.eqb x y) eqn:E; [intros _; apply String.eqb_eq, E | discriminate].
Qed.

(** A rejection by the fittings Gate: score 0, no reasons, one warning. *)
Lemma series_gate_rejection float_repr h b :
  fields_textual h b -> fittings_gate_rejects h b ->
  exists w, WithSeries.calculate_match_score float_repr h b = Ok (0, [], [w]).
Proof.
  intros (T1 & T2 & T3 & T4 & T5) G.
  destruct (normalize_standard_returns _ T1) as [hs Hs].
  destruct (normalize_standard_returns _ T2) as [bs Hb].
  destruct (normalize_seat_type_returns _ T3) as [hseat Hseat].
  destruct (normalize_seat_type_returns _ T4) as [bseat Hbseat].
  destruct (determine_gender_returns float_repr _ T5) as [g Hg].
  unfold WithSeries.calculate_match_score.
  rewrite Hs, Hb, Hseat, Hbseat, Hg. cbn [bind].
  destruct (WithSeries.criterion_angle _ _ _) as [a1|] eqn:EA; [|eauto].
  destruct (WithSeries.criterion_series _ _ _) as [a2|] eqn:ES; [|eauto].
  destruct (WithSeries.criterion_standard _ _ _) as [a3|] eqn:ET; [|eauto].
  exfalso. destruct G as [G | [G | (sx & sy & G1 & G2 & G3)]].
  - apply criterion_angle_continue in EA. congruence.
  - apply criterion_series_continue in ES. congruence.
  - rewrite G1 in Hs. rewrite G2 in Hb. injection Hs as <-. injection Hb as <-.
    apply criterion_standard_continue in ET. congruence.
Qed.

(** The Gate of the hose scorer rejects a pair with these constructions
    (in lower case). *)
Definition hose_gate_rejects (balflex_const heizmann_const : string) : bool :=
  (nonempty balflex_const && nonempty heizmann_const
   && ((contains "textile" balflex_const && contains "wire" heizmann_const)
       || (contains "wire" balflex_const && contains "textile" heizmann_const)
       || negb (Bool.eqb (contains "spiral" balflex_const)
                         (contains "spiral" heizmann_const))))%bool.

(** A rejection by the hose Gate: score 0 and one reason, the message
    that names the mismatch. *)
Lemma hose_gate_rejection b h bc hc :
  get_or b "construction" (VStr "") = VStr bc ->
  get_or h "construction" (VStr "") = VStr hc ->
  hose_gate_rejects (lower bc) (lower hc) = true ->
  exists msg,
    ProductMatcher.pre_check b h = Ok (Some [ProductMatcher.Text msg]) /\
    ProductMatcher._calculate_match_score b h = Ok (0%float, [ProductMatcher.Text msg]).
Proof.
  intros Eb Eh G.
  unfold ProductMatcher._calculate_match_score, ProductMatcher.pre_check.
  rewrite Eb, Eh. cbn [v_lower bind].
  unfold hose_gate_rejects in G.
  apply andb_true_iff in G as [G G3]. rewrite G.
  destruct (contains "textile" (lower bc) && contains "wire" (lower hc))%bool;
    [eexists; split; reflexivity|].
  destruct (contains "wire" (lower bc) && contains "textile" (lower hc))%bool;
    [eexists; split; reflexivity|].
  simpl in G3. rewrite G3. eexists; split; reflexivity.
Qed.

End Gate.

(** ** Rejections by the Gate *)

Section GateRejection.
Import Py.

(** The rejection scenario: a textile hose against a wire-braid hose of
    the same DN. *)
Definition rejected_source : gmap string value :=
  <["construction" := VStr "textile braid"]> (<["dn" := VStr "DN10"]> ∅).

Definition rejected_target : gmap string value :=
  <["construction" := VStr "2 wire braid"]> (<["dn" := VStr "DN10"]> ∅).

(** Two fittings with the same series and standard, one with a 90° and
    the other with a 45° angle. *)
Definition elbow_90 : gmap string value :=
  <["angle" := VStr "90°"]> (<["series" := VStr "L"]>
  (<["standard" := VStr "ISO 8434-1"]> (<["dn" := VStr "12"]> ∅))).

Definition elbow_45 : gmap string value :=
  <["angle" := VStr "45°"]> (<["series" := VStr "L"]>
  (<["standard" := VStr "ISO"]> (<["hose_size_mm" := VStr "12.7"]> ∅))).

(** C2, refuted as stated: the hose scorer rejects the textile/wire pair
    with score 0, but its reasons list is not empty: it holds the message
    of the mismatch. *)
Lemma hose_rejection_carries_a_reason :
  hose_gate_rejects "textile braid" "2 wire braid" = true /\
  ProductMatcher._calculate_match_score rejected_source rejected_target
  = Ok (0%float,
        [ProductMatcher.Text "Construction mismatch: textile vs wire - INCOMPATIBLE"]).
Proof. split; vm_compute; reflexivity. Qed.

(** C2, as amended: on every pair that the Gate rejects the score is
    exactly 0.  For hoses (textile against wire, wire against textile,
    spiral against non-spiral) the reasons list holds one entry, the
    message that names the construction mismatch.  For fittings whose text
    fields hold no number (an angle, series or standard mismatch with both
    sides known) the reasons list is empty and the warnings list holds one
    entry, the mismatch. *)
Theorem gate_rejection_scores_zero :
  (forall b h bc hc,
      get_or b "construction" (VStr "") = VStr bc ->
      get_or h "construction" (VStr "") = VStr hc ->
      hose_gate_rejects (lower bc) (lower hc) = true ->
      exists msg,
        ProductMatcher._calculate_match_score b h
        = Ok (0%float, [ProductMatcher.Text msg])) /\
  (forall float_repr h b,
      fields_textual h b -> fittings_gate_rejects h b ->
      exists w, WithSeries.calculate_match_score float_repr h b = Ok (0, [], [w])).
Proof.
  split.
  - intros b h bc hc Eb Eh G.
    destruct (hose_gate_rejection b h bc hc Eb Eh G) as (msg & _ & E). eauto.
  - intros float_repr h b. apply series_gate_rejection.
Qed.

Lemma gate_rejection_scores_zero_witness :
  (exists msg,
      ProductMatcher._calculate_match_score rejected_source rejected_target
      = Ok (0%float, [ProductMatcher.Text msg])) /\
  (exists w,
      WithSeries.calculate_match_score (fun _ => EmptyString) elbow_90 elbow_45
      = Ok (0, [], [w])).
Proof.
  destruct gate_rejection_scores_zero as [H F]. split.
  - apply (H rejected_source rejected_target "textile braid" "2 wire braid");
      vm_compute; reflexivity.
  - apply F.
    + unfold fields_textual. vm_compute. tauto.
    + left. vm_compute. reflexivity.
Defined.

End GateRejection.

(** ** Score boundedness *)

Section Boundedness.
Import Py.

(** A Balflex and a Heizmann fitting for the improved matcher: the same
    thread family, dash size 8, the same category and close hose sizes. *)
Definition bal_bsp_8 : gmap string value :=
  <["thread_type" := VStr "BSP"]> (<["dash_size" := VStr "-8"]>
  (<["category" := VStr "Press"]> (<["hose_size_mm" := VStr "12.7"]> ∅))).

Definition heiz_bsp_8 : gmap string value :=
  <["thread_type" := VStr "BSP"]> (<["size" := VStr "8"]>
  (<["category" := VStr "Press"]> (<["DN" := VStr "DN12"]> ∅))).

(** C7: whenever a scorer returns, the score lies between 0 and 100: the
    hose scorer (a binary64 float), the improved fittings scorer and the
    series-validated fittings scorer (integers). *)
Theorem scores_are_bounded :
  (forall b h s rs,
      ProductMatcher._calculate_match_score b h = Ok (s, rs) ->
      (0 <=? s)%float = true /\ (s <=? 100)%float = true) /\
  (forall bal heiz s,
      ImprovedFittings._calculate_score bal heiz = Ok s -> 0 <= s <= 100) /\
  (forall float_repr h b s rs ws,
      WithSeries.calculate_match_score float_repr h b = Ok (s, rs, ws) -> 0 <= s <= 100).
Proof.
  split; [|split].
  - apply hose_score_bounded.
  - apply improved_score_bounded.
  - apply series_score_bounded.
Qed.

Lemma scores_are_bounded_witness :
  ((0 <=? 90)%float = true /\ (90 <=? 100)%float = true) /\
  0 <= 100 <= 100 /\
  0 <= 82 <= 100.
Proof.
  destruct scores_are_bounded as (H & I & S). split; [|split].
  - apply (H scenario_source scenario_target 90%float
             [ProductMatcher.DNMatch (VStr "DN12"); ProductMatcher.PressureMatch 25 25;
              ProductMatcher.StandardMatchEN "857";
              ProductMatcher.ConstructionMatch "2 wire braid"]).
    vm_compute. reflexivity.
  - apply (I bal_bsp_8 heiz_bsp_8). vm_compute. reflexivity.
  - apply (S (fun _ => EmptyString) elbow_90 (<["angle" := VStr "90°"]> elbow_45) 82
             [WithSeries.Angle (VStr "90°"); WithSeries.Series (VStr "L");
              WithSeries.Standard "ISO"; WithSeries.DNClose 12 12.7]
             []).
    vm_compute. reflexivity.
Defined.

End Boundedness.

(** ** The field normalisers *)

Section Normalisers.
Import Py.

Lemma extract_float_returns c : exists r, BalflexPDF._extract_float c = Ok r.
Proof.
  unfold BalflexPDF._extract_float. destruct c as [s|]; [|eauto].
  destruct (search _ _); [apply try_except_Ok | eauto].
Qed.

Lemma normalize_dash_code_returns d :
  exists r, FixHoseSizes.normalize_dash_code d = Ok r.
Proof.
  unfold FixHoseSizes.normalize_dash_code. destruct d as [s|]; [|eauto].
  destruct (negb (nonempty s)); [eauto|].
  destruct (search _ _); eauto.
Qed.

Lemma parse_inch_to_mm_returns i :
  exists r, FixHoseSizes.parse_inch_to_mm i = Ok r.
Proof.
  unfold FixHoseSizes.parse_inch_to_mm. destruct i as [s|]; [|eauto].
  destruct (negb (nonempty s)); [eauto|].
  destruct (FixHoseSizes.lookup _ _); [eauto | apply try_except_Ok].
Qed.

(** A row whose inner- and outer-diameter cells hold no number. *)
Definition row_with_malformed_numbers : list BalflexPDF.cell :=
  [Some "2SC-08"; Some "10.1405.08"; Some "DN12"; Some "1/2"; Some "-8";
   Some "n/a"; Some "--"; Some "40,0 5800"].

(** C9: the field normalisers are total: for every cell or string (and
    for [None]) the float extraction, the dash-code normalisation and the
    inch-to-mm parsing return a value or [None] and never raise; the
    conversions that can raise inside them ([float], the division) are
    caught.  A decimal comma is read as a decimal point; a malformed token
    gives [None], and the extraction of the row goes on with the other
    fields: the product is emitted without the malformed ones. *)
Theorem normalisers_are_total :
  (forall c, exists r, BalflexPDF._extract_float c = Ok r) /\
  (forall d, exists r, FixHoseSizes.normalize_dash_code d = Ok r) /\
  (forall i, exists r, FixHoseSizes.parse_inch_to_mm i = Ok r) /\
  BalflexPDF._extract_float (Some "17,4") = Ok (Some 17.4%float) /\
  BalflexPDF._extract_float (Some "n/a") = Ok None /\
  BalflexPDF._extract_float (Some "") = Ok None /\
  FixHoseSizes.normalize_dash_code (Some " - 10") = Ok (Some "-10") /\
  FixHoseSizes.normalize_dash_code (Some "") = Ok None /\
  FixHoseSizes.normalize_dash_code (Some "n/a") = Ok None /\
  FixHoseSizes.parse_inch_to_mm (Some "5/8") = Ok (Some 15.9%float) /\
  FixHoseSizes.parse_inch_to_mm (Some "7/16") = Ok (Some 11.1%float) /\
  FixHoseSizes.parse_inch_to_mm (Some "1/0") = Ok None /\
  FixHoseSizes.parse_inch_to_mm (Some "a/b") = Ok None /\
  FixHoseSizes.parse_inch_to_mm (Some "") = Ok None /\
  match BalflexPDF._extract_product_from_row row_with_malformed_numbers
          (BalflexPDF._find_column_indices []) "BALMASTER BESTFLEX 2SC" "DIN EN 857 2SC"
  with
  | Ok (Some product) =>
      product !! "inner_diameter_mm" = None /\
      product !! "outer_diameter_mm" = None /\
      product !! "working_pressure_mpa" = Some (VNum 40) /\
      product !! "dn" = Some (VStr "DN12") /\
      product !! "article_number" = Some (VStr "10.1405.08") /\
      product !! "construction" = Some (VStr "2 wire braid")
  | _ => False
  end.
Proof.
  split; [exact extract_float_returns|].
  split; [exact normalize_dash_code_returns|].
  split; [exact parse_inch_to_mm_returns|].
  do 11 (split; [vm_compute; reflexivity|]).
  vm_compute. repeat split.
Qed.

End Normalisers.

(** ** Row acceptance *)

Section RowAcceptance.
Import Py BalflexPDF.

Lemma lookup_set_text_ne k k' s (p : gmap string value) :
  k <> k' -> set_text k s p !! k' = p !! k'.
Proof.
  intros N. unfold set_text. destruct (nonempty s); [|reflexivity].
  apply lookup_insert_ne. exact N.
Qed.

Lemma lookup_set_number_ne k k' x (p : gmap string value) :
  k <> k' -> set_number k x p !! k' = p !! k'.
Proof.
  intros N. unfold set_number. destruct x as [x|]; [|reflexivity].
  destruct (truthy (VNum x)); [|reflexivity].
  apply lookup_insert_ne. exact N.
Qed.

Lemma lookup_set_text_eq k s (p : gmap string value) :
  p !! k = None ->
  set_text k s p !! k = if nonempty s then Some (VStr s) else None.
Proof.
  intros E. unfold set_text. destruct (nonempty s); [apply lookup_insert_eq | exact E].
Qed.

(** The cleaned DN text that [dn_of] yields is never empty. *)
Lemma dn_of_nonempty s dn : dn_of s = Some dn -> truthy (VStr dn) = true.
Proof.
  unfold dn_of. destruct (nonempty s); [|discriminate].
  destruct (search re_dn (upper s)); [|destruct (isdigit s)];
    intros E; try discriminate; injection E as <-; reflexivity.
Qed.

(** The steps that set the numeric fields never raise and leave the other
    fields as they are. *)
Lemma number_step_returns k (c : option cell) (p : gmap string value) :
  exists p',
    match c with
    | Some c => bind (_extract_float c) (fun x => Ok (set_number k x p))
    | None => Ok p
    end = Ok p' /\
    forall k', k <> k' -> p' !! k' = p !! k'.
Proof.
  destruct c as [c|]; [|eauto].
  destruct (extract_float_returns c) as [x E]. rewrite E. cbn [bind].
  eexists; split; [reflexivity|]. intros k' N. apply lookup_set_number_ne, N.
Qed.

(** A row of at least eight cells, on the fixed column positions: when the
    text of the working-pressure cell can be taken, the row yields a
    product exactly when the DN cell gives a DN and the article cell is
    not empty. *)
Lemma row_of_eight c0 c1 c2 c3 c4 c5 c6 c7 rest model_name standard text :
  first_number_text (cell_str c7) = Ok text ->
  let row := c0 :: c1 :: c2 :: c3 :: c4 :: c5 :: c6 :: c7 :: rest in
  match dn_of (_clean_cell c2), nonempty (_clean_cell c1) with
  | Some dn, true =>
      exists product,
        _extract_product_from_row row (_find_column_indices []) model_name standard
        = Ok (Some product) /\
        product !! "dn" = Some (VStr dn) /\
        product !! "article_number" = Some (VStr (_clean_cell c1))
  | _, _ =>
      _extract_product_from_row row (_find_column_indices []) model_name standard
      = Ok None
  end.
Proof.
  intros W row.
  unfold _extract_product_from_row.
  assert (L : Nat.ltb (List.length row) 8 = false)
    by (apply Nat.ltb_ge; unfold row; simpl; lia).
  rewrite L.
  assert (C0 : column (_find_column_indices []) "reference" row = Some c0) by reflexivity.
  assert (C1 : column (_find_column_indices []) "article" row = Some c1) by reflexivity.
  assert (C2 : column (_find_column_indices []) "dn" row = Some c2) by reflexivity.
  assert (C3 : column (_find_column_indices []) "inch" row = Some c3) by reflexivity.
  assert (C5 : column (_find_column_indices []) "inner_dia" row = Some c5) by reflexivity.
  assert (C6 : column (_find_column_indices []) "outer_dia" row = Some c6) by reflexivity.
  assert (C7 : column (_find_column_indices []) "working_pressure" row = Some c7)
    by reflexivity.
  rewrite C0, C1, C2, C3, C5, C6, C7, W. clear C0 C1 C2 C3 C5 C6 C7 L.
  cbv zeta. cbn [bind].
  set (p1 := set_text "article_number" (_clean_cell c1) _).
  set (p2 := match dn_of (_clean_cell c2) with
             | Some dn => <["dn" := VStr dn]> p1
             | None => p1
             end).
  set (p3 := set_text "inch_size" (_clean_cell c3) p2).
  destruct (number_step_returns "inner_diameter_mm" (Some c5) p3) as (p4 & E4 & F4).
  rewrite E4. cbn [bind].
  destruct (number_step_returns "outer_diameter_mm" (Some c6) p4) as (p5 & E5 & F5).
  rewrite E5. cbn [bind].
  destruct (extract_float_returns (Some text)) as [wp Ewp]. rewrite Ewp. cbn [bind].
  set (p6 := set_number "working_pressure_mpa" wp p5).
  destruct (number_step_returns "burst_pressure_mpa"
              (column (_find_column_indices []) "burst_pressure" row) p6)
    as (p7 & E7 & F7).
  rewrite E7. cbn [bind].
  set (p8 := set_text "standard" standard p7).
  set (p9 := <["construction" := VStr (_determine_construction model_name standard)]> p8).
  assert (K : forall k,
             k = "dn" \/ k = "article_number" -> p9 !! k = p2 !! k).
  { intros k Hk. unfold p9, p8.
    rewrite lookup_insert_ne by (destruct Hk; subst; discriminate).
    rewrite lookup_set_text_ne by (destruct Hk; subst; discriminate).
    rewrite F7 by (destruct Hk; subst; discriminate). unfold p6.
    rewrite lookup_set_number_ne by (destruct Hk; subst; discriminate).
    rewrite F5 by (destruct Hk; subst; discriminate).
    rewrite F4 by (destruct Hk; subst; discriminate). unfold p3.
    apply lookup_set_text_ne. destruct Hk; subst; discriminate. }
  assert (A : p1 !! "article_number"
              = if nonempty (_clean_cell c1) then Some (VStr (_clean_cell c1)) else None).
  { unfold p1. apply lookup_set_text_eq.
    rewrite lookup_set_text_ne by discriminate. reflexivity. }
  assert (D : p1 !! "dn" = None).
  { unfold p1. rewrite !lookup_set_text_ne by discriminate. reflexivity. }
  unfold get. rewrite !K by auto. unfold p2.
  destruct (dn_of (_clean_cell c2)) as [dn|] eqn:Edn.
  - rewrite lookup_insert_eq, lookup_insert_ne, A by discriminate.
    cbn [from_option id]. rewrite (dn_of_nonempty _ _ Edn).
    destruct (nonempty (_clean_cell c1)) eqn:En.
    + cbn [from_option id truthy andb]. fold (nonempty (_clean_cell c1)). rewrite En.
      eexists. split; [reflexivity|].
      rewrite !K by auto. unfold p2.
      rewrite lookup_insert_eq, lookup_insert_ne, A by discriminate.
      auto.
    + cbn [from_option id truthy andb]. reflexivity.
  - rewrite D. reflexivity.
Qed.

End RowAcceptance.

Section RowAcceptanceClaim.
Import Py BalflexPDF.

(** A row with a reference, an article number, an inch size and a dash
    code, whose DN cell is empty. *)
Definition row_without_dn : list cell :=
  [Some "4SP-04-F"; Some "10.1008.04F"; Some ""; Some "1/4"; Some "-4";
   Some "6.5"; Some "17,4"; Some "45,0 6600"].

(** A row with a reference and a DN, whose article cell is empty. *)
Definition row_without_article : list cell :=
  [Some "4SP-04-F"; Some ""; Some "DN6"; Some "1/4"; Some "-4";
   Some "6.5"; Some "17,4"; Some "45,0 6600"].

(** A complete row of the catalogue. *)
Definition row_complete : list cell :=
  [Some "4SP-04-F"; Some "10.1008.04F"; Some "DN6"; Some "1/4"; Some "-4";
   Some "6.5"; Some "17,4"; Some "45,0 6600"; Some "180,0"; Some "26400";
   Some "150"; Some "0,70"].

(** C8, refuted as stated: a row that yields a size indicator (inch size
    and dash code) and an identifier (reference and article number) but no
    DN is dropped, and so is a row that yields a DN and a reference but no
    article number. *)
Lemma rows_with_size_and_identifier_are_dropped :
  nonempty (_clean_cell (Some "1/4")) = true /\
  nonempty (_clean_cell (Some "-4")) = true /\
  nonempty (_clean_cell (Some "4SP-04-F")) = true /\
  nonempty (_clean_cell (Some "10.1008.04F")) = true /\
  _extract_product_from_row row_without_dn (_find_column_indices [])
    "POWERSPIR BESTFLEX 4SP" "DIN EN 856 4SP" = Ok None /\
  dn_of (_clean_cell (Some "DN6")) = Some "DN6" /\
  _extract_product_from_row row_without_article (_find_column_indices [])
    "POWERSPIR BESTFLEX 4SP" "DIN EN 856 4SP" = Ok None.
Proof. repeat split; vm_compute; reflexivity. Qed.

Lemma short_row_is_dropped row col_indices model_name standard :
  (List.length row < 8)%nat ->
  _extract_product_from_row row col_indices model_name standard = Ok None.
Proof.
  intros L. unfold _extract_product_from_row.
  apply Nat.ltb_lt in L. rewrite L. reflexivity.
Qed.

(** C8, as amended: on the fixed column positions the extractor emits a
    product for a data row if and only if the row has at least eight
    cells, its DN cell (the third) yields a DN and its article-number cell
    (the second) is not empty; the inch size, the dash code and the
    reference do not count.  A row that fails this is dropped by returning
    [None].  This is for rows in which the text of the working-pressure
    cell (the eighth) can be taken. *)
Theorem row_is_accepted_on_dn_and_article :
  (forall row col_indices model_name standard,
      (List.length row < 8)%nat ->
      _extract_product_from_row row col_indices model_name standard = Ok None) /\
  (forall c0 c1 c2 c3 c4 c5 c6 c7 rest model_name standard text,
      first_number_text (cell_str c7) = Ok text ->
      match dn_of (_clean_cell c2), nonempty (_clean_cell c1) with
      | Some dn, true =>
          exists product,
            _extract_product_from_row
              (c0 :: c1 :: c2 :: c3 :: c4 :: c5 :: c6 :: c7 :: rest)
              (_find_column_indices []) model_name standard
            = Ok (Some product) /\
            product !! "dn" = Some (VStr dn) /\
            product !! "article_number" = Some (VStr (_clean_cell c1))
      | _, _ =>
          _extract_product_from_row
            (c0 :: c1 :: c2 :: c3 :: c4 :: c5 :: c6 :: c7 :: rest)
            (_find_column_indices []) model_name standard
          = Ok None
      end).
Proof.
  split.
  - apply short_row_is_dropped.
  - intros. apply (row_of_eight c0 c1 c2 c3 c4 c5 c6 c7 rest model_name standard text).
    assumption.
Qed.

Lemma row_is_accepted_on_dn_and_article_witness :
  exists product,
    _extract_product_from_row row_complete (_find_column_indices [])
      "POWERSPIR BESTFLEX 4SP" "DIN EN 856 4SP" = Ok (Some product) /\
    product !! "dn" = Some (VStr "DN6") /\
    product !! "article_number" = Some (VStr "10.1008.04F").
Proof.
  destruct row_is_accepted_on_dn_and_article as [_ H].
  apply (H (Some "4SP-04-F") (Some "10.1008.04F") (Some "DN6") (Some "1/4") (Some "-4")
           (Some "6.5") (Some "17,4") (Some "45,0 6600")
           [Some "180,0"; Some "26400"; Some "150"; Some "0,70"]
           "POWERSPIR BESTFLEX 4SP" "DIN EN 856 4SP" "45,0").
  vm_compute. reflexivity.
Defined.

(** A row whose working-pressure cell holds a space and no word: taking
    the first word raises, and the row is not dropped by a return. *)
Example blank_pressure_cell_raises :
  _extract_product_from_row
    [Some "4SP-04-F"; Some "10.1008.04F"; Some "DN6"; Some "1/4"; Some "-4";
     Some "6.5"; Some "17,4"; Some " "]
    (_find_column_indices []) "POWERSPIR BESTFLEX 4SP" "DIN EN 856 4SP"
  = Raise IndexError.
Proof. vm_compute. reflexivity. Qed.

End RowAcceptanceClaim.

(** ** The hose matcher: the scan for the best candidate *)

Section HoseMatcher.
Import Py ProductMatcher.

Lemma dict_truthy_false (d : gmap string value) : dict_truthy d = false -> d = ∅.
Proof.
  unfold dict_truthy. intros H. apply negb_false_iff in H.
  apply bool_decide_eq_true in H. exact H.
Qed.

(** Against the empty record no criterion gives a point. *)
Ltac empty_target :=
  unfold get, get_or, py_or; rewrite !lookup_empty;
  cbn [from_option id truthy v_lower v_upper bind];
  change (lower "") with ""; change (upper "") with "";
  change (nonempty "") with false;
  intros H; inv_ok;
  try match goal with
      | E : (_ && false)%bool = true |- _ => rewrite andb_false_r in E; discriminate E
      end;
  unfold award, add_score, add_max; cbn [score max_score reasons]; try reflexivity.

Lemma criterion_dn_empty b a a' : criterion_dn b ∅ a = Ok a' -> score a' = score a.
Proof. unfold criterion_dn. empty_target. Qed.

Lemma criterion_pressure_empty b a a' :
  criterion_pressure b ∅ a = Ok a' -> score a' = score a.
Proof. unfold criterion_pressure. empty_target. Qed.

Lemma criterion_standard_empty b a a' :
  criterion_standard b ∅ a = Ok a' -> score a' = score a.
Proof. unfold criterion_standard. empty_target. Qed.

Lemma criterion_construction_empty b a a' :
  criterion_construction b ∅ a = Ok a' -> score a' = score a.
Proof. unfold criterion_construction. empty_target. Qed.

Lemma criterion_inner_diameter_empty b a a' :
  criterion_inner_diameter b ∅ a = Ok a' -> score a' = score a.
Proof. unfold criterion_inner_diameter. empty_target. Qed.

Lemma empty_target_scores_zero b s rs :
  _calculate_match_score b ∅ = Ok (s, rs) -> s = norm100 0.
Proof.
  intros H. apply calculate_match_score_cases in H.
  destruct H as [[_ ->] | [_ (a & R & _ & _ & -> & _)]]; [symmetry; apply norm100_0|].
  f_equal. unfold run_criteria in R. inv_ok.
  repeat match goal with
         | E : criterion_dn _ _ _ = Ok _ |- _ => apply criterion_dn_empty in E
         | E : criterion_pressure _ _ _ = Ok _ |- _ => apply criterion_pressure_empty in E
         | E : criterion_standard _ _ _ = Ok _ |- _ => apply criterion_standard_empty in E
         | E : criterion_construction _ _ _ = Ok _ |- _ =>
             apply criterion_construction_empty in E
         end.
  apply criterion_inner_diameter_empty in R.
  unfold acc0 in *; cbn [score] in *. lia.
Qed.

(** The state of the scan: the best score is the normalisation of a raw
    score [r]; without a best match it is 0, with one it is positive and
    the match is a non-empty record. *)
Definition best_ok (st : best) (r : Z) : Prop :=
  0 <= r <= 100 /\ best_score st = norm100 r /\
  match best_match st with
  | None => r = 0
  | Some h => 0 < r /\ dict_truthy h = true
  end.

Lemma norm100_inj r : 0 <= r <= 100 -> norm100 r = norm100 0 -> r = 0.
Proof.
  intros B E.
  destruct (norm100_compare r 0 B ltac:(lia)) as (_ & _ & H).
  rewrite E in H. apply Z.eqb_eq. rewrite <- H. vm_compute. reflexivity.
Qed.

Lemma scan_spec b hs :
  forall st r0 st',
    best_ok st r0 -> scan b hs st = Ok st' ->
    exists r',
      best_ok st' r' /\ r0 <= r' /\
      (forall h, In h hs ->
         exists s rs r, _calculate_match_score b h = Ok (s, rs) /\
                        0 <= r <= 100 /\ s = norm100 r /\ r <= r') /\
      (r' = r0 \/ exists h rs, In h hs /\ _calculate_match_score b h = Ok (norm100 r', rs)).
Proof.
  induction hs as [|h hs IH]; intros st r0 st' I H.
  - simpl in H. injection H as <-. exists r0.
    split; [exact I|]. split; [lia|]. split; [intros h []|]. left; reflexivity.
  - simpl in H. apply bind_Ok in H. destruct H as ([s rs] & C & H).
    destruct (calculate_match_score_raw _ _ _ _ C) as (r & B & ->).
    destruct I as (B0 & E0 & M0).
    destruct (norm100_compare r0 r B0 B) as (L & _ & _).
    rewrite E0, L in H.
    destruct (r0 <? r) eqn:Lt.
    + apply Z.ltb_lt in Lt.
      assert (I1 : best_ok (Best (Some h) (norm100 r) rs) r).
      { split; [exact B|]. split; [reflexivity|]. cbn [best_match].
        split; [lia|].
        destruct (dict_truthy h) eqn:T; [reflexivity|].
        apply dict_truthy_false in T. subst h.
        apply empty_target_scores_zero in C. apply norm100_inj in C; [lia | exact B]. }
      destruct (IH _ _ _ I1 H) as (r' & I' & Le & All & Att).
      exists r'. split; [exact I'|]. split; [lia|]. split.
      * intros h' [<- | Hin]; [|apply All, Hin].
        exists (norm100 r), rs, r. repeat split; try apply B; auto.
      * destruct Att as [-> | (h' & rs' & Hin & C')].
        -- right. exists h, rs. split; [left; reflexivity | exact C].
        -- right. exists h', rs'. split; [right; exact Hin | exact C'].
    + apply Z.ltb_ge in Lt.
      assert (I0 : best_ok st r0) by (split; [exact B0 | split; assumption]).
      destruct (IH _ _ _ I0 H) as (r' & I' & Le & All & Att).
      exists r'. split; [exact I'|]. split; [lia|]. split.
      * intros h' [<- | Hin]; [|apply All, Hin].
        exists (norm100 r), rs, r. repeat split; try apply B; auto. lia.
      * destruct Att as [-> | (h' & rs' & Hin & C')]; [left; reflexivity|].
        right. exists h', rs'. split; [right; exact Hin | exact C'].
Qed.

Lemma scan_returns b hs :
  (forall h, In h hs -> exists r, _calculate_match_score b h = Ok r) ->
  forall st, exists st', scan b hs st = Ok st'.
Proof.
  induction hs as [|h hs IH]; intros A st; simpl; [eauto|].
  destruct (A h (or_introl eq_refl)) as [[s rs] E]. rewrite E. cbn [bind].
  apply IH. intros h' Hin. apply A. right. exact Hin.
Qed.

Lemma best_ok_initial : best_ok (Best None 0%float []) 0.
Proof.
  split; [lia|]. split; [symmetry; apply norm100_0 | reflexivity].
Qed.

(** The best candidate scores exactly 30: one match is emitted. *)
Lemma hose_match_at_threshold b hs :
  (forall h, In h hs ->
     exists s rs, _calculate_match_score b h = Ok (s, rs) /\ (s <=? 30)%float = true) ->
  (exists h s rs, In h hs /\ _calculate_match_score b h = Ok (s, rs) /\
                  (s =? 30)%float = true) ->
  exists m, match_one b hs = Ok [m] /\ (30 <=? match_score m)%float = true.
Proof.
  intros A (h0 & s0 & rs0 & Hin0 & C0 & E0).
  destruct (scan_returns b hs) with (st := Best None 0%float (@nil reason)) as [st' S].
  { intros h Hin. destruct (A h Hin) as (s & rs & C & _). eauto. }
  destruct (scan_spec b hs _ 0 st' best_ok_initial S) as (r' & (B' & E' & M') & _ & All & Att).
  assert (R : r' = 30).
  { destruct (All h0 Hin0) as (s & rs & r & C & B & -> & Le).
    rewrite C0 in C. injection C as -> _.
    rewrite <- norm100_30 in E0.
    destruct (norm100_compare r 30 B ltac:(lia)) as (_ & _ & Q).
    rewrite Q in E0. apply Z.eqb_eq in E0. subst r.
    destruct Att as [-> | (h & rs' & Hin & C')]; [lia|].
    destruct (A h Hin) as (s & rs2 & C2 & L2).
    rewrite C' in C2. injection C2 as <- _.
    rewrite <- norm100_30 in L2.
    destruct (norm100_compare r' 30 B' ltac:(lia)) as (_ & Q2 & _).
    rewrite Q2 in L2. apply Z.leb_le in L2. lia. }
  subst r'. unfold match_one. rewrite S. cbn [bind].
  destruct (best_match st') as [h|]; [|lia].
  destruct M' as [_ T]. rewrite T, E', norm100_30. cbn [andb].
  change (30 <=? 30)%float with true. cbv iota.
  eexists. split; [reflexivity|]. vm_compute. reflexivity.
Qed.

(** Every candidate scores strictly below 30: no match is emitted. *)
Lemma hose_no_match_below_threshold b hs :
  (forall h, In h hs ->
     exists s rs, _calculate_match_score b h = Ok (s, rs) /\ (s <? 30)%float = true) ->
  match_one b hs = Ok [].
Proof.
  intros A.
  destruct (scan_returns b hs) with (st := Best None 0%float (@nil reason)) as [st' S].
  { intros h Hin. destruct (A h Hin) as (s & rs & C & _). eauto. }
  destruct (scan_spec b hs _ 0 st' best_ok_initial S) as (r' & (B' & E' & M') & _ & All & Att).
  assert (R : r' < 30).
  { destruct Att as [-> | (h & rs' & Hin & C')]; [lia|].
    destruct (A h Hin) as (s & rs2 & C2 & L2).
    rewrite C' in C2. injection C2 as <- _.
    rewrite <- norm100_30 in L2.
    destruct (norm100_compare r' 30 B' ltac:(lia)) as (Q & _ & _).
    rewrite Q in L2. apply Z.ltb_lt in L2. exact L2. }
  unfold match_one. rewrite S. cbn [bind].
  destruct (best_match st') as [h|]; [|reflexivity].
  rewrite E'. rewrite <- norm100_30.
  destruct (norm100_compare 30 r' ltac:(lia) B') as (_ & Q & _).
  rewrite Q. replace (30 <=? r') with false by (symmetry; apply Z.leb_gt; lia).
  rewrite andb_false_r. reflexivity.
Qed.

End HoseMatcher.

(** ** Absent attributes *)

Section AbsentAttributes.
Import Py.

(** A gated criterion of the fittings scorer, with the attribute absent on
    at least one side: the evaluation continues and the criterion adds no
    point and no reason. *)
Lemma criterion_angle_absent ha ba a :
  truthy ha = false \/ truthy ba = false ->
  exists a', WithSeries.criterion_angle ha ba a = WithSeries.Continue a' /\
             WithSeries.score a' = WithSeries.score a /\
             WithSeries.reasons a' = WithSeries.reasons a.
Proof.
  unfold WithSeries.criterion_angle.
  intros [E|E]; rewrite E; rewrite ?andb_false_r; cbn [andb];
    destruct (_ || _)%bool; eexists; split; try reflexivity; auto.
Qed.

Lemma criterion_series_absent hs bs a :
  truthy hs = false \/ truthy bs = false ->
  exists a', WithSeries.criterion_series hs bs a = WithSeries.Continue a' /\
             WithSeries.score a' = WithSeries.score a /\
             WithSeries.reasons a' = WithSeries.reasons a.
Proof.
  unfold WithSeries.criterion_series.
  intros [E|E]; rewrite E; rewrite ?andb_false_r; cbn [andb];
    destruct (_ || _)%bool; eexists; split; try reflexivity; auto.
Qed.

Lemma criterion_standard_absent hs bs a :
  hs = None \/ bs = None ->
  exists a', WithSeries.criterion_standard hs bs a = WithSeries.Continue a' /\
             WithSeries.score a' = WithSeries.score a /\
             WithSeries.reasons a' = WithSeries.reasons a.
Proof.
  unfold WithSeries.criterion_standard.
  intros [-> | ->]; [destruct bs | destruct hs]; eexists; split; try reflexivity; auto.
Qed.

Lemma criterion_dn_absent hd bd a a' :
  truthy hd = false \/ truthy bd = false ->
  WithSeries.criterion_dn hd bd a = Ok a' -> WithSeries.score a' = WithSeries.score a.
Proof.
  unfold WithSeries.criterion_dn.
  intros [E|E]; rewrite E; rewrite ?andb_false_r; cbn [andb];
    destruct (_ || _)%bool; intros H; injection H as <-; reflexivity.
Qed.

Lemma criterion_seat_absent hs bs a :
  hs = None \/ bs = None ->
  WithSeries.score (WithSeries.criterion_seat hs bs a) = WithSeries.score a.
Proof.
  unfold WithSeries.criterion_seat.
  intros [-> | ->]; [destruct bs | destruct hs]; reflexivity.
Qed.

(** The three gated attributes of a pair of fittings are each absent on
    at least one side. *)
Definition gated_absent (h b : gmap string value) : Prop :=
  (truthy (get h "angle") = false \/ truthy (get b "angle") = false) /\
  (truthy (get h "series") = false \/ truthy (get b "series") = false) /\
  (WithSeries.normalize_standard (get h "standard") = Ok None \/
   WithSeries.normalize_standard (get b "standard") = Ok None).

(** Then the scorer does not reject: it goes on to the DN and seat
    criteria, and the score is the points these two give. *)
Lemma series_gated_absent_proceeds float_repr h b :
  fields_textual h b -> gated_absent h b ->
  exists hseat bseat a0 a1 rs ws,
    WithSeries.normalize_seat_type (get h "seat_type") = Ok hseat /\
    WithSeries.normalize_seat_type (get b "seat_type") = Ok bseat /\
    WithSeries.score a0 = 0 /\ WithSeries.reasons a0 = [] /\
    WithSeries.criterion_dn (get h "dn") (get b "hose_size_mm") a0 = Ok a1 /\
    WithSeries.calculate_match_score float_repr h b
    = Ok (WithSeries.score (WithSeries.criterion_seat hseat bseat a1), rs, ws).
Proof.
  intros (T1 & T2 & T3 & T4 & T5) (GA & GS & GT).
  destruct (normalize_standard_returns _ T1) as [hs Hs].
  destruct (normalize_standard_returns _ T2) as [bs Hb].
  destruct (normalize_seat_type_returns _ T3) as [hseat Hseat].
  destruct (normalize_seat_type_returns _ T4) as [bseat Hbseat].
  destruct (determine_gender_returns float_repr _ T5) as [g Hg].
  unfold WithSeries.calculate_match_score.
  rewrite Hs, Hb, Hseat, Hbseat, Hg. cbn [bind].
  destruct (criterion_angle_absent _ _ (WithSeries.Acc 0 [] []) GA) as (a1 & -> & S1 & R1).
  destruct (criterion_series_absent _ _ a1 GS) as (a2 & -> & S2 & R2).
  assert (GT' : hs = None \/ bs = None).
  { destruct GT as [E|E]; [left; rewrite E in Hs | right; rewrite E in Hb]; congruence. }
  destruct (criterion_standard_absent _ _ a2 GT') as (a3 & -> & S3 & R3).
  destruct (criterion_dn_returns (get h "dn") (get b "hose_size_mm") a3) as [a4 E4].
  rewrite E4. cbn [bind].
  exists hseat, bseat, a3, a4. do 2 eexists.
  repeat split; try reflexivity; try assumption.
  - rewrite S3, S2, S1. reflexivity.
  - rewrite R3, R2, R1. reflexivity.
  - rewrite add_warnings_points, check_gender_points. reflexivity.
Qed.

(** The construction of a hose is absent (missing or empty) on one side:
    the pre-check lets the pair through and the construction criterion
    adds no point. *)
Lemma hose_construction_absent b h c :
  (get_or b "construction" (VStr "") = VStr "" /\
   get_or h "construction" (VStr "") = VStr c) \/
  (get_or b "construction" (VStr "") = VStr c /\
   get_or h "construction" (VStr "") = VStr "") ->
  ProductMatcher.pre_check b h = Ok None /\
  forall a, ProductMatcher.criterion_construction b h a
            = Ok (ProductMatcher.add_max 15 a).
Proof.
  unfold ProductMatcher.pre_check, ProductMatcher.criterion_construction.
  intros [[-> ->] | [-> ->]]; cbn [v_lower bind];
    change (lower "") with ""; change (nonempty "") with false;
    rewrite ?andb_false_r; cbn [andb]; auto.
Qed.

(** The thread type of a fitting is absent (missing or empty) on one
    side: the improved matcher finds the threads incompatible. *)
Definition thread_absent (bal heiz : gmap string value) : Prop :=
  get_or bal "thread_type" (VStr "") = VStr "" \/
  get_or heiz "thread_type" (VStr "") = VStr "".

Lemma threads_absent_incompatible bal heiz c :
  thread_absent bal heiz ->
  ImprovedFittings._threads_compatible bal heiz = Ok c -> c = false.
Proof.
  unfold ImprovedFittings._threads_compatible.
  intros [E|E]; rewrite E; cbn [v_upper bind]; change (upper "") with "";
    change (nonempty "") with false; intros H.
  - apply bind_Ok in H. destruct H as (ht & _ & H). cbn [negb orb] in H. congruence.
  - apply bind_Ok in H. destruct H as (bt & _ & H). cbv beta in H.
    rewrite orb_true_r in H. congruence.
Qed.

(** So the candidate is passed over by the scan, whatever its score. *)
Lemma scan_passes_over_absent_thread bal heiz rest st st' :
  thread_absent bal heiz ->
  ImprovedFittings.scan bal (heiz :: rest) st = Ok st' ->
  ImprovedFittings.scan bal rest st = Ok st'.
Proof.
  intros A H. simpl in H.
  apply bind_Ok in H. destruct H as (s & _ & H).
  apply bind_Ok in H. destruct H as (st1 & E & H).
  assert (st1 = st); [|subst; exact H].
  destruct (_ && _)%bool; [|congruence].
  apply bind_Ok in E. destruct E as (c & C & E).
  apply (threads_absent_incompatible _ _ _ A) in C. subst c. congruence.
Qed.

End AbsentAttributes.

(** ** The fittings matcher: the scan for the best candidate *)

Section SeriesMatcher.
Import Py WithSeries.

(** Against the empty record every criterion lacks one side. *)
Lemma empty_balflex_scores_zero float_repr h s rs ws :
  calculate_match_score float_repr h ∅ = Ok (s, rs, ws) -> s = 0.
Proof.
  unfold calculate_match_score, get. rewrite !lookup_empty. cbn [from_option id].
  change (normalize_standard VNone) with (Ok (@None string)).
  change (normalize_seat_type VNone) with (Ok (@None string)).
  intros H.
  apply bind_Ok in H. destruct H as (hs & _ & H). cbv beta in H. cbn [bind] in H.
  apply bind_Ok in H. destruct H as (hseat & _ & H). cbv beta in H. cbn [bind] in H.
  apply bind_Ok in H. destruct H as (g & _ & H). cbv beta in H.
  destruct (criterion_angle_absent (default VNone (h !! "angle")) VNone (Acc 0 [] []))
    as (a1 & E1 & S1 & _); [right; reflexivity|].
  rewrite E1 in H.
  destruct (criterion_series_absent (default VNone (h !! "series")) VNone a1)
    as (a2 & E2 & S2 & _); [right; reflexivity|].
  rewrite E2 in H.
  destruct (criterion_standard_absent hs None a2) as (a3 & E3 & S3 & _);
    [right; reflexivity|].
  rewrite E3 in H.
  apply bind_Ok in H. destruct H as (a4 & E4 & H). injection H as <- _ _.
  rewrite add_warnings_points, check_gender_points.
  rewrite criterion_seat_absent by (right; reflexivity).
  apply criterion_dn_absent in E4; [|right; reflexivity].
  rewrite E4, S3, S2, S1. reflexivity.
Qed.

(** The state of the scan: without a best match the best score is 0;
    with one it is positive and at least the threshold, and the match is a
    non-empty record. *)
Definition series_best_ok (min_threshold : Z) (st : best) : Prop :=
  match best_match st with
  | None => best_score st = 0
  | Some b => 0 < best_score st /\ min_threshold <= best_score st /\ dict_truthy b = true
  end.

Lemma series_best_ok_nonneg thr st : series_best_ok thr st -> 0 <= best_score st.
Proof. unfold series_best_ok. destruct (best_match st); lia. Qed.

Lemma series_scan_spec float_repr h thr bs :
  forall st st',
    series_best_ok thr st -> scan float_repr h bs thr st = Ok st' ->
    series_best_ok thr st' /\ best_score st <= best_score st' /\
    (forall b, In b bs ->
       exists s rs ws, calculate_match_score float_repr h b = Ok (s, rs, ws) /\
                       (s <= best_score st' \/ s < thr)) /\
    (st' = st \/
     exists b rs ws, In b bs /\ best_match st' = Some b /\
                     calculate_match_score float_repr h b = Ok (best_score st', rs, ws)).
Proof.
  induction bs as [|b bs IH]; intros st st' I H.
  - simpl in H. injection H as <-.
    split; [exact I|]. split; [lia|]. split; [intros b []|]. left; reflexivity.
  - simpl in H. apply bind_Ok in H. destruct H as ([[s rs] ws] & C & H).
    pose proof (series_best_ok_nonneg _ _ I) as N.
    destruct ((best_score st <? s) && (thr <=? s))%bool eqn:Cond.
    + apply andb_true_iff in Cond as [C1 C2].
      apply Z.ltb_lt in C1. apply Z.leb_le in C2.
      assert (I1 : series_best_ok thr (Best (Some b) s rs)).
      { unfold series_best_ok; cbn [best_match best_score].
        split; [lia|]. split; [lia|].
        destruct (dict_truthy b) eqn:T; [reflexivity|].
        apply dict_truthy_false in T. subst b.
        apply empty_balflex_scores_zero in C. lia. }
      destruct (IH _ _ I1 H) as (I' & Le & All & Att). cbn [best_score] in Le.
      split; [exact I'|]. split; [lia|]. split.
      * intros b' [<- | Hin]; [|apply All, Hin].
        exists s, rs, ws. split; [exact C | left; exact Le].
      * right. destruct Att as [-> | (b' & rs' & ws' & Hin & M & C')].
        -- exists b, rs, ws. split; [left; reflexivity|]. split; [reflexivity | exact C].
        -- exists b', rs', ws'. split; [right; exact Hin|]. split; assumption.
    + destruct (IH _ _ I H) as (I' & Le & All & Att).
      split; [exact I'|]. split; [exact Le|]. split.
      * intros b' [<- | Hin]; [|apply All, Hin].
        exists s, rs, ws. split; [exact C|].
        apply andb_false_iff in Cond as [C1 | C2].
        -- apply Z.ltb_ge in C1. left. lia.
        -- apply Z.leb_gt in C2. right. exact C2.
      * destruct Att as [-> | (b' & rs' & ws' & Hin & M & C')]; [left; reflexivity|].
        right. exists b', rs', ws'. split; [right; exact Hin|]. split; assumption.
Qed.

Lemma series_best_ok_initial thr : series_best_ok thr (Best None 0 []).
Proof. reflexivity. Qed.

Lemma series_scan_returns float_repr h thr bs :
  (forall b, In b bs -> exists r, calculate_match_score float_repr h b = Ok r) ->
  forall st, exists st', scan float_repr h bs thr st = Ok st'.
Proof.
  induction bs as [|b bs IH]; intros A st; simpl; [eauto|].
  destruct (A b (or_introl eq_refl)) as [[[s rs] ws] E]. rewrite E. cbn [bind].
  apply IH. intros b' Hin. apply A. right. exact Hin.
Qed.

(** The fields that the match entry reads by subscript. *)
Definition heizmann_identified (h : gmap string value) : Prop :=
  is_Some (h !! "model") /\ is_Some (h !! "article_number") /\
  is_Some (h !! "reference") /\ is_Some (h !! "url").

Definition balflex_identified (b : gmap string value) : Prop :=
  is_Some (b !! "reference") /\ is_Some (b !! "article_number").

Lemma item_Some d k : is_Some (d !! k) -> exists v, item d k = Ok v.
Proof. intros [v E]. unfold item. rewrite E. eauto. Qed.

(** The best candidate scores exactly the threshold, which is positive:
    one match is emitted, with that score. *)
Lemma series_match_at_threshold float_repr h bs thr :
  0 < thr ->
  heizmann_identified h ->
  (forall b, In b bs -> balflex_identified b) ->
  (forall b, In b bs ->
     exists s rs ws, calculate_match_score float_repr h b = Ok (s, rs, ws) /\ s <= thr) ->
  (exists b rs ws, In b bs /\ calculate_match_score float_repr h b = Ok (thr, rs, ws)) ->
  exists m, match_one float_repr h bs thr = Ok [m] /\ Match_Score m = thr.
Proof.
  intros P (K1 & K2 & K3 & K4) KB A (b0 & rs0 & ws0 & Hin0 & C0).
  destruct (series_scan_returns float_repr h thr bs) with (st := Best None 0 (@nil reason))
    as [st' S].
  { intros b Hin. destruct (A b Hin) as (s & rs & ws & C & _). eauto. }
  destruct (series_scan_spec float_repr h thr bs _ st' (series_best_ok_initial thr) S)
    as (I' & _ & All & Att).
  assert (G : thr <= best_score st').
  { destruct (All b0 Hin0) as (s & rs & ws & C & L).
    rewrite C0 in C. injection C as <- _ _. lia. }
  destruct Att as [-> | (b & rs & ws & Hin & M & C)]; [cbn [best_score] in G; lia|].
  assert (E : best_score st' = thr).
  { destruct (A b Hin) as (s & rs' & ws' & C' & L).
    rewrite C in C'. injection C' as <- _ _. lia. }
  unfold match_one. rewrite S. cbn [bind]. rewrite M.
  unfold series_best_ok in I'. rewrite M in I'. destruct I' as (_ & _ & T). rewrite T.
  destruct (item_Some _ _ K1) as [v1 ->]. destruct (item_Some _ _ K2) as [v2 ->].
  destruct (item_Some _ _ K3) as [v3 ->]. destruct (item_Some _ _ K4) as [v4 ->].
  destruct (KB b Hin) as [B1 B2].
  destruct (item_Some _ _ B1) as [v5 ->]. destruct (item_Some _ _ B2) as [v6 ->].
  cbn [bind]. eexists. split; [reflexivity | exact E].
Qed.

(** Every candidate scores strictly below the threshold: no match is
    emitted. *)
Lemma series_no_match_below_threshold float_repr h bs thr :
  (forall b, In b bs ->
     exists s rs ws, calculate_match_score float_repr h b = Ok (s, rs, ws) /\ s < thr) ->
  match_one float_repr h bs thr = Ok [].
Proof.
  intros A.
  destruct (series_scan_returns float_repr h thr bs) with (st := Best None 0 (@nil reason))
    as [st' S].
  { intros b Hin. destruct (A b Hin) as (s & rs & ws & C & _). eauto. }
  destruct (series_scan_spec float_repr h thr bs _ st' (series_best_ok_initial thr) S)
    as (I' & _ & All & Att).
  unfold match_one. rewrite S. cbn [bind].
  destruct Att as [-> | (b & rs & ws & Hin & M & C)]; [reflexivity|].
  exfalso. unfold series_best_ok in I'. rewrite M in I'. destruct I' as (_ & G & _).
  destruct (A b Hin) as (s & rs' & ws' & C' & L).
  rewrite C in C'. injection C' as <- _ _. lia.
Qed.

End SeriesMatcher.

(** ** The threshold boundary *)

Section ThresholdBoundary.
Import Py.

(** Two hoses that agree on the DN only (raw score 30), and one of a DN
    two sizes away (raw score 15). *)
Definition hose_dn12 : gmap string value := <["dn" := VStr "DN12"]> ∅.
Definition hose_dn10 : gmap string value := <["dn" := VStr "DN10"]> ∅.

(** A Heizmann and a Balflex fitting that agree on the standard, the DN
    and the seat type and state no angle and no series: 30 + 25 + 5. *)
Definition heizmann_iso_12 : gmap string value :=
  <["standard" := VStr "ISO 8434-1"]> (<["dn" := VStr "12"]>
  (<["seat_type" := VStr "24°"]> (<["model" := VStr "X-12"]>
  (<["article_number" := VStr "100012"]> (<["reference" := VStr "X12"]>
  (<["url" := VStr "https://example.org/x12"]> ∅)))))).

Definition balflex_iso_12 : gmap string value :=
  <["standard" := VStr "ISO 8434-1"]> (<["hose_size_mm" := VStr "12.0"]>
  (<["seat_type" := VStr "24° cone"]> (<["reference" := VStr "23.5013.1030"]>
  (<["article_number" := VStr "23.5013.1030"]> ∅)))).

(** Two fittings that share no attribute: every criterion lacks a side. *)
Definition heizmann_bare : gmap string value :=
  <["model" := VStr "X-12"]> (<["article_number" := VStr "100012"]>
  (<["reference" := VStr "X12"]> (<["url" := VStr "https://example.org/x12"]> ∅))).

Definition balflex_bare : gmap string value :=
  <["reference" := VStr "23.5013.1030"]> (<["article_number" := VStr "23.5013.1030"]> ∅).

(** C6, refuted as stated: with the threshold of the fittings matcher
    configured as 0, the best (and only) candidate scores exactly 0, the
    threshold, and no match is emitted, whatever the text of numbers. *)
Lemma no_match_at_threshold_zero :
  (forall float_repr,
      WithSeries.calculate_match_score float_repr heizmann_bare balflex_bare
      = Ok (0, [], [])) /\
  (forall float_repr,
      WithSeries.match_one float_repr heizmann_bare [balflex_bare] 0 = Ok []) /\
  (forall float_repr,
      WithSeries.match_products float_repr [heizmann_bare] [balflex_bare] 0 = Ok []).
Proof. repeat split; intros float_repr; vm_compute; reflexivity. Qed.

(** C6, as amended: for every source record of the hose matcher, whose
    threshold is 30: if the best candidate score is exactly 30 a match is
    emitted for the record, and if every candidate scores strictly below
    30 none is.  For every source record of the fittings matcher and a
    positive configured threshold: if the best candidate score is exactly
    the threshold a match with that score is emitted (the records carrying
    the identity fields that the entry reads), and if every candidate
    scores strictly below the threshold none is. *)
Theorem threshold_boundary :
  (forall b hs,
      (forall h, In h hs ->
         exists s rs, ProductMatcher._calculate_match_score b h = Ok (s, rs) /\
                      (s <=? 30)%float = true) ->
      (exists h s rs, In h hs /\ ProductMatcher._calculate_match_score b h = Ok (s, rs) /\
                      (s =? 30)%float = true) ->
      exists m, ProductMatcher.match_one b hs = Ok [m] /\
                (30 <=? ProductMatcher.match_score m)%float = true) /\
  (forall b hs,
      (forall h, In h hs ->
         exists s rs, ProductMatcher._calculate_match_score b h = Ok (s, rs) /\
                      (s <? 30)%float = true) ->
      ProductMatcher.match_one b hs = Ok []) /\
  (forall float_repr h bs thr,
      0 < thr ->
      heizmann_identified h ->
      (forall b, In b bs -> balflex_identified b) ->
      (forall b, In b bs ->
         exists s rs ws,
           WithSeries.calculate_match_score float_repr h b = Ok (s, rs, ws) /\ s <= thr) ->
      (exists b rs ws,
          In b bs /\ WithSeries.calculate_match_score float_repr h b = Ok (thr, rs, ws)) ->
      exists m, WithSeries.match_one float_repr h bs thr = Ok [m] /\
                WithSeries.Match_Score m = thr) /\
  (forall float_repr h bs thr,
      (forall b, In b bs ->
         exists s rs ws,
           WithSeries.calculate_match_score float_repr h b = Ok (s, rs, ws) /\ s < thr) ->
      WithSeries.match_one float_repr h bs thr = Ok []).
Proof.
  split; [|split; [|split]].
  - apply hose_match_at_threshold.
  - apply hose_no_match_below_threshold.
  - apply series_match_at_threshold.
  - apply series_no_match_below_threshold.
Qed.

Lemma threshold_boundary_witness :
  (exists m, ProductMatcher.match_one hose_dn12 [hose_dn10; hose_dn12] = Ok [m] /\
             (30 <=? ProductMatcher.match_score m)%float = true) /\
  ProductMatcher.match_one hose_dn12 [hose_dn10] = Ok [] /\
  (exists m, WithSeries.match_one (fun _ => EmptyString) heizmann_iso_12
               [balflex_bare; balflex_iso_12] 60 = Ok [m] /\
             WithSeries.Match_Score m = 60) /\
  WithSeries.match_one (fun _ => EmptyString) heizmann_iso_12 [balflex_iso_12] 61 = Ok [].
Proof.
  destruct threshold_boundary as (H1 & H2 & S1 & S2).
  split; [|split; [|split]].
  - apply H1.
    + intros h [<- | [<- | []]]; do 2 eexists; (split; [vm_compute; reflexivity|]);
        vm_compute; reflexivity.
    + exists hose_dn12. do 2 eexists. split; [right; left; reflexivity|].
      split; vm_compute; reflexivity.
  - apply H2.
    intros h [<- | []]; do 2 eexists; (split; [vm_compute; reflexivity|]);
      vm_compute; reflexivity.
  - apply S1.
    + lia.
    + unfold heizmann_identified. repeat split; vm_compute; eauto.
    + intros b [<- | [<- | []]]; unfold balflex_identified; split; vm_compute; eauto.
    + intros b [<- | [<- | []]]; do 3 eexists; (split; [vm_compute; reflexivity|]); lia.
    + exists balflex_iso_12. do 2 eexists. split; [right; left; reflexivity|].
      vm_compute. reflexivity.
  - apply S2.
    intros b [<- | []]; do 3 eexists; (split; [vm_compute; reflexivity|]); lia.
Defined.

End ThresholdBoundary.

(** ** Absent attributes and the Gate *)

Section AbsentAttributesClaim.
Import Py.

(** A Balflex fitting that states no thread type; its dash size, category
    and hose size agree with [heiz_bsp_8]. *)
Definition bal_no_thread : gmap string value :=
  <["dash_size" := VStr "-8"]>
  (<["category" := VStr "Press"]> (<["hose_size_mm" := VStr "12.7"]> ∅)).

(** C5, refuted as stated: the thread type is absent on the Balflex side;
    the pair scores 60, above the minimum of 55, and yet the candidate is
    excluded: the thread check fails and no match is emitted.  With the
    thread type present on both sides the same candidate is matched. *)
Lemma absent_thread_type_excludes_the_candidate :
  thread_absent bal_no_thread heiz_bsp_8 /\
  ImprovedFittings._calculate_score bal_no_thread heiz_bsp_8 = Ok 60 /\
  ImprovedFittings._threads_compatible bal_no_thread heiz_bsp_8 = Ok false /\
  ImprovedFittings.match_ [bal_no_thread] [heiz_bsp_8] = Ok [] /\
  ImprovedFittings.match_ [bal_bsp_8] [heiz_bsp_8]
  = Ok [ImprovedFittings.MatchEntry bal_bsp_8 heiz_bsp_8 100].
Proof.
  split; [left; vm_compute; reflexivity|].
  repeat split; vm_compute; reflexivity.
Qed.

(** C5, as amended: an absent attribute is not a rejection for the
    construction of hoses and for the angle, series and standard of
    fittings: the pre-check or criterion lets the evaluation continue and
    adds no point, and when the three gated attributes of a pair of
    fittings are each absent on a side the scorer returns the points of
    the DN and seat criteria.  The thread type of the improved fittings
    matcher is different: when it is absent on either side the threads are
    found incompatible and the candidate is passed over, whatever its
    score. *)
Theorem absent_attribute_and_the_gate :
  (forall b h c,
      (get_or b "construction" (VStr "") = VStr "" /\
       get_or h "construction" (VStr "") = VStr c) \/
      (get_or b "construction" (VStr "") = VStr c /\
       get_or h "construction" (VStr "") = VStr "") ->
      ProductMatcher.pre_check b h = Ok None /\
      forall a, ProductMatcher.criterion_construction b h a
                = Ok (ProductMatcher.add_max 15 a)) /\
  (forall ha ba a,
      truthy ha = false \/ truthy ba = false ->
      exists a', WithSeries.criterion_angle ha ba a = WithSeries.Continue a' /\
                 WithSeries.score a' = WithSeries.score a /\
                 WithSeries.reasons a' = WithSeries.reasons a) /\
  (forall hs bs a,
      truthy hs = false \/ truthy bs = false ->
      exists a', WithSeries.criterion_series hs bs a = WithSeries.Continue a' /\
                 WithSeries.score a' = WithSeries.score a /\
                 WithSeries.reasons a' = WithSeries.reasons a) /\
  (forall hs bs a,
      hs = None \/ bs = None ->
      exists a', WithSeries.criterion_standard hs bs a = WithSeries.Continue a' /\
                 WithSeries.score a' = WithSeries.score a /\
                 WithSeries.reasons a' = WithSeries.reasons a) /\
  (forall float_repr h b,
      fields_textual h b -> gated_absent h b ->
      exists hseat bseat a0 a1 rs ws,
        WithSeries.normalize_seat_type (get h "seat_type") = Ok hseat /\
        WithSeries.normalize_seat_type (get b "seat_type") = Ok bseat /\
        WithSeries.score a0 = 0 /\ WithSeries.reasons a0 = [] /\
        WithSeries.criterion_dn (get h "dn") (get b "hose_size_mm") a0 = Ok a1 /\
        WithSeries.calculate_match_score float_repr h b
        = Ok (WithSeries.score (WithSeries.criterion_seat hseat bseat a1), rs, ws)) /\
  (forall bal heiz,
      thread_absent bal heiz ->
      (forall c, ImprovedFittings._threads_compatible bal heiz = Ok c -> c = false) /\
      (forall rest st st',
          ImprovedFittings.scan bal (heiz :: rest) st = Ok st' ->
          ImprovedFittings.scan bal rest st = Ok st')).
Proof.
  split; [exact hose_construction_absent|].
  split; [exact criterion_angle_absent|].
  split; [exact criterion_series_absent|].
  split; [exact criterion_standard_absent|].
  split; [exact series_gated_absent_proceeds|].
  intros bal heiz A. split.
  - intros c. apply threads_absent_incompatible, A.
  - intros rest st st'. apply scan_passes_over_absent_thread, A.
Qed.

Lemma absent_attribute_and_the_gate_witness :
  ProductMatcher.pre_check hose_dn12 scenario_target = Ok None /\
  (exists s rs ws,
      WithSeries.calculate_match_score (fun _ => EmptyString) heizmann_iso_12
        (<["standard" := VNone]> balflex_iso_12) = Ok (s, rs, ws) /\ s = 30) /\
  (forall c, ImprovedFittings._threads_compatible bal_no_thread heiz_bsp_8 = Ok c ->
             c = false).
Proof.
  destruct absent_attribute_and_the_gate as (H & _ & _ & _ & S & T).
  split; [|split].
  - apply (H hose_dn12 scenario_target "2 wire braid").
    left. split; vm_compute; reflexivity.
  - destruct (S (fun _ => EmptyString) heizmann_iso_12
                (<["standard" := VNone]> balflex_iso_12))
      as (hseat & bseat & a0 & a1 & rs & ws & E1 & E2 & Z0 & R0 & D & C).
    + unfold fields_textual. vm_compute. tauto.
    + unfold gated_absent. repeat split; right; vm_compute; reflexivity.
    + exists (WithSeries.score (WithSeries.criterion_seat hseat bseat a1)), rs, ws.
      split; [exact C|].
      vm_compute in C. injection C as C _ _. symmetry. exact C.
  - apply T. left. vm_compute. reflexivity.
Defined.

End AbsentAttributesClaim.

(* ===================================================================== *)
(** * Further properties of the matchers, the extractor and the fixer *)
(* ===================================================================== *)

(** ** Strings *)

Section Strings.
Import Py.

(** Every character of the string is in the class. *)
Fixpoint str_forall (p : ascii -> bool) (s : string) : bool :=
  match s with
  | EmptyString => true
  | String c s' => (p c && str_forall p s')%bool
  end.

Lemma all_digits_forall s : all_digits s = str_forall is_digit s.
Proof. induction s as [|c s IH]; simpl; [reflexivity | rewrite IH; reflexivity]. Qed.

Lemma all_space_forall s : all_space s = str_forall is_space s.
Proof. induction s as [|c s IH]; simpl; [reflexivity | rewrite IH; reflexivity]. Qed.

Lemma str_app_cons c (a b : string) : String c a ++ b = String c (a ++ b).
Proof. reflexivity. Qed.

Lemma str_app_nil (b : string) : "" ++ b = b.
Proof. reflexivity. Qed.

Lemma str_forall_app p a b :
  str_forall p (a ++ b) = (str_forall p a && str_forall p b)%bool.
Proof.
  induction a as [|c a IH]; [reflexivity|].
  rewrite str_app_cons. simpl. rewrite IH, andb_assoc. reflexivity.
Qed.

Lemma str_forall_impl (p q : ascii -> bool) s :
  (forall c, p c = true -> q c = true) -> str_forall p s = true -> str_forall q s = true.
Proof.
  intros I. induction s as [|c s IH]; simpl; [reflexivity|].
  intros H. apply andb_prop in H. destruct H as [H1 H2].
  rewrite (I _ H1), (IH H2). reflexivity.
Qed.

Lemma str_length_app (a b : string) :
  String.length (a ++ b) = (String.length a + String.length b)%nat.
Proof.
  induction a as [|c a IH]; [reflexivity | rewrite str_app_cons; simpl; rewrite IH; reflexivity].
Qed.

Lemma str_app_empty_r (s : string) : s ++ "" = s.
Proof. induction s as [|c s IH]; [reflexivity | rewrite str_app_cons, IH; reflexivity]. Qed.

Lemma app_assoc_str (a b c : string) : (a ++ b) ++ c = a ++ (b ++ c).
Proof. induction a as [|x a IH]; [reflexivity | rewrite !str_app_cons, IH; reflexivity]. Qed.

Lemma str_take_drop k s : take k s ++ drop k s = s.
Proof.
  revert s. induction k as [|k IH]; intros s; [destruct s; reflexivity|].
  destruct s as [|c s]; simpl; [reflexivity | rewrite str_app_cons, IH; reflexivity].
Qed.

Lemma str_length_take k s : (k <= String.length s)%nat -> String.length (take k s) = k.
Proof.
  revert s. induction k as [|k IH]; intros s H; [destruct s; reflexivity|].
  destruct s as [|c s]; simpl in *; [lia | rewrite IH; lia].
Qed.

Lemma str_take_app a b : take (String.length a) (a ++ b) = a.
Proof.
  induction a as [|c a IH]; [destruct b; reflexivity|].
  rewrite str_app_cons. simpl. rewrite IH. reflexivity.
Qed.

Lemma str_drop_app a b : drop (String.length a) (a ++ b) = b.
Proof. induction a as [|c a IH]; [reflexivity | rewrite str_app_cons; exact IH]. Qed.

Lemma str_drop_0 s : drop 0 s = s.
Proof. reflexivity. Qed.

Lemma str_drop_drop a b s : drop a (drop b s) = drop (b + a) s.
Proof.
  revert s. induction b as [|b IH]; intros s; [reflexivity|].
  destruct s as [|c s]; simpl; [destruct a; reflexivity | apply IH].
Qed.

Lemma nonempty_length s : nonempty s = true <-> (0 < String.length s)%nat.
Proof. destruct s; simpl; split; intros; try lia; try discriminate; reflexivity. Qed.

Lemma nonempty_app_l a b : nonempty a = true -> nonempty (a ++ b) = true.
Proof. destruct a; [discriminate | reflexivity]. Qed.

(** Case mapping. *)

Lemma to_upper_idem c : to_upper (to_upper c) = to_upper c.
Proof. destruct c as [[] [] [] [] [] [] [] []]; reflexivity. Qed.

Lemma to_lower_idem c : to_lower (to_lower c) = to_lower c.
Proof. destruct c as [[] [] [] [] [] [] [] []]; reflexivity. Qed.

Lemma to_upper_lower c : to_upper (to_lower c) = to_upper c.
Proof. destruct c as [[] [] [] [] [] [] [] []]; reflexivity. Qed.

Lemma to_lower_upper c : to_lower (to_upper c) = to_lower c.
Proof. destruct c as [[] [] [] [] [] [] [] []]; reflexivity. Qed.

Lemma map_chars_map_chars f g s : map_chars f (map_chars g s) = map_chars (fun c => f (g c)) s.
Proof. induction s as [|c s IH]; simpl; [reflexivity | rewrite IH; reflexivity]. Qed.

Lemma map_chars_ext f g s : (forall c, f c = g c) -> map_chars f s = map_chars g s.
Proof. intros E. induction s as [|c s IH]; simpl; [reflexivity | rewrite E, IH; reflexivity]. Qed.

Lemma upper_idem s : upper (upper s) = upper s.
Proof. unfold upper. rewrite map_chars_map_chars. apply map_chars_ext, to_upper_idem. Qed.

Lemma lower_idem s : lower (lower s) = lower s.
Proof. unfold lower. rewrite map_chars_map_chars. apply map_chars_ext, to_lower_idem. Qed.

Lemma upper_lower s : upper (lower s) = upper s.
Proof. unfold upper, lower. rewrite map_chars_map_chars. apply map_chars_ext, to_upper_lower. Qed.

Lemma lower_upper s : lower (upper s) = lower s.
Proof. unfold upper, lower. rewrite map_chars_map_chars. apply map_chars_ext, to_lower_upper. Qed.

Lemma nonempty_map_chars f s : nonempty (map_chars f s) = nonempty s.
Proof. destruct s; reflexivity. Qed.

Lemma map_chars_app f a b : map_chars f (a ++ b) = map_chars f a ++ map_chars f b.
Proof.
  induction a as [|c a IH]; [reflexivity|].
  rewrite str_app_cons. simpl. rewrite str_app_cons, IH. reflexivity.
Qed.

Lemma length_map_chars f s : String.length (map_chars f s) = String.length s.
Proof. induction s as [|c s IH]; simpl; [reflexivity | rewrite IH; reflexivity]. Qed.

End Strings.

(** ** Regular expressions: what a match holds *)

Section Regex.
Import Py.

Lemma span_le p cap s : (span p cap s <= String.length s)%nat.
Proof.
  revert cap. induction s as [|c s IH]; intros cap.
  - destruct cap as [[|n]|]; simpl; lia.
  - destruct cap as [[|n]|]; simpl; try lia; destruct (p c); try lia;
      match goal with |- context [span p ?c s] => specialize (IH c) end; lia.
Qed.

Lemma span_cap p n s : (span p (Some n) s <= n)%nat.
Proof.
  revert n. induction s as [|c s IH]; intros n.
  - destruct n; simpl; lia.
  - destruct n as [|n]; simpl; [lia|]. destruct (p c); [|lia].
    specialize (IH n). lia.
Qed.

(** The characters taken by a class are in the class. *)
Lemma span_take p cap s k :
  (k <= span p cap s)%nat -> str_forall p (take k s) = true.
Proof.
  revert cap k. induction s as [|c s IH]; intros cap k H.
  - destruct k; reflexivity.
  - destruct k as [|k]; [reflexivity|].
    destruct cap as [[|n]|]; simpl in H; try lia; destruct (p c) eqn:P; try lia;
      simpl; rewrite P; simpl; eapply IH; apply le_S_n, H.
Qed.

(** The class stops at the first character outside it. *)
Lemma span_all p a b :
  str_forall p a = true ->
  match b with EmptyString => True | String c _ => p c = false end ->
  span p None (a ++ b) = String.length a.
Proof.
  intros A B. induction a as [|c a IH].
  - destruct b as [|c b]; [reflexivity|]. simpl. rewrite B. reflexivity.
  - rewrite str_app_cons. simpl in A. apply andb_prop in A. destruct A as [A1 A2].
    simpl. rewrite A1, (IH A2). reflexivity.
Qed.

(** What a successful match at the head of [s] holds: one length for each
    atom, within the atom's bounds, of characters of the atom's class. *)
Fixpoint segments (icase : bool) (r : regex) (ls : list nat) (s : string) : Prop :=
  match r, ls with
  | [], [] => True
  | a :: r', k :: ls' =>
      Nat.le (a_min a) k /\ Nat.le k (String.length s) /\
      (forall n, a_max a = Some n -> Nat.le k n) /\
      str_forall (cls_match icase (a_cls a)) (take k s) = true /\
      segments icase r' ls' (drop k s)
  | _, _ => False
  end.

Lemma match_here_sound icase r :
  forall s ls, match_here icase r s = Some ls -> segments icase r ls s.
Proof.
  induction r as [|a r IH]; intros s ls H.
  - simpl in H. injection H as <-. exact I.
  - simpl in H.
    set (p := cls_match icase (a_cls a)) in *.
    assert (G : forall k, (k <= span p (a_max a) s)%nat ->
              (fix back (k : nat) : option (list nat) :=
                 if Nat.ltb k (a_min a) then None
                 else match match_here icase r (drop k s) with
                      | Some ls => Some (k :: ls)
                      | None => match k with O => None | S k' => back k' end
                      end) k = Some ls -> segments icase (a :: r) ls s).
    { induction k as [|k IHk]; intros Hk Hb.
      - destruct (Nat.ltb 0 (a_min a)) eqn:L; [discriminate|].
        apply Nat.ltb_ge in L.
        destruct (match_here icase r (drop 0 s)) as [ls'|] eqn:M; [|discriminate].
        injection Hb as <-. cbn [segments].
        split; [exact L|]. split; [lia|]. split; [intros; lia|].
        split; [destruct s; reflexivity|].
        apply IH. exact M.
      - destruct (Nat.ltb (S k) (a_min a)) eqn:L; [discriminate|].
        apply Nat.ltb_ge in L.
        destruct (match_here icase r (drop (S k) s)) as [ls'|] eqn:M.
        + injection Hb as <-. cbn [segments]. split; [exact L|]. split.
          { pose proof (span_le p (a_max a) s). lia. }
          split. { intros n Em. rewrite Em in Hk.
                   pose proof (span_cap p n s). lia. }
          split; [fold p; eapply span_take; exact Hk|].
          apply IH. exact M.
        + apply IHk; [lia | exact Hb]. }
    apply (G _ (Nat.le_refl _) H).
Qed.

Lemma drop_step pos subject c s' :
  drop pos subject = String c s' -> drop (S pos) subject = s'.
Proof.
  revert subject. induction pos as [|pos IH]; intros subject H.
  - simpl in H. subst subject. reflexivity.
  - destruct subject as [|x subject]; [discriminate|]. simpl in *. apply IH, H.
Qed.

Lemma drop_past pos subject :
  drop pos subject = "" -> forall i, (pos <= i)%nat -> drop i subject = "".
Proof.
  revert subject. induction pos as [|pos IH]; intros subject H i Hi.
  - simpl in H. subst subject. destruct i; reflexivity.
  - destruct subject as [|x subject]; [destruct i; reflexivity|].
    destruct i as [|i]; [lia|]. simpl in *. apply IH; [exact H | lia].
Qed.

(** [re.search] returns the leftmost match. *)
Lemma search_from_sound icase r subject :
  forall s pos m,
    drop pos subject = s ->
    search_from icase r subject s pos = Some m ->
    m_subject m = subject /\ (pos <= m_start m)%nat /\
    match_here icase r (drop (m_start m) subject) = Some (m_lens m) /\
    forall i, (pos <= i < m_start m)%nat -> match_here icase r (drop i subject) = None.
Proof.
  induction s as [|c s IH]; intros pos m D H; simpl in H.
  - destruct (match_here icase r "") as [ls|] eqn:M; [|discriminate].
    injection H as <-. cbn [m_subject m_start m_lens]. rewrite D.
    repeat split; try lia; auto.
  - destruct (match_here icase r (String c s)) as [ls|] eqn:M.
    + injection H as <-. cbn [m_subject m_start m_lens]. rewrite D.
      repeat split; try lia; auto.
    + destruct (IH (S pos) m (drop_step _ _ _ _ D) H) as (E1 & E2 & E3 & E4).
      split; [exact E1|]. split; [lia|]. split; [exact E3|].
      intros i Hi. destruct (Nat.eq_dec i pos) as [->|N].
      * rewrite D. exact M.
      * apply E4. lia.
Qed.

Lemma search_from_none icase r subject :
  forall s pos,
    drop pos subject = s ->
    search_from icase r subject s pos = None ->
    forall i, (pos <= i)%nat -> match_here icase r (drop i subject) = None.
Proof.
  induction s as [|c s IH]; intros pos D H i Hi; simpl in H.
  - destruct (match_here icase r "") as [ls|] eqn:M; [discriminate|].
    rewrite (drop_past _ _ D i Hi). exact M.
  - destruct (match_here icase r (String c s)) as [ls|] eqn:M; [discriminate|].
    destruct (Nat.eq_dec i pos) as [->|N].
    + rewrite D. exact M.
    + apply (IH (S pos) (drop_step _ _ _ _ D) H). lia.
Qed.

(** A match at the head of the subject is the one [re.search] returns. *)
Lemma search_from_head icase r s ls :
  match_here icase r s = Some ls ->
  search_from icase r s s 0 = Some (RMatch s 0 ls).
Proof. intros M. destruct s; simpl; rewrite M; reflexivity. Qed.

End Regex.

Section RegexGreedy.
Import Py.

(** The greedy choice: when the rest of the pattern matches after the
    longest run of the first atom, that is the match. *)
Lemma match_here_greedy icase a r s ls :
  (a_min a <= span (cls_match icase (a_cls a)) (a_max a) s)%nat ->
  match_here icase r (drop (span (cls_match icase (a_cls a)) (a_max a) s) s) = Some ls ->
  match_here icase (a :: r) s = Some (span (cls_match icase (a_cls a)) (a_max a) s :: ls).
Proof.
  simpl. generalize (span (cls_match icase (a_cls a)) (a_max a) s) as k.
  intros k L M. apply Nat.ltb_ge in L.
  destruct k; rewrite L, M; reflexivity.
Qed.

(** No run long enough for the first atom: no match at this position. *)
Lemma match_here_short icase a r s :
  (span (cls_match icase (a_cls a)) (a_max a) s < a_min a)%nat ->
  match_here icase (a :: r) s = None.
Proof.
  simpl. generalize (span (cls_match icase (a_cls a)) (a_max a) s) as k.
  intros k L. apply Nat.ltb_lt in L.
  destruct k; rewrite L; reflexivity.
Qed.

Lemma segments_length icase r : forall ls s, segments icase r ls s -> length ls = length r.
Proof.
  induction r as [|a r IH]; intros [|k ls] s H; simpl in H; try contradiction; [reflexivity|].
  simpl. f_equal. destruct H as (_ & _ & _ & _ & H). eapply IH, H.
Qed.

End RegexGreedy.

Section MoreStrings.
Import Py.

(** Some character of the string is in the class. *)
Fixpoint str_exists (p : ascii -> bool) (s : string) : bool :=
  match s with
  | EmptyString => false
  | String c s' => (p c || str_exists p s')%bool
  end.

Lemma str_exists_app p a b :
  str_exists p (a ++ b) = (str_exists p a || str_exists p b)%bool.
Proof.
  induction a as [|c a IH]; [reflexivity|].
  rewrite str_app_cons. simpl. rewrite IH, orb_assoc. reflexivity.
Qed.

Lemma str_exists_forall p s :
  str_exists p s = negb (str_forall (fun c => negb (p c)) s).
Proof.
  induction s as [|c s IH]; [reflexivity|]. simpl. rewrite IH.
  destruct (p c); reflexivity.
Qed.

Lemma str_exists_map_chars p f s :
  (forall c, p (f c) = p c) -> str_exists p (map_chars f s) = str_exists p s.
Proof.
  intros E. induction s as [|c s IH]; [reflexivity|]. simpl. rewrite E, IH. reflexivity.
Qed.

Lemma str_forall_map_chars p f s :
  (forall c, p (f c) = p c) -> str_forall p (map_chars f s) = str_forall p s.
Proof.
  intros E. induction s as [|c s IH]; [reflexivity|]. simpl. rewrite E, IH. reflexivity.
Qed.

(** Stripping removes whitespace only. *)
Lemma str_exists_lstrip p s :
  (forall c, is_space c = true -> p c = false) ->
  str_exists p (lstrip s) = str_exists p s.
Proof.
  intros E. induction s as [|c s IH]; [reflexivity|]. simpl.
  destruct (is_space c) eqn:S; [|reflexivity].
  rewrite IH, (E _ S). reflexivity.
Qed.

Lemma all_space_no p s :
  (forall c, is_space c = true -> p c = false) ->
  all_space s = true -> str_exists p s = false.
Proof.
  intros E. induction s as [|c s IH]; [reflexivity|]. simpl.
  intros H. apply andb_prop in H. destruct H as [H1 H2].
  rewrite (E _ H1), (IH H2). reflexivity.
Qed.

Lemma str_exists_rstrip p s :
  (forall c, is_space c = true -> p c = false) ->
  str_exists p (rstrip s) = str_exists p s.
Proof.
  intros E. induction s as [|c s IH]; [reflexivity|].
  cbn [rstrip]. destruct (all_space (String c s)) eqn:A.
  - symmetry. apply all_space_no; assumption.
  - simpl. rewrite IH. reflexivity.
Qed.

Lemma str_exists_strip p s :
  (forall c, is_space c = true -> p c = false) ->
  str_exists p (strip s) = str_exists p s.
Proof.
  intros E. unfold strip. rewrite str_exists_rstrip, str_exists_lstrip by exact E.
  reflexivity.
Qed.

Lemma space_not_digit c : is_space c = true -> is_digit c = false.
Proof. destruct c as [[] [] [] [] [] [] [] []]; intros H; try discriminate H; reflexivity. Qed.

(** A string without whitespace at its ends is left as it is. *)
Lemma lstrip_id c s : is_space c = false -> lstrip (String c s) = String c s.
Proof. intros H. simpl. rewrite H. reflexivity. Qed.

Lemma rstrip_no_space s :
  str_forall (fun c => negb (is_space c)) s = true -> rstrip s = s.
Proof.
  induction s as [|c s IH]; [reflexivity|]. simpl.
  intros H. apply andb_prop in H. destruct H as [H1 H2].
  apply negb_true_iff in H1. rewrite H1. cbn [andb]. rewrite (IH H2). reflexivity.
Qed.

Lemma strip_no_space s :
  str_forall (fun c => negb (is_space c)) s = true -> strip s = s.
Proof.
  intros H. unfold strip.
  destruct s as [|c s]; [reflexivity|].
  assert (is_space c = false).
  { simpl in H. apply andb_prop in H. destruct H as [H _]. apply negb_true_iff, H. }
  rewrite lstrip_id by assumption. apply rstrip_no_space, H.
Qed.

(** Replacing one character by another acts character by character. *)
Definition subst_char (a b c : ascii) : ascii := if Ascii.eqb a c then b else c.

Lemma replace_aux_char a b fuel s :
  (String.length s <= fuel)%nat ->
  replace_aux fuel (String a "") (String b "") s = map_chars (subst_char a b) s.
Proof.
  revert s. induction fuel as [|fuel IH]; intros s L.
  - destruct s; [reflexivity | simpl in L; lia].
  - destruct s as [|c s]; [reflexivity|]. simpl in L.
    change (map_chars (subst_char a b) (String c s))
      with (String (subst_char a b c) (map_chars (subst_char a b) s)).
    cbn [replace_aux].
    assert (SW : starts_with (String a "") (String c s) = Ascii.eqb a c)
      by (simpl; apply andb_true_r).
    rewrite SW. unfold subst_char at 1.
    change (drop (String.length (String a "")) (String c s)) with s.
    destruct (Ascii.eqb a c); rewrite IH by lia; reflexivity.
Qed.

Lemma replace_char a b s :
  replace (String a "") (String b "") s = map_chars (subst_char a b) s.
Proof. apply replace_aux_char. lia. Qed.

Lemma str_take_add a b s : take (a + b) s = take a s ++ take b (drop a s).
Proof.
  revert s. induction a as [|a IH]; intros s.
  - destruct s; reflexivity.
  - destruct s as [|c s]; [destruct b; reflexivity|].
    simpl. rewrite str_app_cons, IH. reflexivity.
Qed.

Lemma str_length_drop k s : String.length (drop k s) = (String.length s - k)%nat.
Proof.
  revert s. induction k as [|k IH]; intros s; [simpl; lia|].
  destruct s as [|c s]; [reflexivity | simpl; apply IH].
Qed.

Lemma str_exists_drop p k s : str_exists p (drop k s) = true -> str_exists p s = true.
Proof.
  intros H. rewrite <- (str_take_drop k s), str_exists_app, H. apply orb_true_r.
Qed.

Lemma str_exists_take p k s : str_exists p (take k s) = true -> str_exists p s = true.
Proof.
  intros H. rewrite <- (str_take_drop k s), str_exists_app, H. reflexivity.
Qed.

Lemma str_forall_exists p s :
  str_forall p s = true -> nonempty s = true -> str_exists p s = true.
Proof.
  destruct s as [|c s]; [discriminate|]. simpl.
  intros H _. apply andb_prop in H. destruct H as [-> _]. reflexivity.
Qed.

(** The position of the first character of a class. *)
Lemma str_exists_first p s :
  str_exists p s = true ->
  exists i c rest, drop i s = String c rest /\ p c = true.
Proof.
  induction s as [|c s IH]; [discriminate|]. simpl.
  destruct (p c) eqn:P.
  - intros _. exists 0%nat, c, s. auto.
  - intros H. destruct (IH H) as (i & c' & rest & D & P').
    exists (S i), c', rest. auto.
Qed.

End MoreStrings.

Section RegexTotal.
Import Py.

(** A pattern whose atoms may all be empty matches at every position. *)
Lemma match_here_optional icase r :
  Forall (fun a => a_min a = 0%nat) r ->
  forall s, exists ls, match_here icase r s = Some ls.
Proof.
  induction 1 as [|a r A _ IH]; intros s; [exists []; reflexivity|].
  destruct (IH (drop (span (cls_match icase (a_cls a)) (a_max a) s) s)) as [ls M].
  exists (span (cls_match icase (a_cls a)) (a_max a) s :: ls).
  apply match_here_greedy; [rewrite A; lia | exact M].
Qed.

Lemma search_some icase r s i ls :
  match_here icase r (drop i s) = Some ls ->
  exists m, search_from icase r s s 0 = Some m.
Proof.
  intros M. destruct (search_from icase r s s 0) as [m|] eqn:S; [eauto|].
  rewrite (search_from_none icase r s s 0 eq_refl S i) in M by lia. discriminate M.
Qed.

End RegexTotal.

Section NumberTokens.
Import Py.

Lemma strip_underscores_none s :
  forall prev,
    Ascii.eqb prev "_" = false ->
    str_forall (fun c => negb (Ascii.eqb c "_")) s = true ->
    strip_underscores prev s = Some s.
Proof.
  induction s as [|c s IH]; intros prev P H; simpl.
  - rewrite P. reflexivity.
  - simpl in H. apply andb_prop in H. destruct H as [H1 H2].
    apply negb_true_iff in H1. rewrite H1, P. cbn [andb].
    rewrite (IH c H1 H2). reflexivity.
Qed.

Lemma take_digits_app a b :
  all_digits a = true -> take_digits (a ++ b) = a ++ take_digits b.
Proof.
  induction a as [|c a IH]; [reflexivity|]. simpl.
  intros H. apply andb_prop in H. destruct H as [H1 H2].
  rewrite str_app_cons. simpl. rewrite H1, (IH H2). reflexivity.
Qed.

Lemma drop_digits_app a b :
  all_digits a = true -> drop_digits (a ++ b) = drop_digits b.
Proof.
  induction a as [|c a IH]; [reflexivity|]. simpl.
  intros H. apply andb_prop in H. destruct H as [H1 H2].
  rewrite H1. apply IH, H2.
Qed.

Lemma take_digits_all a : all_digits a = true -> take_digits a = a.
Proof.
  intros H. rewrite <- (str_app_empty_r a) at 1. rewrite take_digits_app by exact H.
  apply str_app_empty_r.
Qed.

Lemma drop_digits_all a : all_digits a = true -> drop_digits a = "".
Proof.
  intros H. rewrite <- (str_app_empty_r a). rewrite drop_digits_app by exact H. reflexivity.
Qed.

(** The characters of a number token. *)
Definition is_numchar (c : ascii) : bool := (is_digit c || Ascii.eqb c ".")%bool.

Lemma numchar_plain c :
  is_numchar c = true -> is_space c = false /\ Ascii.eqb c "_" = false.
Proof.
  destruct c as [[] [] [] [] [] [] [] []]; intros H; try discriminate H; split; reflexivity.
Qed.

Lemma digit_head d g :
  is_digit d = true ->
  split_sign (String d g) = (false, String d g) /\
  String.eqb (lower (String d g)) "inf" = false /\
  String.eqb (lower (String d g)) "infinity" = false /\
  String.eqb (lower (String d g)) "nan" = false.
Proof.
  destruct d as [[] [] [] [] [] [] [] []]; intros H; try discriminate H;
    repeat split; reflexivity.
Qed.

(** [float] accepts digits, an optional point and digits. *)
Lemma py_float_number d1 dot d3 :
  isdigit d1 = true -> dot = "" \/ dot = "." -> all_digits d3 = true ->
  exists x, py_float (d1 ++ dot ++ d3) = Ok x.
Proof.
  intros D1 Dot D3. unfold isdigit in D1. apply andb_prop in D1. destruct D1 as [N1 A1].
  set (g := d1 ++ dot ++ d3).
  assert (NC : str_forall is_numchar g = true).
  { unfold g. rewrite !str_forall_app.
    apply andb_true_intro. split; [|apply andb_true_intro; split].
    - rewrite all_digits_forall in A1.
      eapply str_forall_impl; [|exact A1]. intros c H. unfold is_numchar. rewrite H. reflexivity.
    - destruct Dot as [-> | ->]; reflexivity.
    - rewrite all_digits_forall in D3.
      eapply str_forall_impl; [|exact D3]. intros c H. unfold is_numchar. rewrite H. reflexivity. }
  assert (S1 : strip g = g).
  { apply strip_no_space. eapply str_forall_impl; [|exact NC].
    intros c H. apply numchar_plain in H. destruct H as [-> _]. reflexivity. }
  assert (S2 : strip_underscores "000" g = Some g).
  { apply strip_underscores_none; [reflexivity|].
    eapply str_forall_impl; [|exact NC].
    intros c H. apply numchar_plain in H. destruct H as [_ ->]. reflexivity. }
  unfold py_float. rewrite S1, S2.
  destruct d1 as [|d d1']; [discriminate N1|].
  assert (Hd : is_digit d = true) by (simpl in A1; apply andb_prop in A1; apply A1).
  assert (G : g = String d (d1' ++ dot ++ d3)) by reflexivity.
  destruct (digit_head d (d1' ++ dot ++ d3) Hd) as (E1 & E2 & E3 & E4).
  rewrite G, E1, E2, E3, E4. cbn [orb]. rewrite <- G. unfold g.
  rewrite take_digits_app, drop_digits_app by exact A1.
  destruct Dot as [-> | ->].
  - rewrite str_app_nil, (take_digits_all d3 D3), (drop_digits_all d3 D3).
    replace (nonempty (String d d1' ++ d3)) with true
      by (symmetry; apply nonempty_app_l; reflexivity).
    cbn [orb parse_exponent]. eauto.
  - change (take_digits ("." ++ d3)) with "". change (drop_digits ("." ++ d3)) with ("." ++ d3).
    rewrite str_app_empty_r.
    change ("." ++ d3) with (String "." d3). cbv iota beta.
    rewrite (take_digits_all d3 D3), (drop_digits_all d3 D3).
    cbn [nonempty String.eqb negb orb parse_exponent]. eauto.
Qed.

End NumberTokens.

Section HoseScoreFrame.
Import Py ProductMatcher.

(** The fields of a record the hose scorer reads. *)
Definition hose_fields : list string :=
  ["construction"; "dn"; "working_pressure_mpa"; "working_pressure_bar";
   "standard"; "inner_diameter_mm"].

Definition agree_on (ks : list string) (r r' : gmap string value) : Prop :=
  forall k, In k ks -> r' !! k = r !! k.

(** X1: The hose scorer reads six fields of a record and no other:
    construction, dn, working_pressure_mpa, working_pressure_bar, standard
    and inner_diameter_mm.  Two pairs of records that agree on these fields
    get the same result: the same score and reasons, or the same
    exception. *)
Theorem hose_score_reads_six_fields b h b' h' :
  agree_on hose_fields b b' -> agree_on hose_fields h h' ->
  _calculate_match_score b' h' = _calculate_match_score b h.
Proof.
  intros Hb Hh.
  assert (B : forall k, In k hose_fields -> b' !! k = b !! k) by exact Hb.
  assert (H : forall k, In k hose_fields -> h' !! k = h !! k) by exact Hh.
  apply calculate_match_score_ext; intros;
    first [ apply pre_check_reads | apply criterion_dn_reads
          | apply criterion_pressure_reads | apply criterion_standard_reads
          | apply criterion_construction_reads | apply criterion_inner_diameter_reads ];
    first [ apply B | apply H ]; unfold hose_fields; simpl; tauto.
Qed.

Lemma hose_score_reads_six_fields_witness :
  _calculate_match_score
    (<["model" := VStr "BALMASTER"]> scenario_source)
    (<["article_number" := VStr "100012"]> scenario_target)
  = _calculate_match_score scenario_source scenario_target.
Proof.
  apply hose_score_reads_six_fields; intros k Hk; simpl in Hk;
    repeat (destruct Hk as [<-|Hk]; [vm_compute; reflexivity|]); destruct Hk.
Defined.

(** X2: The construction pre-check of the hose scorer rejects a pair of
    records exactly when it rejects the pair in the other order. *)
Theorem hose_gate_is_symmetric b h :
  (exists rs, pre_check b h = Ok (Some rs)) <-> (exists rs, pre_check h b = Ok (Some rs)).
Proof.
  unfold pre_check.
  destruct (v_lower (get_or b "construction" (VStr ""))) as [bc|e1];
    destruct (v_lower (get_or h "construction" (VStr ""))) as [hc|e2];
    cbn [bind]; try (split; intros [rs E]; discriminate E).
  destruct (nonempty bc), (nonempty hc),
    (contains "textile" bc), (contains "wire" hc),
    (contains "wire" bc), (contains "textile" hc),
    (contains "spiral" bc), (contains "spiral" hc); cbn;
    split; intros [rs E]; first [discriminate E | eauto].
Qed.

End HoseScoreFrame.

Section HoseTiers.
Import Py ProductMatcher.

(** The quality of a score of [r] points out of 100. *)
Definition tier (r : Z) : string :=
  if 80 <=? r then "Excellent Match"
  else if 60 <=? r then "Good Match"
  else if 40 <=? r then "Fair Match"
  else "Possible Match".

Lemma norm100_at k :
  In k [30; 40; 60; 80] -> norm100 k = Z_to_float k.
Proof.
  intros H; simpl in H.
  repeat (destruct H as [<-|H]; [vm_compute; reflexivity|]); destruct H.
Qed.

Lemma norm100_threshold k r :
  In k [30; 40; 60; 80] -> 0 <= r <= 100 ->
  (Z_to_float k <=? norm100 r)%float = (k <=? r).
Proof.
  intros Hk Hr.
  rewrite <- (norm100_at k Hk).
  assert (0 <= k <= 100) by (simpl in Hk; lia).
  destruct (norm100_compare k r) as (_ & E & _); auto.
Qed.

Lemma quality_of_norm100 r :
  0 <= r <= 100 -> _score_to_quality (norm100 r) = tier r.
Proof.
  intros Hr. unfold _score_to_quality, tier.
  change 80%float with (Z_to_float 80).
  change 60%float with (Z_to_float 60).
  change 40%float with (Z_to_float 40).
  rewrite !norm100_threshold by (simpl; tauto || assumption).
  reflexivity.
Qed.

(** X3: A score the hose scorer returns is a whole number of points between
    0 and 100, up to the rounding of the division and the multiplication:
    rounding it to one decimal gives that number, the quality label is the
    tier of that number (80, 60 and 40 are the limits) and the comparison
    with the threshold 30 of the matcher is the comparison of that
    number. *)
Theorem hose_quality_follows_the_points b h s rs :
  _calculate_match_score b h = Ok (s, rs) ->
  exists r,
    0 <= r <= 100 /\ py_round1 s = Z_to_float r /\
    _score_to_quality s = tier r /\
    (30 <=? s)%float = (30 <=? r).
Proof.
  intros H. destruct (calculate_match_score_raw _ _ _ _ H) as (r & Hr & ->).
  exists r. split; [assumption|]. split; [apply round_norm100; assumption|].
  split; [apply quality_of_norm100; assumption|].
  change 30%float with (Z_to_float 30).
  apply norm100_threshold; [simpl; tauto | assumption].
Qed.

Lemma hose_quality_follows_the_points_witness :
  exists r,
    0 <= r <= 100 /\ py_round1 90 = Z_to_float r /\
    _score_to_quality 90 = tier r /\
    (30 <=? 90)%float = (30 <=? r).
Proof.
  apply (hose_quality_follows_the_points scenario_source scenario_target 90%float
           [DNMatch (VStr "DN12"); PressureMatch 25 25; StandardMatchEN "857";
            ConstructionMatch "2 wire braid"]).
  vm_compute; reflexivity.
Defined.

End HoseTiers.

Section HoseFirstBest.
Import Py ProductMatcher.

(** The state of the scan after the candidates [seen]: without a best
    match every candidate seen scored 0; with one, it is the first of the
    candidates seen with the highest score. *)
Definition first_best (b : gmap string value) (seen : list (gmap string value))
  (st : best) : Prop :=
  exists r,
    0 <= r <= 100 /\ best_score st = norm100 r /\
    match best_match st with
    | None =>
        r = 0 /\
        forall h', In h' seen -> exists rs', _calculate_match_score b h' = Ok (norm100 0, rs')
    | Some h =>
        0 < r /\ dict_truthy h = true /\
        exists before after,
          seen = (before ++ h :: after)%list /\
          _calculate_match_score b h = Ok (norm100 r, best_reasons st) /\
          (forall h', In h' before ->
             exists r' rs', _calculate_match_score b h' = Ok (norm100 r', rs') /\
                            0 <= r' <= 100 /\ r' < r) /\
          (forall h', In h' after ->
             exists r' rs', _calculate_match_score b h' = Ok (norm100 r', rs') /\
                            0 <= r' <= 100 /\ r' <= r)
    end.

Lemma scan_first_best b hs :
  forall seen st st',
    first_best b seen st -> scan b hs st = Ok st' -> first_best b (seen ++ hs) st'.
Proof.
  induction hs as [|h hs IH]; intros seen st st' I H.
  - simpl in H. injection H as <-. rewrite app_nil_r. exact I.
  - simpl in H. apply bind_Ok in H. destruct H as ([s rs] & C & H).
    destruct (calculate_match_score_raw _ _ _ _ C) as (r & B & ->).
    replace (seen ++ h :: hs)%list with ((seen ++ [h]) ++ hs)%list
      by (rewrite <- app_assoc; reflexivity).
    refine (IH _ _ _ _ H). clear IH H.
    destruct I as (r0 & B0 & E0 & M0).
    destruct (norm100_compare r0 r B0 B) as (L & _ & _).
    rewrite E0, L.
    destruct (r0 <? r) eqn:Lt.
    + apply Z.ltb_lt in Lt.
      exists r. split; [exact B|]. split; [reflexivity|]. cbn [best_match best_reasons].
      split; [lia|]. split.
      { destruct (dict_truthy h) eqn:T; [reflexivity|].
        apply dict_truthy_false in T. subst h.
        apply empty_target_scores_zero in C. apply norm100_inj in C; [lia | exact B]. }
      exists seen, []. split; [reflexivity|]. split; [exact C|]. split; [|intros h' []].
      intros h' Hin.
      destruct (best_match st) as [h0|].
      * destruct M0 as (P0 & _ & before & after & -> & C0 & Bf & Af).
        apply in_app_or in Hin. destruct Hin as [Hin | [<- | Hin]].
        -- destruct (Bf _ Hin) as (r' & rs' & C' & B' & L').
           exists r', rs'. repeat split; try apply B'; auto. lia.
        -- exists r0, (best_reasons st). repeat split; try apply B0; auto.
        -- destruct (Af _ Hin) as (r' & rs' & C' & B' & L').
           exists r', rs'. repeat split; try apply B'; auto. lia.
      * destruct M0 as (-> & Z0). destruct (Z0 _ Hin) as (rs' & C').
        exists 0, rs'. repeat split; auto; lia.
    + apply Z.ltb_ge in Lt.
      exists r0. split; [exact B0|]. split; [exact E0|].
      destruct (best_match st) as [h0|].
      * destruct M0 as (P0 & T0 & before & after & -> & C0 & Bf & Af).
        split; [exact P0|]. split; [exact T0|].
        exists before, (after ++ [h])%list. split.
        { rewrite <- app_assoc. reflexivity. }
        split; [exact C0|]. split; [exact Bf|].
        intros h' Hin. apply in_app_or in Hin. destruct Hin as [Hin | [<- | []]].
        -- apply Af, Hin.
        -- exists r, rs. repeat split; try apply B; auto.
      * destruct M0 as (-> & Z0). split; [reflexivity|].
        intros h' Hin. apply in_app_or in Hin. destruct Hin as [Hin | [<- | []]].
        -- apply Z0, Hin.
        -- assert (r = 0) by lia. subst r. exists rs. exact C.
Qed.

Lemma first_best_initial b : first_best b [] (Best None 0%float []).
Proof.
  exists 0. split; [lia|]. split; [symmetry; apply norm100_0|].
  cbn [best_match]. split; [reflexivity | intros h' []].
Qed.

(** X4: For one Balflex hose the matcher, when no score raises, returns no
    entry or one.  With no entry every candidate scores below 30.  With an
    entry, it is made of the first candidate with the highest score: the
    score is at least 30, every candidate before it scores strictly less
    and every candidate after it scores at most as much. *)
Theorem hose_match_is_the_first_best b hs ms :
  match_one b hs = Ok ms ->
  (ms = [] /\
   forall h, In h hs ->
     exists s rs, _calculate_match_score b h = Ok (s, rs) /\ (s <? 30)%float = true)
  \/
  (exists before h after s rs,
      hs = (before ++ h :: after)%list /\
      _calculate_match_score b h = Ok (s, rs) /\
      ms = [_create_match_entry b h s rs] /\
      (30 <=? s)%float = true /\
      (forall h', In h' before ->
         exists s' rs', _calculate_match_score b h' = Ok (s', rs') /\
                        (s' <? s)%float = true) /\
      (forall h', In h' after ->
         exists s' rs', _calculate_match_score b h' = Ok (s', rs') /\
                        (s' <=? s)%float = true)).
Proof.
  unfold match_one. intros H. apply bind_Ok in H. destruct H as (st & S & H).
  apply (scan_first_best b hs [] _ _ (first_best_initial b)) in S.
  simpl in S. destruct S as (r & B & E & M).
  assert (T30 : (30 <=? norm100 r)%float = (30 <=? r)).
  { rewrite <- norm100_30 at 1.
    destruct (norm100_compare 30 r ltac:(lia) B) as (_ & Q & _). exact Q. }
  assert (Below : forall r', 0 <= r' <= 100 -> r' < 30 -> (norm100 r' <? 30)%float = true).
  { intros r' B' L'. rewrite <- norm100_30.
    destruct (norm100_compare r' 30 B' ltac:(lia)) as (Q & _ & _).
    rewrite Q. apply Z.ltb_lt. exact L'. }
  destruct (best_match st) as [h|].
  - destruct M as (P & T & before & after & -> & C & Bf & Af).
    rewrite T, E, T30 in H. cbn [andb] in H.
    destruct (30 <=? r) eqn:L30.
    + right. injection H as <-.
      exists before, h, after, (norm100 r), (best_reasons st).
      split; [reflexivity|]. split; [exact C|]. split; [reflexivity|].
      split; [rewrite T30; reflexivity|]. split.
      * intros h' Hin. destruct (Bf _ Hin) as (r' & rs' & C' & B' & L').
        exists (norm100 r'), rs'. split; [exact C'|].
        destruct (norm100_compare r' r B' B) as (Q & _ & _).
        rewrite Q. apply Z.ltb_lt. exact L'.
      * intros h' Hin. destruct (Af _ Hin) as (r' & rs' & C' & B' & L').
        exists (norm100 r'), rs'. split; [exact C'|].
        destruct (norm100_compare r' r B' B) as (_ & Q & _).
        rewrite Q. apply Z.leb_le. exact L'.
    + left. injection H as <-. split; [reflexivity|].
      apply Z.leb_gt in L30.
      intros h' Hin. apply in_app_or in Hin. destruct Hin as [Hin | [<- | Hin]].
      * destruct (Bf _ Hin) as (r' & rs' & C' & B' & L').
        exists (norm100 r'), rs'. split; [exact C'|]. apply Below; [exact B' | lia].
      * exists (norm100 r), (best_reasons st). split; [exact C|]. apply Below; [exact B | lia].
      * destruct (Af _ Hin) as (r' & rs' & C' & B' & L').
        exists (norm100 r'), rs'. split; [exact C'|]. apply Below; [exact B' | lia].
  - left. injection H as <-. split; [reflexivity|].
    destruct M as (-> & Z0). intros h' Hin. destruct (Z0 _ Hin) as (rs' & C').
    exists (norm100 0), rs'. split; [exact C'|]. apply Below; lia.
Qed.

(** A scan with a tie: the first of the two best candidates is taken. *)
Definition dn12_first : gmap string value :=
  <["reference" := VStr "first"]> hose_dn12.
Definition dn12_second : gmap string value :=
  <["reference" := VStr "second"]> hose_dn12.

Definition tie_candidates : list (gmap string value) :=
  [hose_dn10; dn12_first; dn12_second].

Definition tie_match : match_entry :=
  MatchEntry 30 "Possible Match" [DNMatch (VStr "DN12")] hose_dn12 dn12_first.

Lemma hose_match_is_the_first_best_witness :
  ([tie_match] = [] /\
   forall h, In h tie_candidates ->
     exists s rs, _calculate_match_score hose_dn12 h = Ok (s, rs) /\ (s <? 30)%float = true)
  \/
  (exists before h after s rs,
      tie_candidates = (before ++ h :: after)%list /\
      _calculate_match_score hose_dn12 h = Ok (s, rs) /\
      [tie_match] = [_create_match_entry hose_dn12 h s rs] /\
      (30 <=? s)%float = true /\
      (forall h', In h' before ->
         exists s' rs', _calculate_match_score hose_dn12 h' = Ok (s', rs') /\
                        (s' <? s)%float = true) /\
      (forall h', In h' after ->
         exists s' rs', _calculate_match_score hose_dn12 h' = Ok (s', rs') /\
                        (s' <=? s)%float = true)).
Proof.
  apply hose_match_is_the_first_best. vm_compute. reflexivity.
Defined.

End HoseFirstBest.

Section SeriesNormalisers.
Import Py WithSeries.

Definition standard_families : list string :=
  ["ISO"; "JIS"; "BSP"; "NPT"; "JIC"; "ORFS"; "SAE"; "DIN"].

Lemma first_contained_In bases s b :
  first_contained bases s = Some b -> In b bases /\ contains b s = true.
Proof.
  induction bases as [|x bases IH]; simpl; [discriminate|].
  destruct (contains x s) eqn:C.
  - intros H. injection H as <-. auto.
  - intros H. destruct (IH H). auto.
Qed.

Lemma normalize_standard_of_string s :
  normalize_standard (VStr s) = Ok (first_contained standard_families (upper s)).
Proof.
  unfold normalize_standard. cbn [truthy v_upper bind].
  destruct s as [|c s]; reflexivity.
Qed.

(** X5: [normalize_standard] returns one of the eight family names it looks
    for, normalising a family name gives that name again, and the case of
    the letters of the input does not matter. *)
Theorem normalize_standard_is_a_projection :
  (forall std base,
      normalize_standard std = Ok (Some base) ->
      In base standard_families /\
      normalize_standard (VStr base) = Ok (Some base)) /\
  (forall s,
      normalize_standard (VStr (lower s)) = normalize_standard (VStr s) /\
      normalize_standard (VStr (upper s)) = normalize_standard (VStr s)).
Proof.
  split.
  - intros std base H.
    assert (I : In base standard_families).
    { destruct std as [|x|s].
      - discriminate H.
      - unfold normalize_standard in H. destruct (truthy (VNum x)); discriminate H.
      - rewrite normalize_standard_of_string in H.
        apply (first_contained_In standard_families (upper s)). congruence. }
    split; [exact I|].
    simpl in I. repeat (destruct I as [<-|I]; [vm_compute; reflexivity|]). destruct I.
  - intros s. rewrite !normalize_standard_of_string, upper_lower, upper_idem. auto.
Qed.

Lemma normalize_standard_is_a_projection_witness :
  In "ISO" standard_families /\
  normalize_standard (VStr "ISO") = Ok (Some "ISO").
Proof.
  apply (proj1 normalize_standard_is_a_projection (VStr "DIN ISO 8434-1")).
  vm_compute. reflexivity.
Defined.

(** A seat type in its normal form. *)
Definition seat_normal_form (t : string) : Prop :=
  t = "Flat Face" \/ t = "O-Ring" \/ exists ds, isdigit ds = true /\ t = ds ++ "° Cone".

Lemma degree_match ds :
  isdigit ds = true ->
  search re_degree (ds ++ "° Cone") = Some (RMatch (ds ++ "° Cone") 0 [String.length ds; 1; 1]%nat).
Proof.
  intros D. unfold isdigit in D. apply andb_prop in D. destruct D as [N A].
  rewrite all_digits_forall in A.
  unfold search. apply search_from_head.
  assert (S : span (cls_match false Digit) None (ds ++ "° Cone") = String.length ds).
  { apply span_all; [exact A | reflexivity]. }
  unfold re_degree.
  pose proof (match_here_greedy false (plus Digit) (lits "°") (ds ++ "° Cone") [1; 1]%nat) as G.
  cbn [a_cls a_max a_min plus] in G. rewrite S in G. apply G.
  - apply nonempty_length in N. lia.
  - rewrite str_drop_app. reflexivity.
Qed.

(** X6: A seat type that [normalize_seat_type] returns is in normal form:
    Flat Face, O-Ring or digits followed by the degree sign and Cone.
    Normalising it again returns it unchanged. *)
Theorem normalize_seat_type_is_idempotent seat t :
  normalize_seat_type seat = Ok (Some t) ->
  seat_normal_form t /\ normalize_seat_type (VStr t) = Ok (Some t).
Proof.
  intros H. unfold normalize_seat_type in H.
  destruct (truthy seat); cbn [negb] in H; [|discriminate].
  destruct seat as [|x|s]; try discriminate.
  cbn [v_search v_lower bind] in H.
  destruct (search re_degree s) as [m|] eqn:M.
  - injection H as <-.
    destruct (search_from_sound false re_degree s s 0 m eq_refl M) as (Es & _ & Mh & _).
    apply match_here_sound in Mh.
    pose proof (segments_length _ _ _ _ Mh) as Len.
    destruct m as [subj start lens]. cbn [m_subject m_start m_lens] in *. subst subj.
    destruct lens as [|k1 [|k2 [|k3 [|]]]]; try discriminate Len.
    destruct Mh as (L1 & L2 & _ & F & _). cbn [a_min plus a_cls] in *.
    assert (G : group_span 0 1 (RMatch s start [k1; k2; k3]) = take k1 (drop start s)).
    { unfold group_span. cbn [m_lens m_start m_subject firstn skipn sum_nat fold_right Nat.sub].
      rewrite !Nat.add_0_r. reflexivity. }
    rewrite G.
    assert (D : isdigit (take k1 (drop start s)) = true).
    { unfold isdigit. rewrite all_digits_forall. apply andb_true_intro. split; [|exact F].
      apply nonempty_length. rewrite str_length_take; lia. }
    split.
    + right. right. eexists. split; [exact D | reflexivity].
    + unfold normalize_seat_type.
      replace (truthy (VStr (take k1 (drop start s) ++ "° Cone"))) with true
        by (symmetry; apply nonempty_app_l; unfold isdigit in D; apply andb_prop in D; apply D).
      cbn [negb v_search bind]. rewrite (degree_match _ D).
      unfold group_span. cbn [m_lens m_start m_subject firstn skipn sum_nat fold_right Nat.sub].
      rewrite Nat.add_0_r. cbn [Nat.add drop]. rewrite str_take_app. reflexivity.
  - destruct (contains "flat" (lower s)).
    + injection H as <-. split; [left; reflexivity | vm_compute; reflexivity].
    + destruct (contains "o-ring" (lower s) || contains "oring" (lower s))%bool;
        [|discriminate].
      injection H as <-. split; [right; left; reflexivity | vm_compute; reflexivity].
Qed.

Lemma normalize_seat_type_is_idempotent_witness :
  seat_normal_form "37° Cone" /\ normalize_seat_type (VStr "37° Cone") = Ok (Some "37° Cone").
Proof.
  apply (normalize_seat_type_is_idempotent (VStr "JIC 37° Konus")).
  vm_compute. reflexivity.
Defined.

End SeriesNormalisers.

Section SeriesFirstBest.
Import Py WithSeries.

(** The state of the scan after the candidates [seen]: without a best
    match no candidate seen was eligible; with one, it is the first of
    the candidates seen with the highest score, and it is eligible. *)
Definition series_first_best (float_repr : float -> string) (h : gmap string value)
  (thr : Z) (seen : list (gmap string value)) (st : best) : Prop :=
  match best_match st with
  | None =>
      best_score st = 0 /\
      forall b', In b' seen ->
        exists s rs ws, calculate_match_score float_repr h b' = Ok (s, rs, ws) /\
                        (s = 0 \/ s < thr)
  | Some b =>
      0 < best_score st <= 100 /\ thr <= best_score st /\ dict_truthy b = true /\
      exists before after ws,
        seen = (before ++ b :: after)%list /\
        calculate_match_score float_repr h b = Ok (best_score st, best_reasons st, ws) /\
        (forall b', In b' before ->
           exists s rs ws', calculate_match_score float_repr h b' = Ok (s, rs, ws') /\
                            s < best_score st) /\
        (forall b', In b' after ->
           exists s rs ws', calculate_match_score float_repr h b' = Ok (s, rs, ws') /\
                            s <= best_score st)
  end.

Lemma series_scan_first_best float_repr h thr bs :
  forall seen st st',
    series_first_best float_repr h thr seen st ->
    scan float_repr h bs thr st = Ok st' ->
    series_first_best float_repr h thr (seen ++ bs) st'.
Proof.
  induction bs as [|b bs IH]; intros seen st st' I H.
  - simpl in H. injection H as <-. rewrite app_nil_r. exact I.
  - simpl in H. apply bind_Ok in H. destruct H as ([[s rs] ws] & C & H).
    pose proof (series_score_bounded float_repr _ _ _ _ _ C) as B.
    replace (seen ++ b :: bs)%list with ((seen ++ [b]) ++ bs)%list
      by (rewrite <- app_assoc; reflexivity).
    refine (IH _ _ _ _ H). clear IH H.
    unfold series_first_best in *.
    destruct ((best_score st <? s) && (thr <=? s))%bool eqn:Cond.
    + apply andb_true_iff in Cond as [C1 C2].
      apply Z.ltb_lt in C1. apply Z.leb_le in C2.
      cbn [best_match best_score best_reasons].
      assert (P : 0 < s).
      { destruct (best_match st); [destruct I as ((? & _) & _); lia | destruct I; lia]. }
      split; [lia|]. split; [exact C2|]. split.
      { destruct (dict_truthy b) eqn:T; [reflexivity|].
        apply dict_truthy_false in T. subst b.
        apply empty_balflex_scores_zero in C. lia. }
      exists seen, [], ws. split; [reflexivity|]. split; [exact C|].
      split; [|intros b' []].
      intros b' Hin.
      destruct (best_match st) as [b0|].
      * destruct I as (P0 & T0 & _ & before & after & ws0 & -> & C0 & Bf & Af).
        apply in_app_or in Hin. destruct Hin as [Hin | [<- | Hin]].
        -- destruct (Bf _ Hin) as (s' & rs' & ws' & C' & L').
           exists s', rs', ws'. split; [exact C' | lia].
        -- exists (best_score st), (best_reasons st), ws0. split; [exact C0 | lia].
        -- destruct (Af _ Hin) as (s' & rs' & ws' & C' & L').
           exists s', rs', ws'. split; [exact C' | lia].
      * destruct I as (E0 & Z0). destruct (Z0 _ Hin) as (s' & rs' & ws' & C' & L').
        exists s', rs', ws'. split; [exact C' | lia].
    + destruct (best_match st) as [b0|].
      * destruct I as (P0 & T0 & D0 & before & after & ws0 & -> & C0 & Bf & Af).
        split; [exact P0|]. split; [exact T0|]. split; [exact D0|].
        exists before, (after ++ [b])%list, ws0. split.
        { rewrite <- app_assoc. reflexivity. }
        split; [exact C0|]. split; [exact Bf|].
        intros b' Hin. apply in_app_or in Hin. destruct Hin as [Hin | [<- | []]].
        -- apply Af, Hin.
        -- exists s, rs, ws. split; [exact C|].
           apply andb_false_iff in Cond as [C1 | C2].
           ++ apply Z.ltb_ge in C1. exact C1.
           ++ apply Z.leb_gt in C2. lia.
      * destruct I as (E0 & Z0). split; [exact E0|].
        intros b' Hin. apply in_app_or in Hin. destruct Hin as [Hin | [<- | []]].
        -- apply Z0, Hin.
        -- exists s, rs, ws. split; [exact C|].
           apply andb_false_iff in Cond as [C1 | C2].
           ++ apply Z.ltb_ge in C1. left. lia.
           ++ apply Z.leb_gt in C2. right. exact C2.
Qed.

(** X7: For one Heizmann fitting the series matcher, when nothing raises,
    returns no entry or one.  With no entry every Balflex candidate scores
    0 or below the threshold.  With an entry, it holds the first candidate
    with the highest score, this score is positive, at most 100 and at
    least the threshold, the quality is the tier of the score, every
    candidate before it scores strictly less and every candidate after it
    at most as much. *)
Theorem series_match_is_the_first_best float_repr h bs thr ms :
  match_one float_repr h bs thr = Ok ms ->
  (ms = [] /\
   forall b, In b bs ->
     exists s rs ws, calculate_match_score float_repr h b = Ok (s, rs, ws) /\
                     (s = 0 \/ s < thr))
  \/
  (exists before b after m ws,
      bs = (before ++ b :: after)%list /\
      ms = [m] /\ entry_heizmann m = h /\ entry_balflex m = b /\
      calculate_match_score float_repr h b = Ok (Match_Score m, Match_Reasons m, ws) /\
      0 < Match_Score m <= 100 /\ thr <= Match_Score m /\
      Match_Quality m = quality_of (Match_Score m) /\
      (forall b', In b' before ->
         exists s rs ws', calculate_match_score float_repr h b' = Ok (s, rs, ws') /\
                          s < Match_Score m) /\
      (forall b', In b' after ->
         exists s rs ws', calculate_match_score float_repr h b' = Ok (s, rs, ws') /\
                          s <= Match_Score m)).
Proof.
  unfold match_one. intros H. apply bind_Ok in H. destruct H as (st & S & H).
  apply (series_scan_first_best float_repr h thr bs [] (Best None 0 [])) in S.
  2:{ unfold series_first_best. cbn [best_match best_score].
      split; [reflexivity | intros b' []]. }
  simpl in S. unfold series_first_best in S.
  destruct (best_match st) as [b|].
  - destruct S as (P & T & D & before & after & ws & -> & C & Bf & Af).
    rewrite D in H. right.
    repeat (apply bind_Ok in H; destruct H as (? & _ & H)).
    injection H as <-.
    eexists before, b, after, _, ws.
    split; [reflexivity|]. split; [reflexivity|].
    cbn [entry_heizmann entry_balflex Match_Score Match_Reasons Match_Quality].
    repeat split; auto; lia.
  - left. injection H as <-. split; [reflexivity | apply S].
Qed.

(** A scan with a tie: the first of the two best candidates is taken. *)
Definition series_candidates : list (gmap string value) :=
  [balflex_bare; balflex_iso_12; <["gender" := VStr "Male"]> balflex_iso_12].

Definition series_match : match_entry :=
  MatchEntry (VStr "X-12") (VStr "100012") (VStr "X12")
    (VStr "https://example.org/x12") (VStr "23.5013.1030") (VStr "23.5013.1030")
    60 "Good" [Standard "ISO"; DN 12; Seat "24° Cone"]
    heizmann_iso_12 balflex_iso_12.

Lemma series_match_is_the_first_best_witness :
  ([series_match] = [] /\
   forall b, In b series_candidates ->
     exists s rs ws,
       calculate_match_score (fun _ => EmptyString) heizmann_iso_12 b = Ok (s, rs, ws) /\
       (s = 0 \/ s < 60))
  \/
  (exists before b after m ws,
      series_candidates = (before ++ b :: after)%list /\
      [series_match] = [m] /\ entry_heizmann m = heizmann_iso_12 /\ entry_balflex m = b /\
      calculate_match_score (fun _ => EmptyString) heizmann_iso_12 b
      = Ok (Match_Score m, Match_Reasons m, ws) /\
      0 < Match_Score m <= 100 /\ 60 <= Match_Score m /\
      Match_Quality m = quality_of (Match_Score m) /\
      (forall b', In b' before ->
         exists s rs ws',
           calculate_match_score (fun _ => EmptyString) heizmann_iso_12 b' = Ok (s, rs, ws') /\
           s < Match_Score m) /\
      (forall b', In b' after ->
         exists s rs ws',
           calculate_match_score (fun _ => EmptyString) heizmann_iso_12 b' = Ok (s, rs, ws') /\
           s <= Match_Score m)).
Proof.
  apply series_match_is_the_first_best. vm_compute. reflexivity.
Defined.

(** The fields of the Heizmann item that the match entry reads by
    subscript. *)
Definition subscripted_keys : list string :=
  ["model"; "article_number"; "reference"; "url"].

Lemma item_raises d k : d !! k = None -> item d k = Raise KeyError.
Proof. intros E. unfold item. rewrite E. reflexivity. Qed.

Lemma item_cases d k : (exists v, item d k = Ok v) \/ item d k = Raise KeyError.
Proof. unfold item. destruct (d !! k); eauto. Qed.

(** X8: The match entry reads model, article_number, reference and url of
    the Heizmann fitting by subscript.  When one of them is missing and
    some Balflex candidate reaches the threshold with a positive score,
    matching this fitting raises KeyError, and so does matching any list of
    fittings that holds it: no result is returned. *)
Theorem series_match_raises_on_a_missing_key float_repr h bs thr k :
  In k subscripted_keys -> h !! k = None ->
  (forall b, In b bs -> exists r, calculate_match_score float_repr h b = Ok r) ->
  (exists b s rs ws,
      In b bs /\ calculate_match_score float_repr h b = Ok (s, rs, ws) /\
      0 < s /\ thr <= s) ->
  match_one float_repr h bs thr = Raise KeyError /\
  forall before after ms,
    match_products float_repr (before ++ h :: after) bs thr = Ok ms -> False.
Proof.
  intros K N A (b0 & s0 & rs0 & ws0 & Hin0 & C0 & P0 & T0).
  assert (M : match_one float_repr h bs thr = Raise KeyError).
  { destruct (series_scan_returns float_repr h thr bs A (Best None 0 [])) as [st S].
    destruct (series_scan_spec float_repr h thr bs _ st (series_best_ok_initial thr) S)
      as (I & _ & All & _).
    destruct (All b0 Hin0) as (s & rs & ws & C & L).
    rewrite C0 in C. injection C as <- _ _.
    unfold match_one. rewrite S. cbn [bind].
    unfold series_best_ok in I.
    destruct (best_match st) as [b|]; [|lia].
    destruct I as (_ & _ & D). rewrite D.
    simpl in K.
    destruct (item_cases h "model") as [[v1 E1] | E1]; rewrite E1; [|reflexivity].
    cbn [bind].
    destruct (item_cases h "article_number") as [[v2 E2] | E2]; rewrite E2; [|reflexivity].
    cbn [bind].
    destruct (item_cases h "reference") as [[v3 E3] | E3]; rewrite E3; [|reflexivity].
    cbn [bind].
    destruct (item_cases h "url") as [[v4 E4] | E4]; rewrite E4; [|reflexivity].
    exfalso.
    destruct K as [<- | [<- | [<- | [<- | []]]]];
      match goal with
      | E : item h ?k = Ok _ |- _ => rewrite (item_raises h k N) in E; discriminate E
      end. }
  split; [exact M|].
  induction before as [|x before IH]; intros after ms H; simpl in H.
  - rewrite M in H. discriminate H.
  - destruct (match_one float_repr x bs thr) as [ms1|e]; [|discriminate H].
    cbn [bind] in H.
    destruct (match_products float_repr (before ++ h :: after) bs thr) as [ms2|e] eqn:R;
      [|discriminate H].
    eapply IH. exact R.
Qed.

Lemma series_match_raises_on_a_missing_key_witness :
  match_one (fun _ => EmptyString) (delete "url" heizmann_iso_12) [balflex_iso_12] 60
  = Raise KeyError /\
  forall before after ms,
    match_products (fun _ => EmptyString)
      (before ++ delete "url" heizmann_iso_12 :: after) [balflex_iso_12] 60 = Ok ms -> False.
Proof.
  apply (series_match_raises_on_a_missing_key (fun _ => EmptyString)
           (delete "url" heizmann_iso_12) [balflex_iso_12] 60 "url").
  - simpl. tauto.
  - vm_compute. reflexivity.
  - intros b [<- | []]. eexists. vm_compute. reflexivity.
  - exists balflex_iso_12, 60, [Standard "ISO"; DN 12; Seat "24° Cone"], [].
    split; [left; reflexivity|]. split; [vm_compute; reflexivity | lia].
Defined.

(** X9: The gender of the Balflex item is compared for the reasons and the
    warnings only: changing it leaves the score of the series scorer
    unchanged. *)
Theorem series_score_ignores_gender float_repr h b g s rs ws :
  calculate_match_score float_repr h b = Ok (s, rs, ws) ->
  exists rs' ws',
    calculate_match_score float_repr h (<["gender" := g]> b) = Ok (s, rs', ws').
Proof.
  unfold calculate_match_score, get.
  rewrite !lookup_insert_ne by discriminate.
  intros H.
  destruct (normalize_standard (default VNone (h !! "standard"))) as [hstd|e];
    [|discriminate H].
  destruct (normalize_standard (default VNone (b !! "standard"))) as [bstd|e];
    [|discriminate H].
  destruct (normalize_seat_type (default VNone (h !! "seat_type"))) as [hseat|e];
    [|discriminate H].
  destruct (normalize_seat_type (default VNone (b !! "seat_type"))) as [bseat|e];
    [|discriminate H].
  destruct (determine_gender_heizmann float_repr h) as [hg|e]; [|discriminate H].
  cbn [bind] in *.
  destruct (criterion_angle _ _ _) as [a1|w]; [|injection H as <- _ _; eauto].
  destruct (criterion_series _ _ _) as [a2|w]; [|injection H as <- _ _; eauto].
  destruct (criterion_standard _ _ _) as [a3|w]; [|injection H as <- _ _; eauto].
  destruct (criterion_dn _ _ _) as [a4|e]; [|discriminate H].
  cbn [bind] in *. injection H as <- _ _.
  do 2 eexists. rewrite !add_warnings_points, !check_gender_points. reflexivity.
Qed.

Lemma series_score_ignores_gender_witness :
  exists rs' ws',
    calculate_match_score (fun _ => EmptyString) heizmann_iso_12
      (<["gender" := VStr "Male"]> balflex_iso_12) = Ok (60, rs', ws').
Proof.
  apply (series_score_ignores_gender (fun _ => EmptyString) heizmann_iso_12 balflex_iso_12
           (VStr "Male") 60 [Standard "ISO"; DN 12; Seat "24° Cone"] []).
  vm_compute. reflexivity.
Defined.

End SeriesFirstBest.

Section FittingsMatcher.
Import Py ImprovedFittings.

(** The compatibility check of two thread types, on the upper-cased
    texts (lines 145-166). *)
Lemma threads_compatible_of_texts bal heiz bt ht :
  get_or bal "thread_type" (VStr "") = VStr bt ->
  get_or heiz "thread_type" (VStr "") = VStr ht ->
  exists c, _threads_compatible bal heiz = Ok c.
Proof.
  intros Eb Eh. unfold _threads_compatible. rewrite Eb, Eh. cbn [v_upper bind].
  repeat match goal with
         | |- context [if ?c then _ else _] => destruct c
         end; eauto.
Qed.

Lemma score_reads_thread_texts bal heiz s :
  _calculate_score bal heiz = Ok s ->
  exists bt ht p1 p2,
    get_or bal "thread_type" (VStr "") = VStr bt /\
    get_or heiz "thread_type" (VStr "") = VStr ht /\
    0 <= p1 <= 60 /\ p2 = thread_points (upper bt) (upper ht) /\ s = p2 + p1.
Proof.
  unfold _calculate_score. intros H.
  destruct (get_or bal "thread_type" (VStr "")) as [|x|bt]; try discriminate H.
  destruct (get_or heiz "thread_type" (VStr "")) as [|x|ht]; try discriminate H.
  cbn [v_upper bind] in H. inv_ok.
  repeat match goal with
         | E : dash_points _ _ = Ok _ |- _ => apply dash_points_range in E
         | E : hose_points _ _ = Ok _ |- _ => apply hose_points_range in E
         end.
  match goal with |- context [category_points ?x ?y] =>
    pose proof (category_points_range x y) end.
  do 4 eexists. split; [reflexivity|]. split; [reflexivity|].
  split; [|split; [reflexivity|]].
  2:{ rewrite Z.add_0_l, <- !Z.add_assoc. reflexivity. }
  lia.
Qed.

Lemma score_then_compatible bal heiz s :
  _calculate_score bal heiz = Ok s -> exists c, _threads_compatible bal heiz = Ok c.
Proof.
  intros H. destruct (score_reads_thread_texts _ _ _ H) as (bt & ht & _ & _ & Eb & Eh & _).
  eapply threads_compatible_of_texts; eassumption.
Qed.

Lemma thread_points_then_compatible bal heiz bt ht :
  get_or bal "thread_type" (VStr "") = VStr bt ->
  get_or heiz "thread_type" (VStr "") = VStr ht ->
  0 < thread_points (upper bt) (upper ht) ->
  _threads_compatible bal heiz = Ok true.
Proof.
  intros Eb Eh P. unfold _threads_compatible. rewrite Eb, Eh. cbn [v_upper bind].
  unfold thread_points in P.
  destruct (nonempty (upper bt)); [|cbn in P; lia].
  destruct (nonempty (upper ht)); [|cbn in P; lia].
  cbn [negb orb andb] in *.
  destruct (String.eqb (upper bt) (upper ht)); [reflexivity|].
  destruct (contains "BSP" (upper bt) && contains "BSP" (upper ht))%bool; [reflexivity|].
  destruct (contains "ORFS" (upper bt)) eqn:O1; cbn [andb] in *.
  - destruct (contains "ORFS" (upper ht)); [reflexivity|]. cbn [orb].
    destruct (contains "UNF" (upper ht)); [reflexivity|].
    destruct (contains "JIC" (upper bt) && contains "JIC" (upper ht))%bool; [reflexivity|].
    destruct (contains "METRIC" (upper bt) && contains "METRIC" (upper ht))%bool;
      [reflexivity|].
    destruct (contains "SCHNEIDRING" (upper bt) && contains "SCHNEIDRING" (upper ht))%bool;
      [reflexivity|].
    destruct (contains "NPT" (upper bt) && contains "NPT" (upper ht))%bool; [reflexivity|lia].
  - destruct (contains "JIC" (upper bt) && contains "JIC" (upper ht))%bool; [reflexivity|].
    destruct (contains "METRIC" (upper bt) && contains "METRIC" (upper ht))%bool;
      [reflexivity|].
    destruct (contains "SCHNEIDRING" (upper bt) && contains "SCHNEIDRING" (upper ht))%bool;
      [reflexivity|].
    destruct (contains "NPT" (upper bt) && contains "NPT" (upper ht))%bool; [reflexivity|lia].
Qed.

(** X10: A score above 60 holds thread points, and thread points are given to
    compatible threads only: a pair of fittings that scores more than 60
    passes the thread compatibility check, so the check can only exclude
    candidates that score 55 to 60. *)
Theorem high_score_is_thread_compatible bal heiz s :
  _calculate_score bal heiz = Ok s -> 60 < s ->
  _threads_compatible bal heiz = Ok true.
Proof.
  intros H L.
  destruct (score_reads_thread_texts _ _ _ H) as (bt & ht & p1 & p2 & Eb & Eh & B & -> & ->).
  eapply thread_points_then_compatible; try eassumption. lia.
Qed.

Lemma high_score_is_thread_compatible_witness :
  _threads_compatible bal_bsp_8 heiz_bsp_8 = Ok true.
Proof.
  apply (high_score_is_thread_compatible bal_bsp_8 heiz_bsp_8 100);
    [vm_compute; reflexivity | lia].
Defined.

(** The state of the scan after the candidates [seen]: without a best
    match no candidate seen was eligible; with one, it is the first of
    the eligible candidates seen with the highest score. *)
Definition fittings_first_best (bal : gmap string value)
  (seen : list (gmap string value)) (st : best) : Prop :=
  match best_match st with
  | None =>
      best_score st = 0 /\
      forall h', In h' seen ->
        exists s c, _calculate_score bal h' = Ok s /\ _threads_compatible bal h' = Ok c /\
                    (s < 55 \/ c = false)
  | Some h =>
      55 <= best_score st <= 100 /\ dict_truthy h = true /\
      exists before after,
        seen = (before ++ h :: after)%list /\
        _calculate_score bal h = Ok (best_score st) /\
        _threads_compatible bal h = Ok true /\
        (forall h', In h' before ->
           exists s c, _calculate_score bal h' = Ok s /\ _threads_compatible bal h' = Ok c /\
                       (s < best_score st \/ c = false)) /\
        (forall h', In h' after ->
           exists s c, _calculate_score bal h' = Ok s /\ _threads_compatible bal h' = Ok c /\
                       (s <= best_score st \/ c = false))
  end.

Lemma compatible_is_not_empty bal : _threads_compatible bal ∅ = Ok true -> False.
Proof.
  intros H. apply (threads_absent_incompatible bal ∅ true) in H; [discriminate|].
  right. reflexivity.
Qed.

Lemma fittings_scan_first_best bal hs :
  forall seen st st',
    fittings_first_best bal seen st ->
    scan bal hs st = Ok st' ->
    fittings_first_best bal (seen ++ hs) st'.
Proof.
  induction hs as [|h hs IH]; intros seen st st' I H.
  - simpl in H. injection H as <-. rewrite app_nil_r. exact I.
  - simpl in H. apply bind_Ok in H. destruct H as (s & C & H).
    apply bind_Ok in H. destruct H as (st1 & E & H).
    pose proof (improved_score_bounded _ _ _ C) as B.
    destruct (score_then_compatible _ _ _ C) as [c T].
    replace (seen ++ h :: hs)%list with ((seen ++ [h]) ++ hs)%list
      by (rewrite <- app_assoc; reflexivity).
    refine (IH _ _ _ _ H). clear IH H.
    assert (N : 0 <= best_score st).
    { unfold fittings_first_best in I. destruct (best_match st); [|destruct I; lia].
      destruct I as (? & _). lia. }
    rewrite T in E. cbn [bind] in E.
    destruct ((best_score st <? s) && (55 <=? s))%bool eqn:Cond.
    + apply andb_true_iff in Cond as [C1 C2].
      apply Z.ltb_lt in C1. apply Z.leb_le in C2.
      destruct c.
      * injection E as <-. unfold fittings_first_best in *.
        cbn [best_match best_score].
        split; [lia|]. split.
        { destruct (dict_truthy h) eqn:D; [reflexivity|].
          apply dict_truthy_false in D. subst h.
          exfalso. eapply compatible_is_not_empty, T. }
        exists seen, []. split; [reflexivity|]. split; [exact C|]. split; [exact T|].
        split; [|intros h' []].
        intros h' Hin.
        destruct (best_match st) as [h0|].
        -- destruct I as (P0 & _ & before & after & -> & C0 & T0 & Bf & Af).
           apply in_app_or in Hin. destruct Hin as [Hin | [<- | Hin]].
           ++ destruct (Bf _ Hin) as (s' & c' & C' & T' & L').
              exists s', c'. split; [exact C'|]. split; [exact T'|].
              destruct L'; [left; lia | right; assumption].
           ++ exists (best_score st), true. split; [exact C0|]. split; [exact T0|]. left; lia.
           ++ destruct (Af _ Hin) as (s' & c' & C' & T' & L').
              exists s', c'. split; [exact C'|]. split; [exact T'|].
              destruct L'; [left; lia | right; assumption].
        -- destruct I as (E0 & Z0). destruct (Z0 _ Hin) as (s' & c' & C' & T' & L').
           exists s', c'. split; [exact C'|]. split; [exact T'|].
           destruct L'; [left; lia | right; assumption].
      * injection E as <-. unfold fittings_first_best in *.
        destruct (best_match st) as [h0|].
        -- destruct I as (P0 & D0 & before & after & -> & C0 & T0 & Bf & Af).
           split; [exact P0|]. split; [exact D0|].
           exists before, (after ++ [h])%list. split.
           { rewrite <- app_assoc. reflexivity. }
           split; [exact C0|]. split; [exact T0|]. split; [exact Bf|].
           intros h' Hin. apply in_app_or in Hin. destruct Hin as [Hin | [<- | []]].
           ++ apply Af, Hin.
           ++ exists s, false. auto.
        -- destruct I as (E0 & Z0). split; [exact E0|].
           intros h' Hin. apply in_app_or in Hin. destruct Hin as [Hin | [<- | []]].
           ++ apply Z0, Hin.
           ++ exists s, false. auto.
    + injection E as <-. unfold fittings_first_best in *.
      destruct (best_match st) as [h0|].
      * destruct I as (P0 & D0 & before & after & -> & C0 & T0 & Bf & Af).
        split; [exact P0|]. split; [exact D0|].
        exists before, (after ++ [h])%list. split.
        { rewrite <- app_assoc. reflexivity. }
        split; [exact C0|]. split; [exact T0|]. split; [exact Bf|].
        intros h' Hin. apply in_app_or in Hin. destruct Hin as [Hin | [<- | []]].
        -- apply Af, Hin.
        -- exists s, c. split; [exact C|]. split; [exact T|]. left.
           apply andb_false_iff in Cond as [C1 | C2].
           ++ apply Z.ltb_ge in C1. exact C1.
           ++ apply Z.leb_gt in C2. lia.
      * destruct I as (E0 & Z0). split; [exact E0|].
        intros h' Hin. apply in_app_or in Hin. destruct Hin as [Hin | [<- | []]].
        -- apply Z0, Hin.
        -- exists s, c. split; [exact C|]. split; [exact T|]. left.
           apply andb_false_iff in Cond as [C1 | C2].
           ++ apply Z.ltb_ge in C1. lia.
           ++ apply Z.leb_gt in C2. exact C2.
Qed.

Lemma fittings_first_best_initial bal : fittings_first_best bal [] (Best None 0).
Proof. split; [reflexivity | intros h' []]. Qed.

Lemma fittings_match_one_spec bal valid ms :
  match_one bal valid = Ok ms ->
  (ms = [] /\
   forall h, In h valid ->
     exists s c, _calculate_score bal h = Ok s /\ _threads_compatible bal h = Ok c /\
                 (s < 55 \/ c = false))
  \/
  (exists before h after s,
      valid = (before ++ h :: after)%list /\
      ms = [MatchEntry bal h s] /\
      _calculate_score bal h = Ok s /\ 55 <= s <= 100 /\
      _threads_compatible bal h = Ok true /\
      (forall h', In h' before ->
         exists s' c, _calculate_score bal h' = Ok s' /\ _threads_compatible bal h' = Ok c /\
                      (s' < s \/ c = false)) /\
      (forall h', In h' after ->
         exists s' c, _calculate_score bal h' = Ok s' /\ _threads_compatible bal h' = Ok c /\
                      (s' <= s \/ c = false))).
Proof.
  unfold match_one. intros H. apply bind_Ok in H. destruct H as (st & S & H).
  apply (fittings_scan_first_best bal valid [] _ _ (fittings_first_best_initial bal)) in S.
  simpl in S. unfold fittings_first_best in S.
  destruct (best_match st) as [h|].
  - destruct S as (P & D & before & after & -> & C & T & Bf & Af).
    rewrite D in H. injection H as <-. right.
    exists before, h, after, (best_score st). auto 10.
  - injection H as <-. left. split; [reflexivity | apply S].
Qed.

(** X11: For one Balflex fitting the improved matcher, when nothing raises,
    returns no entry or one.  With no entry every valid candidate scores
    below 55 or has incompatible threads.  With an entry, it holds the
    first candidate with the highest score among those with compatible
    threads: the score is between 55 and 100, and every other candidate
    has incompatible threads or scores less (strictly less before it, at
    most as much after it). *)
Theorem fittings_match_is_the_first_best bal valid ms :
  match_one bal valid = Ok ms ->
  (ms = [] /\
   forall h, In h valid ->
     exists s c, _calculate_score bal h = Ok s /\ _threads_compatible bal h = Ok c /\
                 (s < 55 \/ c = false))
  \/
  (exists before h after s,
      valid = (before ++ h :: after)%list /\
      ms = [MatchEntry bal h s] /\
      _calculate_score bal h = Ok s /\ 55 <= s <= 100 /\
      _threads_compatible bal h = Ok true /\
      (forall h', In h' before ->
         exists s' c, _calculate_score bal h' = Ok s' /\ _threads_compatible bal h' = Ok c /\
                      (s' < s \/ c = false)) /\
      (forall h', In h' after ->
         exists s' c, _calculate_score bal h' = Ok s' /\ _threads_compatible bal h' = Ok c /\
                      (s' <= s \/ c = false))).
Proof. exact (fittings_match_one_spec bal valid ms). Qed.

(** A candidate that is passed over for its thread type, then two equal
    candidates. *)
Definition heiz_unf_8 : gmap string value :=
  <["thread_type" := VStr "UNF"]> (<["size" := VStr "8"]>
  (<["category" := VStr "Press"]> (<["DN" := VStr "DN12"]> ∅))).

Definition heiz_bsp_8_again : gmap string value :=
  <["article_number" := VStr "2"]> heiz_bsp_8.

Definition fittings_candidates : list (gmap string value) :=
  [heiz_unf_8; heiz_bsp_8; heiz_bsp_8_again].

Lemma fittings_match_is_the_first_best_witness :
  ([MatchEntry bal_bsp_8 heiz_bsp_8 100] = [] /\
   forall h, In h fittings_candidates ->
     exists s c, _calculate_score bal_bsp_8 h = Ok s /\
                 _threads_compatible bal_bsp_8 h = Ok c /\
                 (s < 55 \/ c = false))
  \/
  (exists before h after s,
      fittings_candidates = (before ++ h :: after)%list /\
      [MatchEntry bal_bsp_8 heiz_bsp_8 100] = [MatchEntry bal_bsp_8 h s] /\
      _calculate_score bal_bsp_8 h = Ok s /\ 55 <= s <= 100 /\
      _threads_compatible bal_bsp_8 h = Ok true /\
      (forall h', In h' before ->
         exists s' c, _calculate_score bal_bsp_8 h' = Ok s' /\
                      _threads_compatible bal_bsp_8 h' = Ok c /\
                      (s' < s \/ c = false)) /\
      (forall h', In h' after ->
         exists s' c, _calculate_score bal_bsp_8 h' = Ok s' /\
                      _threads_compatible bal_bsp_8 h' = Ok c /\
                      (s' <= s \/ c = false))).
Proof.
  apply fittings_match_is_the_first_best. vm_compute. reflexivity.
Defined.

Lemma filter_valid_In h heizs :
  In h (List.filter is_valid heizs) -> In h heizs /\ is_valid h = true.
Proof. apply filter_In. Qed.

(** What every entry of the result holds. *)
Definition sound_entry (bals heizs : list (gmap string value)) (m : match_entry) : Prop :=
  In (entry_balflex m) bals /\ In (entry_heizmann m) heizs /\
  is_valid (entry_heizmann m) = true /\
  _calculate_score (entry_balflex m) (entry_heizmann m) = Ok (match_score m) /\
  55 <= match_score m <= 100 /\
  _threads_compatible (entry_balflex m) (entry_heizmann m) = Ok true.

Lemma match_all_sound heizs valid :
  (forall h, In h valid -> In h heizs /\ is_valid h = true) ->
  forall bals ms,
    match_all bals valid = Ok ms ->
    (length ms <= length bals)%nat /\ Forall (sound_entry bals heizs) ms.
Proof.
  intros V. induction bals as [|bal bals IH]; intros ms H; simpl in H.
  - injection H as <-. split; [simpl; lia | constructor].
  - apply bind_Ok in H. destruct H as (ms1 & M & H).
    apply bind_Ok in H. destruct H as (ms2 & R & H). injection H as <-.
    destruct (IH _ R) as (L2 & F2).
    assert (F2' : Forall (sound_entry (bal :: bals) heizs) ms2).
    { eapply Forall_impl; [exact F2|].
      intros m (A1 & A2). split; [right; exact A1 | exact A2]. }
    destruct (fittings_match_one_spec _ _ _ M)
      as [[-> _] | (before & h & after & s & -> & -> & C & B & T & _)].
    + split; [simpl; lia | exact F2'].
    + split; [simpl; lia|]. constructor; [|exact F2'].
      destruct (V h) as [I1 I2]; [apply in_or_app; right; left; reflexivity|].
      unfold sound_entry. cbn [entry_balflex entry_heizmann match_score].
      split; [left; reflexivity|]. auto.
Qed.

(** X12: The improved matcher returns at most one entry for each Balflex
    fitting, and every entry pairs a fitting of the Balflex list with a
    valid fitting of the Heizmann list, with the score of the pair, which
    is between 55 and 100, and with compatible threads. *)
Theorem fittings_matches_are_sound bals heizs ms :
  match_ bals heizs = Ok ms ->
  (length ms <= length bals)%nat /\ Forall (sound_entry bals heizs) ms.
Proof.
  unfold match_. apply match_all_sound. intros h. apply filter_valid_In.
Qed.

Lemma fittings_matches_are_sound_witness :
  (length [MatchEntry bal_bsp_8 heiz_bsp_8 100] <= length [bal_no_thread; bal_bsp_8])%nat /\
  Forall (sound_entry [bal_no_thread; bal_bsp_8] fittings_candidates)
         [MatchEntry bal_bsp_8 heiz_bsp_8 100].
Proof.
  apply fittings_matches_are_sound. vm_compute. reflexivity.
Defined.

End FittingsMatcher.

Section FittingsReport.
Import Py ImprovedFittings.

Lemma count_scores_cons p m ms :
  count_scores p (m :: ms) = (if p (match_score m) then 1 else 0) + count_scores p ms.
Proof.
  unfold count_scores. simpl. destruct (p (match_score m)); simpl; lia.
Qed.

(** Every score from 55 up is in one of the three classes of the report. *)
Lemma report_classes ms :
  Forall (fun m => 55 <= match_score m) ms ->
  count_scores (fun s => 80 <=? s) ms
  + count_scores (fun s => (60 <=? s) && (s <? 80))%bool ms
  + count_scores (fun s => (45 <=? s) && (s <? 60))%bool ms
  = Z.of_nat (List.length ms).
Proof.
  induction 1 as [|m ms L _ IH]; [reflexivity|].
  rewrite !count_scores_cons. cbn [List.length]. rewrite Nat2Z.inj_succ.
  destruct (80 <=? match_score m) eqn:A, (60 <=? match_score m) eqn:B,
    (match_score m <? 80) eqn:C, (45 <=? match_score m) eqn:D,
    (match_score m <? 60) eqn:E; cbn [andb]; lia.
Qed.

Lemma report_returns m ms :
  exists avg_score,
    report (m :: ms)
    = Ok (avg_score,
          count_scores (fun s => 80 <=? s) (m :: ms),
          count_scores (fun s => (60 <=? s) && (s <? 80))%bool (m :: ms),
          count_scores (fun s => (45 <=? s) && (s <? 60))%bool (m :: ms)).
Proof.
  unfold report. cbv zeta.
  assert (N : Z.of_nat (List.length (m :: ms)) <> 0) by (simpl; lia).
  unfold ProductMatcher.int_truediv.
  destruct (Z.of_nat (List.length (m :: ms)) =? 0) eqn:E;
    [apply Z.eqb_eq in E; contradiction|].
  cbn [bind]. eauto.
Qed.

(** X13: The report of the improved matching script over the entries of the
    matcher: on no entry the average is 0 and the first percentage raises
    ZeroDivisionError; otherwise the report is computed and its three
    classes (excellent, good, fair) count every entry exactly once. *)
Theorem report_counts_every_match bals heizs ms :
  match_ bals heizs = Ok ms ->
  match ms with
  | [] => report ms = Raise ZeroDivisionError
  | _ :: _ =>
      exists avg_score excellent good fair,
        report ms = Ok (avg_score, excellent, good, fair) /\
        excellent + good + fair = Z.of_nat (List.length ms)
  end.
Proof.
  intros H. destruct ms as [|m ms]; [reflexivity|].
  destruct (report_returns m ms) as [avg E].
  do 4 eexists. split; [exact E|].
  apply report_classes.
  unfold match_ in H. apply match_all_sound with (heizs := heizs) in H.
  - destruct H as [_ F]. eapply Forall_impl; [exact F|].
    intros x (_ & _ & _ & _ & B & _). lia.
  - intros h. apply filter_valid_In.
Qed.

Lemma report_counts_every_match_witness :
  exists avg_score excellent good fair,
    report [MatchEntry bal_bsp_8 heiz_bsp_8 100] = Ok (avg_score, excellent, good, fair) /\
    excellent + good + fair = 1.
Proof.
  apply (report_counts_every_match [bal_bsp_8] [heiz_bsp_8] [MatchEntry bal_bsp_8 heiz_bsp_8 100]).
  vm_compute. reflexivity.
Defined.

End FittingsReport.

Section ExtractFloat.
Import Py BalflexPDF.

Lemma comma_to_point_digit c : is_digit (subst_char "," "." c) = is_digit c.
Proof. destruct c as [[] [] [] [] [] [] [] []]; reflexivity. Qed.

Lemma number_text_digits s :
  str_exists is_digit (replace "," "." (strip s)) = str_exists is_digit s.
Proof.
  rewrite replace_char, str_exists_map_chars by apply comma_to_point_digit.
  apply str_exists_strip, space_not_digit.
Qed.

Lemma re_number_at_digit c rest :
  is_digit c = true -> exists ls, match_here false re_number (String c rest) = Some ls.
Proof.
  intros D. unfold re_number.
  destruct (match_here_optional false [opt (Lit "."); star Digit]
              ltac:(repeat constructor)
              (drop (span (cls_match false Digit) None (String c rest)) (String c rest)))
    as [ls M].
  eexists. apply (match_here_greedy false (plus Digit)); [|exact M].
  cbn [a_min a_max a_cls plus span cls_match]. rewrite D. lia.
Qed.

Lemma take_one_literal x v k :
  (k <= 1)%nat -> (k <= String.length v)%nat ->
  str_forall (cls_match false (Lit x)) (take k v) = true ->
  take k v = "" \/ take k v = String x "".
Proof.
  intros K L F. destruct k as [|[|k]]; [left; destruct v; reflexivity | | lia].
  destruct v as [|c v]; [simpl in L; lia|]. right.
  simpl in *. destruct v; apply andb_prop in F; destruct F as [F _];
    apply Ascii.eqb_eq in F; subst; reflexivity.
Qed.

(** The text of a match of the number pattern: digits, an optional point
    and digits. *)
Lemma re_number_group t m :
  search re_number t = Some m ->
  exists d1 dot d3,
    group_span 0 3 m = d1 ++ dot ++ d3 /\
    isdigit d1 = true /\ (dot = "" \/ dot = ".") /\ all_digits d3 = true.
Proof.
  intros M.
  destruct (search_from_sound false re_number t t 0 m eq_refl M) as (Es & _ & Mh & _).
  apply match_here_sound in Mh.
  pose proof (segments_length _ _ _ _ Mh) as Len.
  destruct m as [subj start lens]. cbn [m_subject m_start m_lens] in *. subst subj.
  destruct lens as [|k1 [|k2 [|k3 [|]]]]; try discriminate Len.
  set (u := drop start t) in *.
  destruct Mh as (L1 & B1 & _ & F1 & (_ & B2 & C2 & F2 & (_ & B3 & _ & F3 & _))).
  cbn [a_min a_max a_cls plus opt star] in *.
  exists (take k1 u), (take k2 (drop k1 u)), (take k3 (drop k2 (drop k1 u))).
  split.
  { unfold group_span. cbn [m_lens m_start m_subject firstn skipn sum_nat fold_right Nat.sub].
    rewrite !Nat.add_0_r. fold u. rewrite !str_take_add. reflexivity. }
  split.
  { unfold isdigit. rewrite all_digits_forall. apply andb_true_intro. split; [|exact F1].
    apply nonempty_length. rewrite str_length_take; lia. }
  split.
  { apply take_one_literal; [apply C2; reflexivity | exact B2 | exact F2]. }
  rewrite all_digits_forall. exact F3.
Qed.

(** X14: [_extract_float] never raises and gives a number exactly when the
    cell holds a digit: a missing cell and a text without a digit give
    None, a text with a digit gives a number. *)
Theorem extract_float_reads_the_first_number :
  _extract_float None = Ok None /\
  (forall s, str_exists is_digit s = false -> _extract_float (Some s) = Ok None) /\
  (forall s, str_exists is_digit s = true ->
             exists x, _extract_float (Some s) = Ok (Some x)).
Proof.
  split; [reflexivity|]. split.
  - intros s N. unfold _extract_float.
    destruct (search re_number (replace "," "." (strip s))) as [m|] eqn:M; [|reflexivity].
    exfalso. destruct (re_number_group _ _ M) as (d1 & dot & d3 & _ & D1 & _).
    destruct (search_from_sound false re_number _ _ 0 m eq_refl M) as (Es & _ & Mh & _).
    apply match_here_sound in Mh.
    destruct (m_lens m) as [|k1 ls]; [exact Mh|].
    destruct Mh as (L1 & B1 & _ & F1 & _). cbn [a_min a_cls plus] in *.
    assert (E : str_exists is_digit (replace "," "." (strip s)) = true).
    { eapply str_exists_drop, str_exists_take, str_forall_exists; [exact F1|].
      apply nonempty_length. rewrite str_length_take; lia. }
    rewrite number_text_digits in E. congruence.
  - intros s E. unfold _extract_float.
    rewrite <- number_text_digits in E.
    destruct (str_exists_first _ _ E) as (i & c & rest & D & Dc).
    destruct (re_number_at_digit c rest Dc) as [ls Mh]. rewrite <- D in Mh.
    destruct (search_some false re_number _ i ls Mh) as [m M].
    fold (search re_number (replace "," "." (strip s))) in M. rewrite M.
    destruct (re_number_group _ _ M) as (d1 & dot & d3 & -> & D1 & Dot & D3).
    destruct (py_float_number d1 dot d3 D1 Dot D3) as [x ->].
    exists x. reflexivity.
Qed.

Lemma extract_float_reads_the_first_number_witness :
  _extract_float (Some "n/a") = Ok None /\
  exists x, _extract_float (Some "ca. -17,4 mm") = Ok (Some x).
Proof.
  split.
  - apply (proj1 (proj2 extract_float_reads_the_first_number)). reflexivity.
  - apply (proj2 (proj2 extract_float_reads_the_first_number)). reflexivity.
Defined.

End ExtractFloat.

Section DigitStrings.
Import Py.

Lemma digit_plain c :
  is_digit c = true ->
  is_space c = false /\ Ascii.eqb c "_" = false /\ Ascii.eqb " " c = false /\
  Ascii.eqb "D" c = false /\ Ascii.eqb "-" c = false.
Proof.
  destruct c as [[] [] [] [] [] [] [] []]; intros H; try discriminate H;
    repeat split; reflexivity.
Qed.

(** Nothing is replaced in a text where the old text starts nowhere. *)
Lemma replace_aux_absent old_c old_s new s :
  str_forall (fun c => negb (Ascii.eqb old_c c)) s = true ->
  forall fuel, replace_aux fuel (String old_c old_s) new s = s.
Proof.
  induction s as [|c s IH]; intros H fuel; [destruct fuel; reflexivity|].
  simpl in H. apply andb_prop in H. destruct H as [H1 H2]. apply negb_true_iff in H1.
  destruct fuel as [|fuel]; [reflexivity|].
  cbn [replace_aux starts_with]. rewrite H1. cbn [andb]. rewrite (IH H2). reflexivity.
Qed.

Lemma replace_absent old_c old_s new s :
  str_forall (fun c => negb (Ascii.eqb old_c c)) s = true ->
  replace (String old_c old_s) new s = s.
Proof. intros H. apply replace_aux_absent, H. Qed.

Lemma digits_no_space ds :
  all_digits ds = true -> str_forall (fun c => negb (is_space c)) ds = true.
Proof.
  rewrite all_digits_forall. apply str_forall_impl.
  intros c H. apply digit_plain in H. destruct H as (-> & _). reflexivity.
Qed.

Lemma digits_no_char x ds :
  (forall c, is_digit c = true -> Ascii.eqb x c = false) ->
  all_digits ds = true -> str_forall (fun c => negb (Ascii.eqb x c)) ds = true.
Proof.
  intros E. rewrite all_digits_forall. apply str_forall_impl.
  intros c H. rewrite (E c H). reflexivity.
Qed.


End DigitStrings.

Section DashCodes.
Import Py FixHoseSizes.

Lemma dash_match ds :
  isdigit ds = true ->
  search re_dash ("-" ++ ds) = Some (RMatch ("-" ++ ds) 0 [1; 0; String.length ds]%nat).
Proof.
  intros D. unfold isdigit in D. apply andb_prop in D. destruct D as [N A].
  unfold search. apply search_from_head. unfold re_dash.
  destruct ds as [|d ds']; [discriminate N|].
  assert (Hd : is_digit d = true) by (simpl in A; apply andb_prop in A; apply A).
  destruct (digit_plain d Hd) as (Sp & _).
  assert (S3 : span (cls_match false Digit) None (String d ds') = String.length (String d ds')).
  { rewrite <- (str_app_empty_r (String d ds')) at 1.
    apply span_all; [rewrite <- all_digits_forall; exact A | exact I]. }
  pose proof (match_here_greedy false (plus Digit) [] (String d ds') []) as G3.
  cbn [a_cls a_max a_min plus] in G3. rewrite S3 in G3.
  specialize (G3 ltac:(simpl; lia) eq_refl).
  pose proof (match_here_greedy false (star Space) [plus Digit] (String d ds')
                [String.length (String d ds')]) as G2.
  cbn [a_cls a_max a_min star span cls_match] in G2. rewrite Sp in G2.
  specialize (G2 ltac:(lia) G3).
  pose proof (match_here_greedy false (opt (Lit "-")) [star Space; plus Digit]
                ("-" ++ String d ds') [0%nat; String.length (String d ds')]) as G1.
  cbn [a_cls a_max a_min opt] in G1.
  change (span (cls_match false (Lit "-")) (Some 1%nat) ("-" ++ String d ds')) with 1%nat in G1.
  apply G1; [lia | exact G2].
Qed.

(** X15: A dash code that [normalize_dash_code] returns is a dash followed by
    digits, and normalising it again returns it unchanged. *)
Theorem normalize_dash_code_is_idempotent d r :
  normalize_dash_code d = Ok (Some r) ->
  (exists ds, isdigit ds = true /\ r = "-" ++ ds) /\
  normalize_dash_code (Some r) = Ok (Some r).
Proof.
  intros H. unfold normalize_dash_code in H.
  destruct d as [s|]; [|discriminate H].
  destruct (nonempty s); cbn [negb] in H; [|discriminate H].
  destruct (search re_dash (replace " " "" (strip s))) as [m|] eqn:M; [|discriminate H].
  injection H as <-.
  destruct (search_from_sound false re_dash _ _ 0 m eq_refl M) as (Es & _ & Mh & _).
  apply match_here_sound in Mh.
  pose proof (segments_length _ _ _ _ Mh) as Len.
  destruct m as [subj start lens]. cbn [m_subject m_start m_lens] in *. subst subj.
  destruct lens as [|k1 [|k2 [|k3 [|]]]]; try discriminate Len.
  set (t := replace " " "" (strip s)) in *.
  destruct Mh as (_ & _ & _ & _ & (_ & _ & _ & _ & (L3 & B3 & _ & F3 & _))).
  cbn [a_min a_cls plus] in *.
  set (u := drop k2 (drop k1 (drop start t))) in *.
  assert (G : group_span 2 3 (RMatch t start [k1; k2; k3]) = take k3 u).
  { unfold group_span. cbn [m_lens m_start m_subject firstn skipn sum_nat fold_right Nat.sub].
    rewrite !Nat.add_0_r. unfold u. rewrite !str_drop_drop.
    rewrite Nat.add_assoc. reflexivity. }
  rewrite G.
  assert (D : isdigit (take k3 u) = true).
  { unfold isdigit. rewrite all_digits_forall. apply andb_true_intro. split; [|exact F3].
    apply nonempty_length. rewrite str_length_take; lia. }
  split; [exists (take k3 u); auto|].
  set (ds := take k3 u) in *.
  unfold normalize_dash_code. cbn [nonempty String.eqb negb].
  assert (A : all_digits ds = true) by (unfold isdigit in D; apply andb_prop in D; apply D).
  assert (S1 : strip ("-" ++ ds) = "-" ++ ds).
  { apply strip_no_space. change ("-" ++ ds) with (String "-" ds). simpl.
    apply digits_no_space, A. }
  assert (S2 : replace " " "" ("-" ++ ds) = "-" ++ ds).
  { apply replace_absent. change ("-" ++ ds) with (String "-" ds).
    cbn [str_forall]. apply andb_true_intro. split; [reflexivity|].
    apply digits_no_char; [|exact A].
    intros c H. apply digit_plain in H. destruct H as (_ & _ & -> & _). reflexivity. }
  change (String.append "-" ds) with ("-" ++ ds).
  rewrite S1, S2, (dash_match ds D).
  unfold group_span. cbn [m_lens m_start m_subject firstn skipn sum_nat fold_right Nat.sub].
  rewrite Nat.add_0_r. cbn [Nat.add drop].
  change ("-" ++ ds) with (String "-" ds). cbn [drop].
  replace (take (String.length ds) ds) with ds
    by (rewrite <- (str_app_empty_r ds) at 3; rewrite str_take_app; reflexivity).
  reflexivity.
Qed.

Lemma normalize_dash_code_is_idempotent_witness :
  (exists ds, isdigit ds = true /\ "-10" = "-" ++ ds) /\
  normalize_dash_code (Some "-10") = Ok (Some "-10").
Proof.
  apply (normalize_dash_code_is_idempotent (Some " Dash 10 / 5")).
  vm_compute. reflexivity.
Defined.

End DashCodes.

Section ExtractedProducts.
Import Py BalflexPDF.

(** The DN text of a cell: "DN" and digits. *)
Lemma dn_of_format s dn :
  dn_of s = Some dn -> exists ds, isdigit ds = true /\ dn = "DN" ++ ds.
Proof.
  unfold dn_of. destruct (nonempty s); [|discriminate].
  destruct (search re_dn (upper s)) as [m|] eqn:M.
  - intros H. injection H as <-.
    destruct (search_from_sound false re_dn _ _ 0 m eq_refl M) as (Es & _ & Mh & _).
    apply match_here_sound in Mh.
    pose proof (segments_length _ _ _ _ Mh) as Len.
    destruct m as [subj start lens]. cbn [m_subject m_start m_lens] in *. subst subj.
    destruct lens as [|k1 [|k2 [|k3 [|k4 [|]]]]]; try discriminate Len.
    destruct Mh as (_ & _ & _ & _ & (_ & _ & _ & _ & (_ & _ & _ & _ & (L4 & B4 & _ & F4 & _)))).
    cbn [a_min a_cls plus] in *.
    eexists. split; [|reflexivity].
    unfold group_span. cbn [m_lens m_start m_subject firstn skipn sum_nat fold_right Nat.sub].
    rewrite !Nat.add_0_r.
    match type of F4 with
    | str_forall _ (take k4 ?u) = true =>
        replace (drop _ (upper s)) with u
          by (rewrite !str_drop_drop; f_equal; lia)
    end.
    unfold isdigit. rewrite all_digits_forall. apply andb_true_intro. split; [|exact F4].
    apply nonempty_length. rewrite str_length_take; lia.
  - destruct (isdigit s) eqn:D; [|discriminate].
    intros H. injection H as <-. eauto.
Qed.

Lemma number_step_frame k (c : option cell) (p p' : gmap string value) :
  match c with
  | Some c => bind (_extract_float c) (fun x => Ok (set_number k x p))
  | None => Ok p
  end = Ok p' ->
  forall k', k <> k' -> p' !! k' = p !! k'.
Proof.
  intros H k' N. destruct c as [c|].
  - apply bind_Ok in H. destruct H as (x & _ & H). injection H as <-.
    apply lookup_set_number_ne, N.
  - injection H as <-. reflexivity.
Qed.

Lemma pressure_step_frame (c : option cell) (p p' : gmap string value) :
  match c with
  | Some c =>
      bind (first_number_text (cell_str c))
        (fun text => bind (_extract_float (Some text))
                       (fun wp => Ok (set_number "working_pressure_mpa" wp p)))
  | None => Ok p
  end = Ok p' ->
  forall k', "working_pressure_mpa" <> k' -> p' !! k' = p !! k'.
Proof.
  intros H k' N. destruct c as [c|].
  - apply bind_Ok in H. destruct H as (t & _ & H).
    apply bind_Ok in H. destruct H as (x & _ & H). injection H as <-.
    apply lookup_set_number_ne, N.
  - injection H as <-. reflexivity.
Qed.

Lemma text_step_frame k (c : option cell) (p : gmap string value) k' :
  k <> k' ->
  match c with
  | Some c => set_text k (_clean_cell c) p
  | None => p
  end !! k' = p !! k'.
Proof. intros N. destruct c; [apply lookup_set_text_ne, N | reflexivity]. Qed.

Lemma dn_step_frame (c : option cell) (p : gmap string value) k' :
  "dn" <> k' ->
  match c with
  | Some c => match dn_of (_clean_cell c) with
              | Some dn => <["dn" := VStr dn]> p
              | None => p
              end
  | None => p
  end !! k' = p !! k'.
Proof.
  intros N. destruct c as [c|]; [|reflexivity].
  destruct (dn_of (_clean_cell c)); [apply lookup_insert_ne, N | reflexivity].
Qed.

Lemma dn_step_dn (c : option cell) (p : gmap string value) v :
  p !! "dn" = None ->
  match c with
  | Some c => match dn_of (_clean_cell c) with
              | Some dn => <["dn" := VStr dn]> p
              | None => p
              end
  | None => p
  end !! "dn" = Some v ->
  exists ds, isdigit ds = true /\ v = VStr ("DN" ++ ds).
Proof.
  intros E. destruct c as [c|]; [|congruence].
  destruct (dn_of (_clean_cell c)) as [dn|] eqn:D; [|congruence].
  rewrite lookup_insert_eq. intros H. injection H as <-.
  destruct (dn_of_format _ _ D) as (ds & Hd & ->). eauto.
Qed.

Lemma text_step_value k (c : option cell) (p : gmap string value) v :
  p !! k = None ->
  match c with
  | Some c => set_text k (_clean_cell c) p
  | None => p
  end !! k = Some v ->
  exists a, nonempty a = true /\ v = VStr a.
Proof.
  intros E. destruct c as [c|]; [|congruence].
  rewrite (lookup_set_text_eq _ _ _ E).
  destruct (nonempty (_clean_cell c)) eqn:N; [|discriminate].
  intros H. injection H as <-. eauto.
Qed.

(** What every product of the row extractor holds. *)
Definition well_formed_product (model_name standard : string)
  (product : gmap string value) : Prop :=
  product !! "supplier" = Some (VStr "Balflex") /\
  product !! "model" = Some (VStr model_name) /\
  product !! "construction" = Some (VStr (_determine_construction model_name standard)) /\
  product !! "standard" = (if nonempty standard then Some (VStr standard) else None) /\
  (exists ds, isdigit ds = true /\ product !! "dn" = Some (VStr ("DN" ++ ds))) /\
  (exists a, nonempty a = true /\ product !! "article_number" = Some (VStr a)).

Lemma extracted_product_is_well_formed row model_name standard product :
  _extract_product_from_row row (_find_column_indices []) model_name standard
  = Ok (Some product) ->
  well_formed_product model_name standard product.
Proof.
  unfold _extract_product_from_row.
  destruct (Nat.ltb (List.length row) 8); [discriminate|].
  cbv zeta.
  set (cols := _find_column_indices []).
  set (p0 := <["model" := VStr model_name]> (<["supplier" := VStr "Balflex"]> ∅)
       : gmap string value).
  set (p1 := match column cols "reference" row with
             | Some c => set_text "reference" (_clean_cell c) p0 | None => p0 end).
  set (p2 := match column cols "article" row with
             | Some c => set_text "article_number" (_clean_cell c) p1 | None => p1 end).
  set (p3 := match column cols "dn" row with
             | Some c => match dn_of (_clean_cell c) with
                         | Some dn => <["dn" := VStr dn]> p2 | None => p2 end
             | None => p2 end).
  set (p4 := match column cols "inch" row with
             | Some c => set_text "inch_size" (_clean_cell c) p3 | None => p3 end).
  intros H.
  apply bind_Ok in H. destruct H as (p5 & E5 & H).
  apply bind_Ok in H. destruct H as (p6 & E6 & H).
  apply bind_Ok in H. destruct H as (p7 & E7 & H).
  apply bind_Ok in H. destruct H as (p8 & E8 & H).
  pose proof (number_step_frame _ _ _ _ E5) as F5.
  pose proof (number_step_frame _ _ _ _ E6) as F6.
  pose proof (pressure_step_frame _ _ _ E7) as F7.
  pose proof (number_step_frame _ _ _ _ E8) as F8.
  clear E5 E6 E7 E8.
  set (p9 := set_text "standard" standard p8) in *.
  set (p10 := <["construction" := VStr (_determine_construction model_name standard)]> p9)
    in *.
  assert (K : forall k,
             In k ["supplier"; "model"; "dn"; "article_number"] -> p10 !! k = p4 !! k).
  { intros k Hk. simpl in Hk.
    assert (N : "construction" <> k /\ "standard" <> k /\ "burst_pressure_mpa" <> k /\
                "working_pressure_mpa" <> k /\ "outer_diameter_mm" <> k /\
                "inner_diameter_mm" <> k)
      by (repeat (destruct Hk as [<-|Hk]; [repeat split; discriminate|]); destruct Hk).
    destruct N as (N1 & N2 & N3 & N4 & N5 & N6).
    unfold p10, p9. rewrite lookup_insert_ne by exact N1.
    rewrite lookup_set_text_ne by exact N2.
    rewrite F8, F7, F6, F5 by assumption. reflexivity. }
  assert (K4 : forall k, In k ["supplier"; "model"] -> p4 !! k = p0 !! k).
  { intros k Hk. simpl in Hk. unfold p4, p3, p2, p1.
    rewrite text_step_frame, dn_step_frame, !text_step_frame
      by (repeat (destruct Hk as [<-|Hk]; [discriminate|]); destruct Hk).
    reflexivity. }
  assert (Kd : p4 !! "dn" = p3 !! "dn") by (apply text_step_frame; discriminate).
  assert (Ka : p4 !! "article_number" = p2 !! "article_number").
  { unfold p4, p3. rewrite text_step_frame, dn_step_frame by discriminate. reflexivity. }
  assert (S9 : p8 !! "standard" = None).
  { rewrite F8, F7, F6, F5 by discriminate. unfold p4, p3, p2, p1.
    rewrite text_step_frame, dn_step_frame, !text_step_frame by discriminate.
    reflexivity. }
  destruct (truthy (get p10 "dn") && truthy (get p10 "article_number"))%bool eqn:T;
    [|discriminate H].
  injection H as <-. apply andb_prop in T. destruct T as [T1 T2].
  unfold get in T1, T2.
  unfold well_formed_product.
  split. { rewrite K, K4 by (simpl; tauto). reflexivity. }
  split. { rewrite K, K4 by (simpl; tauto). reflexivity. }
  split. { unfold p10. apply lookup_insert_eq. }
  split. { unfold p10. rewrite lookup_insert_ne by discriminate.
           unfold p9. apply lookup_set_text_eq, S9. }
  split.
  - rewrite K in T1 |- * by (simpl; tauto). rewrite Kd in T1 |- *.
    destruct (p3 !! "dn") as [v|] eqn:E; [|discriminate T1].
    unfold p3 in E. apply dn_step_dn in E.
    + destruct E as (ds & D & ->). eauto.
    + unfold p2, p1. rewrite !text_step_frame by discriminate. reflexivity.
  - rewrite K in T2 |- * by (simpl; tauto). rewrite Ka in T2 |- *.
    destruct (p2 !! "article_number") as [v|] eqn:E; [|discriminate T2].
    unfold p2 in E. apply text_step_value in E.
    + destruct E as (a & N & ->). eauto.
    + unfold p1. rewrite text_step_frame by discriminate. reflexivity.
Qed.

End ExtractedProducts.

Section ExtractedAgainstTheScorer.
Import Py BalflexPDF ProductMatcher.





(** The five construction types of the extractor. *)
Definition constructions : list string :=
  ["spiral wire"; "2 wire braid"; "1 wire braid"; "textile braid"; "wire braid"].

Lemma determine_construction_range model_name standard :
  In (_determine_construction model_name standard) constructions.
Proof.
  unfold _determine_construction.
  repeat match goal with
         | |- context [if ?c then _ else _] => destruct c
         end; simpl; tauto.
Qed.

(** The class of a construction type for the pre-check: spiral, textile
    or wire braid. *)
Definition construction_class (c : string) : nat :=
  if contains "spiral" c then 0 else if contains "textile" c then 1 else 2.

Lemma gate_on_constructions b h c1 c2 a :
  In c1 constructions -> In c2 constructions ->
  b !! "construction" = Some (VStr c1) ->
  h !! "construction" = Some (VStr c2) ->
  (if Nat.eqb (construction_class c1) (construction_class c2)
   then pre_check b h = Ok None
   else exists msg, pre_check b h = Ok (Some [Text msg])) /\
  criterion_construction b h a
  = Ok (if String.eqb c1 c2
        then award 15 (ConstructionMatch c1) (add_max 15 a)
        else add_max 15 a).
Proof.
  intros I1 I2 Eb Eh.
  unfold pre_check, criterion_construction, get_or. rewrite Eb, Eh.
  cbn [from_option id v_lower bind].
  simpl in I1, I2.
  repeat (destruct I1 as [<-|I1]; [|]); try contradiction;
    repeat (destruct I2 as [<-|I2]; [|]); try contradiction;
    (split; [cbn; eauto | reflexivity]).
Qed.

(** The product of a row, for a row that yields one. *)
Definition extracted (row : list cell) (model_name standard : string)
  : gmap string value :=
  match _extract_product_from_row row (_find_column_indices []) model_name standard with
  | Ok (Some product) => product
  | _ => ∅
  end.

(** A second complete row, two DN sizes up and of another model. *)
Definition row_dn8 : list cell :=
  [Some "2SN-05-F"; Some "10.1003.05F"; Some "DN8"; Some "5/16"; Some "-5";
   Some "7.9"; Some "15,0"; Some "35,0 5075"].

Lemma row_complete_is_extracted model_name standard :
  _extract_product_from_row row_complete (_find_column_indices []) model_name standard
  = Ok (Some (extracted row_complete model_name standard)).
Proof.
  pose proof (row_of_eight (Some "4SP-04-F") (Some "10.1008.04F") (Some "DN6")
                (Some "1/4") (Some "-4") (Some "6.5") (Some "17,4") (Some "45,0 6600")
                [Some "180,0"; Some "26400"; Some "150"; Some "0,70"]
                model_name standard "45,0" ltac:(vm_compute; reflexivity)) as H.
  cbv zeta in H.
  assert (D : dn_of (_clean_cell (Some "DN6")) = Some "DN6") by (vm_compute; reflexivity).
  assert (N : nonempty (_clean_cell (Some "10.1008.04F")) = true)
    by (vm_compute; reflexivity).
  rewrite D, N in H. destruct H as (product & E & _).
  change (_extract_product_from_row row_complete (_find_column_indices [])
            model_name standard = Ok (Some product)) in E.
  unfold extracted. rewrite E. reflexivity.
Qed.

Lemma row_dn8_is_extracted model_name standard :
  _extract_product_from_row row_dn8 (_find_column_indices []) model_name standard
  = Ok (Some (extracted row_dn8 model_name standard)).
Proof.
  pose proof (row_of_eight (Some "2SN-05-F") (Some "10.1003.05F") (Some "DN8")
                (Some "5/16") (Some "-5") (Some "7.9") (Some "15,0") (Some "35,0 5075")
                [] model_name standard "35,0" ltac:(vm_compute; reflexivity)) as H.
  cbv zeta in H.
  assert (D : dn_of (_clean_cell (Some "DN8")) = Some "DN8") by (vm_compute; reflexivity).
  assert (N : nonempty (_clean_cell (Some "10.1003.05F")) = true)
    by (vm_compute; reflexivity).
  rewrite D, N in H. destruct H as (product & E & _).
  change (_extract_product_from_row row_dn8 (_find_column_indices [])
            model_name standard = Ok (Some product)) in E.
  unfold extracted. rewrite E. reflexivity.
Qed.



(** X17: Products extracted from table rows have one of five constructions.
    On two such products the construction pre-check of the hose scorer
    never raises and rejects the pair exactly when the constructions are
    of different classes (spiral, textile, wire braid), and the
    construction criterion gives 15 points exactly when the constructions
    are equal. *)
Theorem extracted_constructions_and_the_gate
  row1 model1 standard1 row2 model2 standard2 balflex heizmann a :
  _extract_product_from_row row1 (_find_column_indices []) model1 standard1
  = Ok (Some balflex) ->
  _extract_product_from_row row2 (_find_column_indices []) model2 standard2
  = Ok (Some heizmann) ->
  exists c1 c2,
    In c1 constructions /\ In c2 constructions /\
    balflex !! "construction" = Some (VStr c1) /\
    heizmann !! "construction" = Some (VStr c2) /\
    (if Nat.eqb (construction_class c1) (construction_class c2)
     then pre_check balflex heizmann = Ok None
     else exists msg, pre_check balflex heizmann = Ok (Some [Text msg])) /\
    criterion_construction balflex heizmann a
    = Ok (if String.eqb c1 c2
          then award 15 (ConstructionMatch c1) (add_max 15 a)
          else add_max 15 a).
Proof.
  intros E1 E2.
  destruct (extracted_product_is_well_formed _ _ _ _ E1) as (_ & _ & C1 & _).
  destruct (extracted_product_is_well_formed _ _ _ _ E2) as (_ & _ & C2 & _).
  do 2 eexists.
  split; [apply determine_construction_range|].
  split; [apply determine_construction_range|].
  split; [exact C1|]. split; [exact C2|].
  apply gate_on_constructions; auto using determine_construction_range.
Qed.

Lemma extracted_constructions_and_the_gate_witness :
  exists c1 c2,
    In c1 constructions /\ In c2 constructions /\
    extracted row_complete "POWERSPIR BESTFLEX 4SP" "DIN EN 856 4SP" !! "construction"
    = Some (VStr c1) /\
    extracted row_dn8 "BALMASTER BESTFLEX 2SN" "DIN EN 853 2SN" !! "construction"
    = Some (VStr c2) /\
    (if Nat.eqb (construction_class c1) (construction_class c2)
     then pre_check (extracted row_complete "POWERSPIR BESTFLEX 4SP" "DIN EN 856 4SP")
            (extracted row_dn8 "BALMASTER BESTFLEX 2SN" "DIN EN 853 2SN") = Ok None
     else exists msg,
         pre_check (extracted row_complete "POWERSPIR BESTFLEX 4SP" "DIN EN 856 4SP")
           (extracted row_dn8 "BALMASTER BESTFLEX 2SN" "DIN EN 853 2SN")
         = Ok (Some [Text msg])) /\
    criterion_construction
      (extracted row_complete "POWERSPIR BESTFLEX 4SP" "DIN EN 856 4SP")
      (extracted row_dn8 "BALMASTER BESTFLEX 2SN" "DIN EN 853 2SN") acc0
    = Ok (if String.eqb c1 c2
          then award 15 (ConstructionMatch c1) (add_max 15 acc0)
          else add_max 15 acc0).
Proof.
  apply (extracted_constructions_and_the_gate
           row_complete "POWERSPIR BESTFLEX 4SP" "DIN EN 856 4SP"
           row_dn8 "BALMASTER BESTFLEX 2SN" "DIN EN 853 2SN").
  - apply row_complete_is_extracted.
  - apply row_dn8_is_extracted.
Defined.

End ExtractedAgainstTheScorer.

Section Tables.
Import Py BalflexPDF.

(** A product of a table: a well-formed product extracted from one of
    the rows. *)
Definition product_of_rows (rows : list (list cell)) (model_name standard : string)
  (product : gmap string value) : Prop :=
  well_formed_product model_name standard product /\
  exists row,
    In row rows /\
    _extract_product_from_row row (_find_column_indices []) model_name standard
    = Ok (Some product).

Lemma parse_rows_sound model_name standard rows :
  forall products,
    parse_rows rows (_find_column_indices []) model_name standard = Ok products ->
    (length products <= length rows)%nat /\
    Forall (product_of_rows rows model_name standard) products.
Proof.
  induction rows as [|row rows IH]; intros products H; simpl in H.
  - injection H as <-. split; [simpl; lia | constructor].
  - assert (Skip : forall ps,
               parse_rows rows (_find_column_indices []) model_name standard = Ok ps ->
               (length ps <= length (row :: rows))%nat /\
               Forall (product_of_rows (row :: rows) model_name standard) ps).
    { intros ps R. destruct (IH _ R) as [L F]. split; [simpl; lia|].
      eapply Forall_impl; [exact F|].
      intros p (W & r & I & E). split; [exact W|]. exists r. split; [right; exact I | exact E]. }
    destruct (Nat.ltb (List.length row) 3); [apply Skip, H|].
    destruct (_ || _)%bool; [apply Skip, H|].
    apply bind_Ok in H. destruct H as (product & E & H).
    apply bind_Ok in H. destruct H as (ps & R & H).
    destruct (Skip _ R) as [L F]. destruct (IH _ R) as [L' _].
    destruct product as [product|]; [|injection H as <-; auto].
    destruct (dict_truthy product); injection H as <-; [|auto].
    split; [simpl in *; lia|]. constructor; [|exact F].
    split; [eapply extracted_product_is_well_formed; exact E|].
    exists row. split; [left; reflexivity | exact E].
Qed.

Lemma length_skipn2 {A} (l : list A) : length (skipn 2 l) = (length l - 2)%nat.
Proof. apply length_drop. Qed.

Lemma parse_product_table_sound table model_name standard products :
  _parse_product_table table model_name standard = Ok products ->
  (length products <= length table - 2)%nat /\
  Forall (product_of_rows (skipn 2 table) model_name standard) products.
Proof.
  unfold _parse_product_table. intros H.
  destruct (Nat.ltb (List.length table) 2).
  { injection H as <-. split; [simpl; lia | constructor]. }
  cbv zeta in H. destruct (negb _).
  { injection H as <-. split; [simpl; lia | constructor]. }
  destruct (parse_rows_sound _ _ _ _ H) as [L F].
  rewrite length_skipn2 in L. auto.
Qed.

(** X18: When a table is parsed without an exception its products are in
    number at most the rows after the first two, and each one is a
    well-formed product extracted from one of these rows. *)
Theorem table_products_come_from_the_data_rows table model_name standard products :
  _parse_product_table table model_name standard = Ok products ->
  (length products <= length table - 2)%nat /\
  Forall (product_of_rows (skipn 2 table) model_name standard) products.
Proof. apply parse_product_table_sound. Qed.

(** What a page adds does not depend on the products found before it. *)
Lemma parse_tables_appends model_name standard tables :
  forall products,
    parse_tables tables model_name standard products
    = ((products ++ fst (parse_tables tables model_name standard []))%list,
       snd (parse_tables tables model_name standard [])).
Proof.
  induction tables as [|t tables IH]; intros products; simpl.
  - rewrite app_nil_r. reflexivity.
  - destruct (_parse_product_table t model_name standard) as [found|e].
    + rewrite (IH (products ++ found)%list), (IH found). simpl.
      rewrite app_assoc. reflexivity.
    + simpl. rewrite app_nil_r. reflexivity.
Qed.

Lemma parse_page_appends page products :
  fst (_parse_page page products) = (products ++ fst (_parse_page page []))%list.
Proof.
  unfold _parse_page.
  destruct (extract_tables page) as [[|t tables]|e];
    try (cbn [fst]; rewrite app_nil_r; reflexivity).
  destruct (extract_text page) as [[text|]|e];
    try (cbn [fst]; rewrite app_nil_r; reflexivity).
  destruct (nonempty text); cbn [negb]; [|cbn [fst]; rewrite app_nil_r; reflexivity].
  cbv zeta.
  destruct (nonempty (_extract_model_name text)); cbn [negb];
    [|cbn [fst]; rewrite app_nil_r; reflexivity].
  rewrite parse_tables_appends. reflexivity.
Qed.

Lemma parse_pages_appends pages :
  forall products, parse_pages pages products = (products ++ parse pages)%list.
Proof.
  unfold parse. induction pages as [|page pages IH]; intros products; simpl.
  - rewrite app_nil_r. reflexivity.
  - rewrite (IH (fst (_parse_page page products))), (IH (fst (_parse_page page []))).
    rewrite parse_page_appends, app_assoc. reflexivity.
Qed.

Lemma parse_pages_app pages1 pages2 :
  forall products,
    parse_pages (pages1 ++ pages2) products = parse_pages pages2 (parse_pages pages1 products).
Proof.
  induction pages1 as [|page pages1 IH]; intros products; simpl; [reflexivity | apply IH].
Qed.

(** X19: The result of parsing is the products of the pages, page by page, in
    order: a page adds the same products wherever it stands. *)
Theorem parse_is_pagewise pages1 pages2 :
  parse (pages1 ++ pages2) = (parse pages1 ++ parse pages2)%list.
Proof.
  unfold parse at 1. rewrite parse_pages_app, parse_pages_appends. reflexivity.
Qed.





(** A row that is examined: at least three cells, and a first cell that
    is neither empty nor a header. *)
Definition data_row (row : list cell) : bool :=
  let first_cell :=
    match row with
    | Some s :: _ => if nonempty s then upper s else EmptyString
    | _ => EmptyString
    end in
  (negb (Nat.ltb (List.length row) 3)
   && negb (contains "REFERENCE" first_cell || negb (nonempty first_cell)))%bool.

(** A table that is parsed: at least two rows, and the words REFERENCE
    and DN among its first five rows. *)
Definition product_table (table : table) : bool :=
  let all_text := join " " (map row_text (firstn 5 table)) in
  (negb (Nat.ltb (List.length table) 2)
   && (contains "REFERENCE" (upper all_text) && contains "DN" (upper all_text)))%bool.

Lemma parse_rows_raises model_name standard row e rows :
  In row rows -> data_row row = true ->
  _extract_product_from_row row (_find_column_indices []) model_name standard = Raise e ->
  exists e', parse_rows rows (_find_column_indices []) model_name standard = Raise e'.
Proof.
  intros I D E. induction rows as [|r rows IH]; [destruct I|].
  cbn [parse_rows]. cbv zeta.
  destruct I as [-> | I].
  - unfold data_row in D. cbv zeta in D.
    apply andb_prop in D. destruct D as [D1 D2].
    apply negb_true_iff in D1. apply negb_true_iff in D2.
    rewrite D1, D2, E. eauto.
  - destruct (IH I) as [e' R].
    destruct (Nat.ltb (List.length r) 3); [eauto|].
    destruct (_ || _)%bool; [eauto|].
    destruct (_extract_product_from_row r _ _ _) as [p|e'']; cbn [bind]; [|eauto].
    rewrite R. eauto.
Qed.

(** X21: A data row whose extraction raises makes its table raise, and the
    page stops there: the products of the tables before it are kept, the
    other rows of the table and the tables after it are lost. *)
Theorem a_raising_row_ends_its_page table model_name standard row e :
  product_table table = true ->
  In row (skipn 2 table) -> data_row row = true ->
  _extract_product_from_row row (_find_column_indices []) model_name standard = Raise e ->
  exists e',
    _parse_product_table table model_name standard = Raise e' /\
    forall later products,
      parse_tables (table :: later) model_name standard products = (products, Raise e').
Proof.
  intros T I D E.
  unfold product_table in T. cbv zeta in T.
  apply andb_prop in T. destruct T as [T1 T2]. apply negb_true_iff in T1.
  destruct (parse_rows_raises model_name standard row e _ I D E) as [e' R].
  assert (P : _parse_product_table table model_name standard = Raise e').
  { unfold _parse_product_table. rewrite T1. cbv zeta. rewrite T2. exact R. }
  exists e'. split; [exact P|].
  intros later products. cbn [parse_tables]. rewrite P. reflexivity.
Qed.

(** Two pages of a catalogue: on the first the pressure cell of the only
    data row is blank, the second is sound. *)
Definition header_rows : list (list cell) :=
  [[Some "REFERENCE"; Some "#"; Some "DN"; Some "inch"];
   [Some ""; None; Some "mm"; None]].

Definition row_blank_pressure : list cell :=
  [Some "4SP-04-F"; Some "10.1008.04F"; Some "DN6"; Some "1/4"; Some "-4";
   Some "6.5"; Some "17,4"; Some " "].

Definition page_text : string :=
  "Hydraulic hoses" ++ String "010" "POWERSPIR BESTFLEX 4SP"
  ++ String "010" "DIN EN 856 4SP".

Definition page_blank : page :=
  Page (Ok [(header_rows ++ [row_complete])%list; (header_rows ++ [row_blank_pressure])%list;
            (header_rows ++ [row_complete])%list])
       (Ok (Some page_text)).

Definition page_sound : page :=
  Page (Ok [(header_rows ++ [row_complete; row_complete])%list]) (Ok (Some page_text)).

Lemma a_raising_row_ends_its_page_witness :
  exists e',
    _parse_product_table (header_rows ++ [row_blank_pressure])%list "POWERSPIR BESTFLEX 4SP"
      "DIN EN 856 4SP" = Raise e' /\
    forall later products,
      parse_tables ((header_rows ++ [row_blank_pressure])%list :: later)
        "POWERSPIR BESTFLEX 4SP" "DIN EN 856 4SP" products = (products, Raise e').
Proof.
  apply (a_raising_row_ends_its_page _ _ _ row_blank_pressure IndexError).
  - vm_compute. reflexivity.
  - simpl. left. reflexivity.
  - vm_compute. reflexivity.
  - vm_compute. reflexivity.
Defined.

(** The products of a table, for a table that is parsed without an
    exception. *)
Definition products_of (table : table) (model_name standard : string)
  : list (gmap string value) :=
  match _parse_product_table table model_name standard with
  | Ok products => products
  | Raise _ => []
  end.

Lemma table_of_two_rows_is_parsed :
  match _parse_product_table (header_rows ++ [row_complete; row_dn8])%list
          "POWERSPIR BESTFLEX 4SP" "DIN EN 856 4SP" with
  | Ok products => length products = 2%nat
  | Raise _ => False
  end.
Proof. vm_compute. reflexivity. Qed.

Lemma table_products_come_from_the_data_rows_witness :
  (length (products_of (header_rows ++ [row_complete; row_dn8])%list
             "POWERSPIR BESTFLEX 4SP" "DIN EN 856 4SP")
   <= length (header_rows ++ [row_complete; row_dn8])%list - 2)%nat /\
  Forall (product_of_rows (skipn 2 (header_rows ++ [row_complete; row_dn8])%list)
            "POWERSPIR BESTFLEX 4SP" "DIN EN 856 4SP")
    (products_of (header_rows ++ [row_complete; row_dn8])%list
       "POWERSPIR BESTFLEX 4SP" "DIN EN 856 4SP").
Proof.
  apply table_products_come_from_the_data_rows.
  pose proof table_of_two_rows_is_parsed as P. unfold products_of.
  destruct (_parse_product_table _ _ _) as [products|e]; [reflexivity | destruct P].
Defined.

Example parse_of_two_pages :
  _extract_model_name page_text = "POWERSPIR BESTFLEX 4SP" /\
  _extract_standard page_text "POWERSPIR BESTFLEX 4SP" = "DIN EN 856 4SP" /\
  length (parse [page_blank]) = 1%nat /\
  length (parse [page_sound]) = 2%nat /\
  length (parse [page_blank; page_sound]) = 3%nat.
Proof. repeat split; vm_compute; reflexivity. Qed.

End Tables.

Section Substrings.
Import Py.

Lemma starts_with_app m rest : starts_with m (m ++ rest) = true.
Proof.
  induction m as [|a m IH]; [reflexivity|].
  rewrite str_app_cons. simpl. rewrite Ascii.eqb_refl, IH. reflexivity.
Qed.

Lemma starts_with_elim m s : starts_with m s = true -> exists rest, s = m ++ rest.
Proof.
  revert s. induction m as [|a m IH]; intros s H; [exists s; reflexivity|].
  destruct s as [|c s]; [discriminate H|]. simpl in H.
  apply andb_prop in H. destruct H as [H1 H2]. apply Ascii.eqb_eq in H1. subst c.
  destruct (IH _ H2) as [rest ->]. exists rest. reflexivity.
Qed.

Lemma contains_here m s : starts_with m s = true -> contains m s = true.
Proof. intros H. destruct s; simpl in *; rewrite H; reflexivity. Qed.

Lemma contains_later m c s : contains m s = true -> contains m (String c s) = true.
Proof. intros H. cbn [contains]. rewrite H. apply orb_true_r. Qed.

(** [m in s] holds exactly when [s] is some text, [m] and some text. *)
Lemma contains_intro m pre post : contains m (pre ++ m ++ post) = true.
Proof.
  induction pre as [|c pre IH].
  - rewrite str_app_nil. apply contains_here, starts_with_app.
  - rewrite str_app_cons. apply contains_later, IH.
Qed.

Lemma contains_elim m s :
  contains m s = true -> exists pre post, s = pre ++ m ++ post.
Proof.
  induction s as [|c s IH]; intros H.
  - simpl in H. rewrite orb_false_r in H.
    destruct (starts_with_elim _ _ H) as [rest E]. exists "", rest. exact E.
  - cbn [contains] in H. apply orb_prop in H. destruct H as [H | H].
    + destruct (starts_with_elim _ _ H) as [rest E]. exists "", rest. exact E.
    + destruct (IH H) as (pre & post & ->). exists (String c pre), post. reflexivity.
Qed.

Lemma all_space_app a b : all_space (a ++ b) = (all_space a && all_space b)%bool.
Proof. rewrite !all_space_forall. apply str_forall_app. Qed.

(** The last character of a text, if any, is in the class. *)
Fixpoint ends_in (p : ascii -> bool) (s : string) : bool :=
  match s with
  | EmptyString => false
  | String c EmptyString => p c
  | String _ s' => ends_in p s'
  end.

Lemma ends_in_not_all_space s :
  ends_in (fun c => negb (is_space c)) s = true -> all_space s = false.
Proof.
  induction s as [|c s IH]; [discriminate|].
  destruct s as [|d s].
  - simpl. intros H. apply negb_true_iff in H. rewrite H. reflexivity.
  - intros H. change (all_space (String c (String d s)))
      with (is_space c && all_space (String d s))%bool.
    rewrite (IH H). apply andb_false_r.
Qed.

Lemma rstrip_app m rest :
  ends_in (fun c => negb (is_space c)) m = true ->
  rstrip (m ++ rest) = m ++ rstrip rest.
Proof.
  induction m as [|a m IH]; [discriminate|].
  intros E. rewrite str_app_cons. cbn [rstrip].
  rewrite <- str_app_cons, all_space_app, (ends_in_not_all_space _ E). cbn [andb].
  rewrite str_app_cons. destruct m as [|b m].
  - rewrite str_app_nil. reflexivity.
  - rewrite IH by exact E. reflexivity.
Qed.

Lemma ends_in_app p a b : ends_in p b = true -> ends_in p (a ++ b) = true.
Proof.
  intros E. induction a as [|c a IH]; [exact E|].
  rewrite str_app_cons. destruct (a ++ b) eqn:X; [discriminate IH | exact IH].
Qed.

(** Stripping the left of some text, [m] and some text, when [m] starts
    with a character that is no whitespace. *)
Lemma lstrip_keeps a m pre post :
  is_space a = false ->
  exists pre', lstrip (pre ++ String a m ++ post) = pre' ++ String a m ++ post.
Proof.
  intros A. induction pre as [|c pre IH].
  - exists "". rewrite !str_app_nil, str_app_cons. simpl. rewrite A. reflexivity.
  - rewrite str_app_cons. cbn [lstrip]. destruct (is_space c).
    + exact IH.
    + exists (String c pre). reflexivity.
Qed.

Lemma contains_strip a m s :
  is_space a = false -> ends_in (fun c => negb (is_space c)) (String a m) = true ->
  contains (String a m) s = true -> contains (String a m) (strip s) = true.
Proof.
  intros A E H. destruct (contains_elim _ _ H) as (pre & post & ->).
  unfold strip. destruct (lstrip_keeps a m pre post A) as [pre' ->].
  rewrite <- app_assoc_str, rstrip_app by (apply ends_in_app, E).
  rewrite app_assoc_str. apply contains_intro.
Qed.

Lemma nonempty_contains m s : nonempty m = true -> contains m s = true -> nonempty s = true.
Proof.
  intros N H. destruct (contains_elim _ _ H) as (pre & post & ->).
  destruct pre; [|reflexivity]. rewrite str_app_nil. apply nonempty_app_l, N.
Qed.

End Substrings.

Section Lines.
Import Py.

Lemma split_on_nonempty sep s : exists w ws, split_on sep s = w :: ws.
Proof.
  induction s as [|c s IH]; simpl; [eauto|].
  destruct (Ascii.eqb c sep); [eauto|].
  destruct IH as (w & ws & ->). eauto.
Qed.

(** A line holds no line break. *)
Lemma split_on_lines sep s l :
  In l (split_on sep s) -> str_forall (fun c => negb (Ascii.eqb c sep)) l = true.
Proof.
  revert l. induction s as [|c s IH]; intros l H; simpl in H.
  - destruct H as [<- | []]. reflexivity.
  - destruct (Ascii.eqb c sep) eqn:E.
    + destruct H as [<- | H]; [reflexivity | apply IH, H].
    + destruct (split_on_nonempty sep s) as (w & ws & X). rewrite X in H, IH.
      destruct H as [<- | H].
      * simpl. rewrite E. simpl. apply IH. left. reflexivity.
      * apply IH. right. exact H.
Qed.

Lemma split_on_one sep s :
  str_forall (fun c => negb (Ascii.eqb c sep)) s = true -> split_on sep s = [s].
Proof.
  induction s as [|c s IH]; [reflexivity|]. simpl.
  intros H. apply andb_prop in H. destruct H as [H1 H2]. apply negb_true_iff in H1.
  rewrite H1, (IH H2). reflexivity.
Qed.

Lemma str_forall_lstrip p s : str_forall p s = true -> str_forall p (lstrip s) = true.
Proof.
  induction s as [|c s IH]; [reflexivity|]. intros H. simpl.
  destruct (is_space c); [|exact H].
  simpl in H. apply andb_prop in H. apply IH, H.
Qed.

Lemma str_forall_rstrip p s : str_forall p s = true -> str_forall p (rstrip s) = true.
Proof.
  induction s as [|c s IH]; [reflexivity|]. intros H. cbn [rstrip].
  destruct (all_space (String c s)); [reflexivity|].
  simpl in *. apply andb_prop in H. destruct H as [H1 H2]. rewrite H1, (IH H2). reflexivity.
Qed.

Lemma str_forall_strip p s : str_forall p s = true -> str_forall p (strip s) = true.
Proof. intros H. apply str_forall_rstrip, str_forall_lstrip, H. Qed.

(** A text without a line break that starts a text starts its first
    line. *)
Lemma starts_with_first_line sep m :
  str_forall (fun c => negb (Ascii.eqb c sep)) m = true ->
  forall s, starts_with m s = true ->
  starts_with m (List.hd EmptyString (split_on sep s)) = true.
Proof.
  induction m as [|a m IH]; intros M s H; [reflexivity|].
  destruct s as [|c s]; [discriminate H|].
  simpl in M, H. apply andb_prop in M. destruct M as [M1 M2].
  apply andb_prop in H. destruct H as [H1 H2]. apply Ascii.eqb_eq in H1. subst c.
  apply negb_true_iff in M1. simpl. rewrite M1.
  specialize (IH M2 s H2).
  destruct (split_on_nonempty sep s) as (w & ws & X). rewrite X in IH |- *.
  simpl in *. rewrite Ascii.eqb_refl, IH. reflexivity.
Qed.

(** A text without a line break that is in a text is in one of its
    lines. *)
Lemma contains_in_a_line sep a m s :
  str_forall (fun c => negb (Ascii.eqb c sep)) (String a m) = true ->
  contains (String a m) s = true ->
  exists l, In l (split_on sep s) /\ contains (String a m) l = true.
Proof.
  intros M. induction s as [|c s IH]; intros H.
  - simpl in H. discriminate H.
  - cbn [contains] in H. simpl split_on.
    destruct (Ascii.eqb c sep) eqn:E.
    + assert (S : starts_with (String a m) (String c s) = false).
      { simpl. simpl in M. apply andb_prop in M. destruct M as [M1 _].
        apply negb_true_iff in M1. apply Ascii.eqb_eq in E. subst c.
        rewrite M1. reflexivity. }
      rewrite S in H. cbn [orb] in H.
      destruct (IH H) as (l & I & C). exists l. split; [right; exact I | exact C].
    + destruct (split_on_nonempty sep s) as (w & ws & X).
      apply orb_prop in H. destruct H as [H | H].
      * pose proof (starts_with_first_line sep _ M _ H) as F.
        simpl in F. rewrite E, X in F. simpl in F.
        rewrite X. exists (String c w). split; [left; reflexivity|].
        apply contains_here. exact F.
      * destruct (IH H) as (l & I & C). rewrite X in I |- *.
        destruct I as [I | I].
        -- subst l. exists (String c w). split; [left; reflexivity | apply contains_later, C].
        -- exists l. split; [right; exact I | exact C].
Qed.

Lemma upper_keeps_line_breaks c :
  Ascii.eqb (to_upper c) "010" = Ascii.eqb c "010".
Proof. destruct c as [[] [] [] [] [] [] [] []]; reflexivity. Qed.

Lemma split_on_upper s : split_on "010"%char (upper s) = map upper (split_on "010"%char s).
Proof.
  induction s as [|c s IH]; [reflexivity|].
  change (upper (String c s)) with (String (to_upper c) (upper s)).
  cbn [split_on]. rewrite upper_keeps_line_breaks, IH.
  destruct (Ascii.eqb c "010"%char); [reflexivity|].
  destruct (split_on "010"%char s); reflexivity.
Qed.

Lemma upper_space c : is_space (to_upper c) = is_space c.
Proof. destruct c as [[] [] [] [] [] [] [] []]; reflexivity. Qed.

Lemma lstrip_upper s : lstrip (upper s) = upper (lstrip s).
Proof.
  induction s as [|c s IH]; [reflexivity|].
  change (upper (String c s)) with (String (to_upper c) (upper s)).
  cbn [lstrip]. rewrite upper_space. destruct (is_space c); [exact IH | reflexivity].
Qed.

Lemma all_space_upper s : all_space (upper s) = all_space s.
Proof.
  rewrite !all_space_forall. apply str_forall_map_chars, upper_space.
Qed.

Lemma rstrip_upper s : rstrip (upper s) = upper (rstrip s).
Proof.
  induction s as [|c s IH]; [reflexivity|].
  change (upper (String c s)) with (String (to_upper c) (upper s)).
  cbn [rstrip].
  change (String (to_upper c) (upper s)) with (upper (String c s)).
  rewrite all_space_upper. destruct (all_space (String c s)); [reflexivity|].
  rewrite IH. reflexivity.
Qed.

Lemma strip_upper s : strip (upper s) = upper (strip s).
Proof. unfold strip. rewrite lstrip_upper, rstrip_upper. reflexivity. Qed.

End Lines.

Section ModelNames.
Import Py BalflexPDF.

(** What the search relies on in a model name: it starts and ends with a
    character that is no whitespace, and holds no line break. *)
Definition plain_model (model : string) : bool :=
  (match model with String a _ => negb (is_space a) | EmptyString => false end
   && ends_in (fun c => negb (is_space c)) model
   && str_forall (fun c => negb (Ascii.eqb c "010"%char)) model)%bool.

Lemma models_are_plain : forallb plain_model models = true.
Proof. vm_compute. reflexivity. Qed.

Lemma model_name_among_none ms text :
  (forall model, In model ms -> contains model (upper text) = false) ->
  model_name_among ms text = EmptyString.
Proof.
  induction ms as [|m ms IH]; intros H; [reflexivity|].
  simpl. rewrite (H m (or_introl eq_refl)). apply IH.
  intros model I. apply H. right. exact I.
Qed.

Lemma model_line m text :
  plain_model m = true -> contains m (upper text) = true ->
  exists line, List.find (fun line => contains m (upper line)) (split_on "010"%char text) = Some line
    /\ In line (split_on "010"%char text)
    /\ List.hd EmptyString (split_on "010"%char (strip line)) = strip line
    /\ contains m (upper (strip line)) = true.
Proof.
  intros P C. unfold plain_model in P.
  apply andb_prop in P. destruct P as [P P3]. apply andb_prop in P. destruct P as [P1 P2].
  destruct m as [|a m]; [discriminate P1|]. apply negb_true_iff in P1.
  destruct (contains_in_a_line "010"%char a m _ P3 C) as (l & I & L).
  rewrite split_on_upper in I. apply in_map_iff in I.
  destruct I as (line0 & <- & I0).
  destruct (List.find (fun line => contains (String a m) (upper line)) (split_on "010"%char text))
    as [line|] eqn:F.
  - apply find_some in F. destruct F as [I F]. exists line.
    split; [reflexivity|]. split; [exact I|]. split.
    + rewrite split_on_one; [reflexivity|].
      apply str_forall_strip, (split_on_lines "010"%char text), I.
    + rewrite <- strip_upper. apply contains_strip; assumption.
  - pose proof (find_none _ _ F line0 I0) as N. simpl in N. rewrite L in N. discriminate N.
Qed.

Lemma model_name_among_some ms text :
  forallb plain_model ms = true ->
  (exists model, In model ms /\ contains model (upper text) = true) ->
  exists model line, In model ms /\ In line (split_on "010"%char text) /\
    model_name_among ms text = strip line /\
    contains model (upper (model_name_among ms text)) = true.
Proof.
  induction ms as [|m ms IH]; intros P (model & I & C); [destruct I|].
  simpl in P. apply andb_prop in P. destruct P as [Pm P].
  cbn [model_name_among].
  destruct (contains m (upper text)) eqn:Cm.
  - destruct (model_line m text Pm Cm) as (line & F & I' & H & C').
    rewrite F, H. exists m, line.
    split; [left; reflexivity|]. split; [exact I'|]. split; [reflexivity | exact C'].
  - destruct I as [-> | I]; [rewrite C in Cm; discriminate Cm|].
    destruct (IH P (ex_intro _ model (conj I C))) as (m' & line & I' & L & E & C').
    exists m', line. split; [right; exact I'|]. split; [exact L|]. split; [exact E | exact C'].
Qed.

Lemma forallb_fails {A} (p : A -> bool) (l : list A) :
  forallb p l = false -> exists x, In x l /\ p x = false.
Proof.
  induction l as [|x l IH]; [discriminate|]. simpl. intros H.
  destruct (p x) eqn:E.
  - destruct (IH H) as (y & I & F). exists y. split; [right; exact I | exact F].
  - exists x. split; [left; reflexivity | exact E].
Qed.

Lemma plain_model_nonempty m : plain_model m = true -> nonempty m = true.
Proof. destruct m; [discriminate | reflexivity]. Qed.

(** X22: [_extract_model_name] returns a non-empty name exactly when the text
    of the page, in upper case, holds one of the eight known model names.
    The name is then a line of the text without the whitespace around it,
    and it holds a known model name itself. *)
Theorem model_name_names_a_known_model text :
  (nonempty (_extract_model_name text) = true <->
     exists model, In model models /\ contains model (upper text) = true) /\
  (nonempty (_extract_model_name text) = true ->
     exists model line, In model models /\ In line (split_on "010" text) /\
       _extract_model_name text = strip line /\
       contains model (upper (_extract_model_name text)) = true).
Proof.
  assert (S : (exists model, In model models /\ contains model (upper text) = true) ->
     exists model line, In model models /\ In line (split_on "010" text) /\
       _extract_model_name text = strip line /\
       contains model (upper (_extract_model_name text)) = true).
  { apply (model_name_among_some models text models_are_plain). }
  assert (N : nonempty (_extract_model_name text) = true ->
     exists model, In model models /\ contains model (upper text) = true).
  { intros H.
    destruct (forallb (fun model => negb (contains model (upper text))) models) eqn:A.
    - unfold _extract_model_name in H. rewrite model_name_among_none in H; [discriminate H|].
      intros model I. apply negb_true_iff.
      exact (proj1 (forallb_forall _ _) A model I).
    - apply forallb_fails in A.
      destruct A as (model & I & A). apply negb_false_iff in A. exists model. split; assumption.  }
  split; [split|].
  - exact N.
  - intros E. destruct (S E) as (model & line & I & _ & _ & C).
    assert (P : plain_model model = true)
      by exact (proj1 (forallb_forall _ _) models_are_plain model I).
    pose proof (nonempty_contains _ _ (plain_model_nonempty _ P) C) as X.
    unfold upper in X. rewrite nonempty_map_chars in X. exact X.
  - intros H. apply S, N, H.
Qed.

End ModelNames.

Section SkippedPages.
Import Py BalflexPDF.

Lemma parse_page_without_model page text products :
  extract_text page = Ok (Some text) ->
  (forall model, In model models -> contains model (upper text) = false) ->
  fst (_parse_page page products) = products.
Proof.
  intros T N. unfold _parse_page. rewrite T.
  destruct (extract_tables page) as [[|t tables]|e]; try reflexivity.
  destruct (negb (nonempty text)); [reflexivity|]. cbv zeta.
  unfold _extract_model_name. rewrite (model_name_among_none models text N).
  reflexivity.
Qed.

(** X23: A page whose text names no known model adds no product: parsing the
    pages with it or without it gives the same result. *)
Theorem a_page_without_a_known_model_is_skipped pages1 page pages2 text :
  extract_text page = Ok (Some text) ->
  (forall model, In model models -> contains model (upper text) = false) ->
  parse (pages1 ++ page :: pages2) = parse (pages1 ++ pages2).
Proof.
  intros T N. unfold parse. rewrite !parse_pages_app. cbn [parse_pages].
  rewrite (parse_page_without_model page text _ T N). reflexivity.
Qed.

(** A page with a product table under a heading that names no model. *)
Definition page_unnamed : page :=
  Page (Ok [(header_rows ++ [row_complete])%list])
       (Ok (Some ("Hydraulic hoses" ++ String "010" "DIN EN 856 4SP"))).

Lemma a_page_without_a_known_model_is_skipped_witness :
  parse ([page_sound] ++ page_unnamed :: [page_blank]) = parse ([page_sound] ++ [page_blank]).
Proof.
  apply (a_page_without_a_known_model_is_skipped [page_sound] page_unnamed [page_blank]
           ("Hydraulic hoses" ++ String "010" "DIN EN 856 4SP")).
  - reflexivity.
  - intros model I. apply negb_true_iff. revert model I. apply forallb_forall.
    vm_compute. reflexivity.
Defined.

End SkippedPages.

Section HoseSizeFixer.
Import Py FixHoseSizes.

(** The sources of a fixed size. *)
Definition fix_sources : list string :=
  ["dash_code"; "inch_conversion"; "validated_current"].

Lemma lookup_In k (table : list (string * float)) x :
  lookup k table = Some x -> In x (map snd table).
Proof.
  induction table as [|[k' y] table IH]; simpl; [discriminate|].
  destruct (String.eqb k k'); [intros H; injection H as <-; auto | auto].
Qed.

Lemma from_dash_code_cases float_repr dash :
  from_dash_code float_repr dash = Ok None \/
  exists d mm,
    normalize_dash_code (text_of float_repr dash) = Ok (Some d) /\
    lookup d DASH_TO_MM = Some mm /\
    from_dash_code float_repr dash = Ok (Some (Some mm, "dash_code", VStr d)).
Proof.
  unfold from_dash_code.
  destruct (normalize_dash_code_returns (text_of float_repr dash)) as [[d|] E]; rewrite E;
    cbn [bind]; [|auto].
  destruct (nonempty d); [|auto].
  destruct (lookup d DASH_TO_MM) as [mm|] eqn:L; [|auto].
  right. exists d, mm. auto.
Qed.

Lemma from_inch_size_cases float_repr hose_inch :
  from_inch_size float_repr hose_inch = Ok None \/
  exists mm,
    truthy (VNum mm) = true /\
    from_inch_size float_repr hose_inch = Ok (Some (Some mm, "inch_conversion", hose_inch)).
Proof.
  unfold from_inch_size. destruct (truthy hose_inch); [|auto].
  destruct (parse_inch_to_mm_returns (text_of float_repr hose_inch)) as [[mm|] E]; rewrite E;
    cbn [bind]; [|auto].
  destruct (truthy (VNum mm)) eqn:T; [|auto].
  right. exists mm. auto.
Qed.

Lemma from_current_cases current :
  from_current current = Ok None \/
  exists mm,
    v_float current = Ok mm /\
    existsb (fun standard_mm => (f_abs (mm - standard_mm) <=? 2)%float)
      (map snd DASH_TO_MM) = true /\
    from_current current = Ok (Some (Some mm, "validated_current", current)).
Proof.
  unfold from_current. destruct (truthy current); [|auto].
  destruct (v_float current) as [mm|e]; cbn [bind try_except]; [|auto].
  destruct (existsb _ _) eqn:E; cbn [try_except]; [|auto].
  right. exists mm. auto.
Qed.

(** The four outcomes of the fixer. *)
Definition fix_outcome (float_repr : float -> string) (product : gmap string value)
  (r : fix_result) : Prop :=
  (exists d mm,
      normalize_dash_code (text_of float_repr (get_or product "dash_size" (VStr "")))
      = Ok (Some d) /\
      lookup d DASH_TO_MM = Some mm /\ r = (Some mm, "dash_code", VStr d)) \/
  (exists mm,
      truthy (VNum mm) = true /\
      r = (Some mm, "inch_conversion", get_or product "hose_size_inch" (VStr ""))) \/
  (exists mm,
      v_float (get_or product "hose_size_mm" (VStr "")) = Ok mm /\
      existsb (fun standard_mm => (f_abs (mm - standard_mm) <=? 2)%float)
        (map snd DASH_TO_MM) = true /\
      r = (Some mm, "validated_current", get_or product "hose_size_mm" (VStr ""))) \/
  r = (None, "no_source", VNone).

Lemma fix_returns float_repr product :
  exists r, fix_hose_size_from_dash float_repr product = Ok r /\
            fix_outcome float_repr product r.
Proof.
  unfold fix_hose_size_from_dash, fix_outcome. cbv zeta.
  destruct (from_dash_code_cases float_repr (get_or product "dash_size" (VStr "")))
    as [E | (d & mm & N & L & E)]; rewrite E; cbn [bind].
  2:{ eexists. split; [reflexivity|]. left. exists d, mm. auto. }
  destruct (from_inch_size_cases float_repr (get_or product "hose_size_inch" (VStr "")))
    as [E2 | (mm & T & E2)]; rewrite E2; cbn [bind].
  2:{ eexists. split; [reflexivity|]. right. left. exists mm. auto. }
  destruct (from_current_cases (get_or product "hose_size_mm" (VStr "")))
    as [E3 | (mm & F & X & E3)]; rewrite E3; cbn [bind].
  2:{ eexists. split; [reflexivity|]. right. right. left. exists mm. auto. }
  eexists. split; [reflexivity|]. right. right. right. reflexivity.
Qed.

(** X24: [fix_hose_size_from_dash] never raises and has one of four outcomes:
    the size of the dash code in the table, a non-zero size converted from
    the inch size, the current size when it is within 2 mm of a size of the
    table, or no size.  The dash code comes first: when it decides, the
    other fields of the product do not matter. *)
Theorem fixer_never_raises float_repr product :
  exists r,
    fix_hose_size_from_dash float_repr product = Ok r /\
    fix_outcome float_repr product r /\
    (snd (fst r) = "dash_code" ->
       forall product',
         get_or product' "dash_size" (VStr "") = get_or product "dash_size" (VStr "") ->
         fix_hose_size_from_dash float_repr product' = Ok r).
Proof.
  destruct (fix_returns float_repr product) as (r & E & O).
  exists r. split; [exact E|]. split; [exact O|].
  intros Hs product' Same.
  unfold fix_hose_size_from_dash in *. cbv zeta in *. rewrite Same.
  destruct (from_dash_code_cases float_repr (get_or product "dash_size" (VStr "")))
    as [E1 | (d' & mm & N & L & E1)]; rewrite E1 in *; cbn [bind] in *; [|exact E].
  exfalso.
  destruct (from_inch_size_cases float_repr (get_or product "hose_size_inch" (VStr "")))
    as [E2 | (mm & T & E2)]; rewrite E2 in E; cbn [bind] in E.
  2:{ injection E as <-. discriminate Hs. }
  destruct (from_current_cases (get_or product "hose_size_mm" (VStr "")))
    as [E3 | (mm & F & X & E3)]; rewrite E3 in E; cbn [bind] in E;
    injection E as <-; discriminate Hs.
Qed.

(** The products that [main] has counted. *)
Definition fixed_count (st : stats) : Z :=
  fixed_from_dash st + fixed_from_inch st + validated_current st + no_fix_possible st.

(** What the loop does to a product: the source of its size is recorded,
    and only the size and the source change. *)
Definition fixed_product (p p' : gmap string value) : Prop :=
  (forall k, k <> "hose_size_mm" -> k <> "hose_size_source" -> p' !! k = p !! k) /\
  exists source,
    In source ("unknown" :: fix_sources) /\
    p' !! "hose_size_source" = Some (VStr source) /\
    (source = "unknown" -> p' !! "hose_size_mm" = p !! "hose_size_mm").

Lemma item_present d k : is_Some (d !! k) -> exists v, item d k = Ok v.
Proof. intros [v E]. unfold item. rewrite E. eauto. Qed.

Lemma check_changed_spec product old_value new_value source st changes_log :
  is_Some (product !! "reference") ->
  exists st' changes_log',
    check_changed product old_value new_value source st changes_log
    = Ok (st', changes_log') /\
    total st' = total st /\ fixed_count st' = fixed_count st.
Proof.
  intros R. destruct (item_present _ _ R) as [v Ev].
  unfold check_changed, log_change. rewrite Ev. cbn [bind].
  destruct (v_float old_value) as [old|e].
  - destruct (0.5 <? f_abs (old - new_value))%float; eauto.
  - destruct (py_eq old_value (VStr "N/A") || py_eq old_value (VStr ""))%bool; eauto.
Qed.

Lemma count_source_spec source st :
  In source fix_sources ->
  total (count_source source st) = total st /\
  fixed_count (count_source source st) = fixed_count st + 1.
Proof.
  intros I. simpl in I.
  destruct I as [<- | [<- | [<- | []]]]; unfold fixed_count; cbn; split; lia.
Qed.

Lemma unknown_product (p : gmap string value) :
  fixed_product p (<["hose_size_source" := VStr "unknown"]> p).
Proof.
  split.
  - intros k _ N. apply lookup_insert_ne. congruence.
  - exists "unknown". split; [left; reflexivity|]. split; [apply lookup_insert_eq|].
    intros _. apply lookup_insert_ne. discriminate.
Qed.

Lemma fix_product_spec float_repr p st changes_log :
  is_Some (p !! "reference") ->
  exists p' st' changes_log',
    fix_product float_repr p st changes_log = Ok (p', st', changes_log') /\
    total st' = total st /\ fixed_count st' = fixed_count st + 1 /\
    fixed_product p p'.
Proof.
  intros R. unfold fix_product. cbv zeta.
  destruct (fix_returns float_repr p) as (r & E & O). rewrite E. cbn [bind].
  assert (U : exists p' st' changes_log',
             Ok (<["hose_size_source" := VStr "unknown"]> p, count_no_fix st, changes_log)
             = Ok (p', st', changes_log') /\
             total st' = total st /\ fixed_count st' = fixed_count st + 1 /\
             fixed_product p p').
  { do 3 eexists. split; [reflexivity|]. split; [reflexivity|].
    split; [unfold fixed_count; cbn; lia | apply unknown_product]. }
  assert (F : forall mm source data,
             In source fix_sources -> r = (Some mm, source, data) ->
             exists p' st' changes_log',
               (let '(new_value, source, _) := r in
                match new_value with
                | Some x =>
                    if truthy (VNum x) then
                      bind (check_changed
                              (<["hose_size_source" := VStr source]>
                                 (<["hose_size_mm" := VStr (float_repr (py_round1 x))]> p))
                              (get_or p "hose_size_mm" (VStr "N/A")) x source
                              (count_source source st) changes_log)
                        (fun r => let '(st, changes_log) := r in
                                  Ok (<["hose_size_source" := VStr source]>
                                        (<["hose_size_mm" := VStr (float_repr (py_round1 x))]> p),
                                      st, changes_log))
                    else
                      Ok (<["hose_size_source" := VStr "unknown"]> p, count_no_fix st,
                          changes_log)
                | None =>
                    Ok (<["hose_size_source" := VStr "unknown"]> p, count_no_fix st,
                        changes_log)
                end) = Ok (p', st', changes_log') /\
               total st' = total st /\ fixed_count st' = fixed_count st + 1 /\
               fixed_product p p').
  { intros mm source data I ->.
    destruct (truthy (VNum mm)); [|exact U].
    set (p1 := <["hose_size_source" := VStr source]>
                 (<["hose_size_mm" := VStr (float_repr (py_round1 mm))]> p)).
    assert (R1 : is_Some (p1 !! "reference")).
    { unfold p1. rewrite !lookup_insert_ne by discriminate. exact R. }
    destruct (check_changed_spec p1 (get_or p "hose_size_mm" (VStr "N/A")) mm source
                (count_source source st) changes_log R1) as (st' & log' & C & T & K).
    rewrite C. cbn [bind].
    destruct (count_source_spec source st I) as [T1 K1].
    exists p1, st', log'. split; [reflexivity|].
    split; [congruence|]. split; [lia|].
    split.
    - intros k N1 N2. unfold p1. rewrite !lookup_insert_ne by congruence. reflexivity.
    - exists source. split; [right; exact I|]. split; [apply lookup_insert_eq|].
      intros ->. simpl in I. destruct I as [I | [I | [I | []]]]; discriminate I. }
  destruct O as [(d & mm & _ & _ & ->) | [(mm & _ & ->) | [(mm & _ & _ & ->) | ->]]].
  - eapply F; [|reflexivity]. simpl; tauto.
  - eapply F; [|reflexivity]. simpl; tauto.
  - eapply F; [|reflexivity]. simpl; tauto.
  - exact U.
Qed.

Lemma fix_products_spec float_repr data :
  Forall (fun p => is_Some (p !! "reference")) data ->
  forall st changes_log,
  exists data' st' changes_log',
    fix_products float_repr data st changes_log = Ok (data', st', changes_log') /\
    total st' = total st /\
    fixed_count st' = fixed_count st + Z.of_nat (List.length data) /\
    Forall2 fixed_product data data'.
Proof.
  induction 1 as [|p data R _ IH]; intros st changes_log.
  - do 3 eexists. split; [reflexivity|]. split; [reflexivity|].
    split; [simpl; lia | constructor].
  - destruct (fix_product_spec float_repr p st changes_log R)
      as (p' & st1 & log1 & E & T & K & P).
    destruct (IH st1 log1) as (data' & st2 & log2 & E2 & T2 & K2 & P2).
    cbn [fix_products]. rewrite E. cbn [bind]. rewrite E2. cbn [bind].
    do 3 eexists. split; [reflexivity|]. split; [congruence|].
    split; [|constructor; assumption].
    rewrite K2, K. cbn [List.length]. lia.
Qed.

Lemma find_reference_returns ref data :
  Forall (fun p => is_Some (p !! "reference")) data ->
  exists r, find_reference ref data = Ok r.
Proof.
  induction 1 as [|p data R _ IH]; simpl; [eauto|].
  destruct (item_present _ _ R) as [v ->]. cbn [bind].
  destruct (py_eq v (VStr ref)); eauto.
Qed.

Lemma int_truediv_returns a b : b <> 0 -> exists q, ProductMatcher.int_truediv a b = Ok q.
Proof.
  intros N. unfold ProductMatcher.int_truediv.
  destruct (b =? 0) eqn:E; [apply Z.eqb_eq in E; contradiction | eauto].
Qed.

(** X25: [main] of the fixer raises ZeroDivisionError on an empty list of
    products.  On a non-empty list whose products all have a reference it
    returns, the total is the number of products, the four counters of the
    sources add up to the total, and each product keeps all its fields but
    the size and its source, the size too when the source is unknown. *)
Theorem main_counts_every_product float_repr :
  main float_repr [] = Raise ZeroDivisionError /\
  forall data,
    (0 < List.length data)%nat ->
    Forall (fun p => is_Some (p !! "reference")) data ->
    exists data' st,
      main float_repr data = Ok (data', st) /\
      total st = Z.of_nat (List.length data) /\
      fixed_count st = total st /\
      Forall2 fixed_product data data'.
Proof.
  split; [reflexivity|].
  intros data N R. unfold main.
  destruct (fix_products_spec float_repr data R
              (Stats (Z.of_nat (List.length data)) 0 0 0 0 0) [])
    as (data' & st & log & E & T & K & P).
  rewrite E. cbn [bind]. cbn [total] in T. unfold fixed_count at 2 in K. cbn in K.
  assert (NZ : total st <> 0) by lia.
  destruct (int_truediv_returns (fixed_from_dash st) _ NZ) as [q1 ->].
  destruct (int_truediv_returns (fixed_from_inch st) _ NZ) as [q2 ->].
  destruct (int_truediv_returns (validated_current st) _ NZ) as [q3 ->].
  destruct (int_truediv_returns (no_fix_possible st) _ NZ) as [q4 ->].
  cbn [bind].
  assert (R' : Forall (fun p => is_Some (p !! "reference")) data').
  { clear -R P. induction P as [|p p' data data' [F _] _ IH]; [constructor|].
    inversion R; subst. constructor; [|apply IH; assumption].
    rewrite F by discriminate. assumption. }
  destruct (find_reference_returns "23.5013.1030" data' R') as [r ->]. cbn [bind].
  exists data', st. split; [reflexivity|]. split; [exact T|]. split; [lia | exact P].
Qed.

(** A fitting with a dash code and a reference. *)
Definition fitting_8 : gmap string value :=
  <["reference" := VStr "23.5013.1030"]> (<["dash_size" := VStr "-8"]>
  (<["hose_size_mm" := VStr "19"]> ∅)).

Lemma main_counts_every_product_witness :
  exists data' st,
    main (fun _ => "12.7") [fitting_8] = Ok (data', st) /\
    total st = 1 /\ fixed_count st = total st /\
    Forall2 fixed_product [fitting_8] data'.
Proof.
  apply (proj2 (main_counts_every_product (fun _ => "12.7")) [fitting_8]).
  - simpl. lia.
  - repeat constructor. exists (VStr "23.5013.1030"). reflexivity.
Defined.

End HoseSizeFixer.
